(* ===== verification/_CoqProject ===== *)
-Q . S2P
Prelude.v
Detector.v
Debouncer.v
Camera.v
System.v
Reach.v
Loop.v
AppState.v
Routes.v
Integration.v
Server.v
Scenarios.v
