(* ===== verification/Prelude.v ===== *)
(** * A verification development for the exam-proctoring portal

    The repository has two Python files:
    - [src/camera.py]: the capture-and-detection engine.  One class,
      [Camera] (alias [VideoCamera]), whose state is class-level and
      therefore shared by every request thread, plus the module-global
      [frame_count] and the constant [DETECTION_FRAME_SKIP].  Request
      threads call [initialize] (record the student id and log callback,
      start the background thread when [Camera.thread is None]) and
      [get_frame] (stamp [last_access], poll until a frame exists, return
      it).  The background thread [_thread] opens the webcam (index 0,
      else 1), then loops: read a frame, every third frame classify the
      faces and maybe emit a log event through the callback, encode and
      publish the frame, sleep to hold 30 frames per second, and stop
      after 10 s without a reader.
    - [src/app.py]: the Flask glue.  Mock tables [EXAMS], [USERS],
      [SESSION_LOGS], the sink [central_log_handler] that the camera's
      callback points at, and the routes (questions, answers, admin
      actions, browser events, the video stream [video_feed]/[gen]).

    ** Files, in dependency order
    - [Prelude] (this file): clock units, Python truthiness as the type
      class [Truthy], the hint databases [cam]/[cam_rw], the tactic
      [decide_cmp] and the shared lemmas on boolean comparisons.
    - [Detector] (Module [Detector]): [camera.py] lines 11 and 89-108:
      the sampling test [frame_count % DETECTION_FRAME_SKIP == 0]
      ([sampled]) and the classification of the number of faces into a
      status, a level and a message ([classify]).
    - [Debouncer] (Module [Debouncer]): lines 110-114: the emission test
      [should_log] and the update of [last_face_status]/[last_log_time]
      ([debounce]), its run over classified samples ([debounce_run]),
      and the specification's policy [spec_run].
    - [Camera] (Module [Cam], Section with the sink [LogSink]): the class
      attributes ([Camera], lines 19-27) and the process-wide state
      ([Shared]: clock, attributes, [frame_count], the sink's world);
      [initialize] split at its test into [init_check] (31-33) and
      [spawn] (34-35); [get_frame] into [access] (39) and [poll]
      (41-43); [log_event] (46-49); the loop body [process_frame]
      (86-121) with [detect_step] (89-114) and [pace] (123-129); the
      thread [_thread] as a program counter [WPc] and its step
      [worker_step] (52-137), fed by the environment's answers [WObs].
    - [System] (Module [Sys]): the request threads of [video_feed]/[gen]
      ([app.py] 146-162) as program counters [CPc] with [client_step];
      a configuration [Sys] of the shared state, the background threads
      and the request threads; the scheduler [step_with]/[run_with],
      which interleaves clock ticks, new requests and single steps of
      any thread; [step_serial]/[run_serial] is the same scheduler on
      the schedules that never switch request threads between lines 33
      and 34 of [initialize].
    - [Reach] (Module [Reach]): the well-formedness [sys_wf] of every
      configuration the code reaches ([reachable_wf], by induction on
      schedules), the hypothesis of the viewer's bounded wait.
    - [Loop] (Module [Loop]): the loop of lines 79-134 with successful
      reads and no reader as a total function [solo_loop], defined with
      Equations by well-founded recursion on the remaining idle budget
      [budget] (each [iteration] advances the clock by at least 1/30 s
      while [last_access] stays); [loop_iteration_steps] ties an
      iteration to three steps of [worker_step].
    - [AppState] (Module [AppState]): [app.py] 8-45: the tables [EXAMS],
      [USERS], [SESSION_LOGS] (stdpp [gmap]s), JSON values, the Python
      helpers the routes use, and [central_log_handler], which is the
      camera's [LogSink] instance.
    - [Routes] (Module [Routes]): every Flask route of [app.py] 51-192
      but the video stream, as a function of its inputs and the state to
      a response and a new state; exceptions are [RError 500];
      [handle] dispatches.
    - [Integration] (Module [Integration]): the loop body run on
      successive frames with the application's sink, [feed].
    - [Server] (Module [Server]): the threaded Flask server: HTTP request
      threads ([HPc]) interleaved with the camera system; every route is
      one step except [submit_answer], split into [submit_read] (lines
      85-99) and [submit_write] (101-118) at the point where the
      interpreter may switch threads.
    - [Scenarios] (Module [Scenarios]): the system instantiated as
      [app.py] builds it, concrete schedules, and the witnesses.

    ** What the theorems show
    - Concurrency of [initialize] ([System]): the code's unlocked test
      and start lets two requests start two threads holding two devices
      ([initialize_race_two_devices]); on every schedule that does not
      switch request threads between lines 33 and 34, every live thread
      is the one [Camera.thread] names, so at most one is alive
      ([serial_single_worker], by induction on runs): the race is the
      only way to two threads.
    - Lifecycle ([System]): idle shutdown after one more frame
      ([idle_shutdown]); no shutdown while reads fail, for any number of
      failures ([read_failure_never_stops]); a teardown race leaves
      viewers on a frozen stream under every schedule without new
      requests ([stream_frozen]); a failed device open is final under
      every schedule ([device_failure_permanent]).  The last two are
      invariants of [run] proved by induction on the schedule.  A
      restart after teardown inherits the old frame, [frame_count] and
      debouncer state ([restart_inherits_state]).
    - Debouncing ([Debouncer], [Camera]): the code refines the
      specification's policy ([debounce_run_refines]), emissions are
      spaced ([emissions_spaced]), steady anomalies are silent, the
      heartbeat is strict, the scenario of the specification.
    - End to end ([Integration]): the student's [video_warnings] is the
      debouncer's output on the sampled frames ([video_log_emissions]);
      exactly one frame in three is sampled ([sampled_every_third]).
    - Routes ([Routes]): every route preserves the consistency of the
      users with their exams and only appends to the logs; the answer
      key is never sent; the behaviour of each route on its branches,
      error paths included; round trips (a warning is visible on the
      dashboard, an answer leads to the next question); answering the
      remaining questions in order ([submit_all]) submits the exam with
      the score grown by exactly the number of correct answers, the
      grading contract [count_correct] ([exam_score_counts]).
    - Concurrency of the server ([Server]): under every interleaving the
      logs only grow and only the camera writes the video log; every
      user keeps its exam, a score at most its index and is submitted
      once the index reaches the end, so line 95 ('No more questions')
      is never reached ([no_more_questions_unreachable], an invariant
      of the HTTP threads and the state together); yet two submissions
      of the last question are both scored
      ([double_submit_overscore]), and a submission in flight is
      recorded after the proctor ended the session
      ([answer_after_end_session]).
    - Waiting viewers ([Reach]): in every reachable configuration
      ([reachable_wf]), a viewer waiting for the first frame sends it
      within one poll delay of its publication ([viewer_bounded_wait]).
    - Termination ([Loop]): with no reader the loop ends by the idle
      test after at most 301 frames ([idle_loop_terminates]); the
      thread's own schedule of those iterations, run in [System],
      releases the device and clears [Camera.thread]
      ([no_reader_releases]).

    ** Time and bounds
    [time.time()] returns float seconds.  The model counts integer
    ticks of 1/30000 s ([TICKS_PER_SEC]), the unit in which every
    constant of the code is exact: 1 s, 0.5 s, 0.05 s, 1/30 s, 5 s and
    10 s.  Float rounding of the differences is not modelled.  Sleeps
    are wake-up times: a sleeping thread cannot move until a [Tick]
    brings the clock there.  The two [time.time()] calls of lines 111
    and 113 read the same instant.  No definition needs fuel: runs are
    over finite schedules, the theorems about unbounded behaviour
    quantify over every schedule or every number of iterations, and the
    one loop modelled as a function ([Loop.solo_loop]) is total by a
    measure: its bound of 301 iterations is 10 s of budget over 1/30 s
    per iteration, plus the iteration that finds the idle test true.
    Integers of the code are unbounded in Python and [Z]/[nat] here.

    ** Not modelled
    OpenCV itself (device drivers, [detectMultiScale], [imencode],
    [imutils.resize]): their results enter the model as inputs chosen by
    the environment (whether a device opens, whether a read succeeds,
    how many faces were found, the encoded bytes).  [print] output,
    template rendering, the HTTP framework and the JSON encoding of
    responses are I/O and are not modelled; responses are values.  The
    frame source and the encoder are therefore partly modelled: their
    control flow (fallback, sentinel, backoff, the ignored success flag)
    is in [worker_step], their computations are inputs.  The
    specification's freshness property (no read returns a buffer older
    than one read before) has no counterpart in the code, which numbers
    no frames: the model shows instead that every read returns the
    current [Camera.frame], replaced as a whole by one assignment.
    A step of the model runs atomically the statements between two
    points where another thread can see a difference: the loop body
    from a successful read to the pacing sleep is one step, because the
    request threads read only [Camera.frame], which it writes once, last.
    In [Server] every route but [submit_answer] is one atomic step, and
    the writes of [submit_answer] (lines 101-117) are one step too.
    Finer interleavings are not modelled.  They would add two
    behaviours: [admin_end_session] seen between its two assignments
    (lines 136-137), where [submit_read] still passes, which
    [answer_after_end_session] already shows with the whole route; and
    lost updates in [user['score'] += 1] and
    [user['current_q_index'] += 1], each a read, an add and a store
    that another request thread can interrupt.  So the over-scoring of
    [double_submit_overscore] is a lower bound on what the threaded
    server can do. *)

From stdpp Require Export base decidable list strings.
From Stdlib Require Export ZArith Lia String.

Declare Scope cam_scope.
Delimit Scope cam_scope with cam.
Open Scope Z_scope.

(** ** Clock *)

(** One tick is 1/30000 s. *)
Definition TICKS_PER_SEC : Z := 30000.

(** [secs n] is [n] seconds in ticks. *)
Definition secs (n : Z) : Z := n * TICKS_PER_SEC.

Notation "n 'sec'" := (secs n) (at level 1, no associativity) : cam_scope.

(** A Python [bytes] value. *)
Abbreviation bytes := (list Byte.byte).

(** ** Python truthiness *)

(** [if x:] in Python tests the truth value of [x]: [None], [b''] and
    [''] are false, a function object is true. *)
Class Truthy (A : Type) := truthy : A -> bool.
Arguments truthy {_ _} !_ /.

#[export] Instance truthy_string : Truthy string :=
  fun s => negb (String.eqb s "").
#[export] Instance truthy_bytes : Truthy bytes :=
  fun b => match b with [] => false | _ => true end.
#[export] Instance truthy_option {A} `{Truthy A} : Truthy (option A) :=
  fun o => match o with None => false | Some a => truthy a end.

(** ** Automation *)

Create HintDb cam.
Create Rewrite HintDb cam_rw.

(** Boolean comparisons of [Z] as propositions. *)
Lemma Z_gtb_true (a b : Z) : (a >? b) = true <-> b < a.
Proof. apply Z.gtb_lt. Qed.

Lemma Z_gtb_false (a b : Z) : (a >? b) = false <-> a <= b.
Proof. rewrite Z.gtb_ltb. apply Z.ltb_ge. Qed.

Lemma truthy_string_iff (s : string) : truthy s = true <-> s <> "".
Proof.
  unfold truthy, truthy_string. rewrite negb_true_iff.
  destruct (String.eqb_spec s ""); split; congruence.
Qed.

Lemma truthy_bytes_iff (b : bytes) : truthy b = true <-> b <> [].
Proof. destruct b; cbn; split; congruence. Qed.

#[export] Hint Rewrite Z_gtb_true Z_gtb_false truthy_string_iff truthy_bytes_iff : cam_rw.

(** [decide_cmp] splits on every boolean [Z] comparison of the goal. *)
Ltac decide_cmp :=
  repeat match goal with
  | |- context [?a >? ?b] => destruct (Z.gtb_spec a b)
  | |- context [?a <? ?b] => destruct (Z.ltb_spec a b)
  | |- context [?a <=? ?b] => destruct (Z.leb_spec a b)
  | H : context [?a >? ?b] |- _ => destruct (Z.gtb_spec a b)
  end.
