(* ===== verification/Detector.v ===== *)
(** * Detector: sampling and classification ([src/camera.py] 11, 89-108)

    [frame_count % DETECTION_FRAME_SKIP == 0] decides whether a frame is
    classified; the number of faces that [detectMultiScale] returned is
    turned into the status, the log level and the log message that the
    debouncer may emit.  The face finder itself is OpenCV and enters the
    model only through the count it returns. *)

From S2P Require Import Prelude.
From stdpp Require Import pretty.

Module Detector.

(** The three values [camera.py] stores in [current_status]. *)
Inductive FaceStatus := Detected | NotDetected | Multiple.

#[export] Instance FaceStatus_eq_dec : EqDecision FaceStatus.
Proof. solve_decision. Defined.

(** The strings the code uses for them. *)
Definition status_str (s : FaceStatus) : string :=
  match s with
  | Detected => "detected"
  | NotDetected => "not_detected"
  | Multiple => "multiple"
  end.

(** Line 11: detection runs on every third frame. *)
Definition DETECTION_FRAME_SKIP : nat := 3.

(** Line 89: [if frame_count % DETECTION_FRAME_SKIP == 0]. *)
Definition sampled (frame_count : nat) : bool :=
  Nat.eqb (frame_count mod DETECTION_FRAME_SKIP) 0.

(** What one classification produces: [current_status], [log_level]
    and [log_message]. *)
Record Verdict := mkVerdict {
  v_status : FaceStatus;
  v_level : string;
  v_message : string
}.

(** Lines 97-108, with [nfaces = len(faces)]: the defaults describe one
    face; zero faces and more than one face overwrite all three. *)
Definition classify (nfaces : nat) : Verdict :=
  if Nat.eqb nfaces 0 then
    mkVerdict NotDetected "CRITICAL" "User Face NOT DETECTED (out of frame/covered)."
  else if Nat.ltb 1 nfaces then
    mkVerdict Multiple "CRITICAL"
      ("MULTIPLE FACES detected: " +:+ pretty nfaces +:+ " people in view.")
  else mkVerdict Detected "INFO" "Face detected and centered.".

(** The status as a function of the count: 0, 1 or more faces. *)
Definition status_of_count (n : nat) : FaceStatus :=
  match n with 0 => NotDetected | 1 => Detected | _ => Multiple end.

(** ** Properties *)

Lemma classify_status n : v_status (classify n) = status_of_count n.
Proof. destruct n as [|[|n]]; reflexivity. Qed.

(** The level is CRITICAL exactly for the anomalies (no face, several
    faces) and INFO for exactly one face. *)
Lemma classify_level n :
  v_level (classify n) = if decide (v_status (classify n) = Detected)
                         then "INFO" else "CRITICAL".
Proof. destruct n as [|[|n]]; reflexivity. Qed.

(** The message for several faces reports their number. *)
Lemma classify_multiple_message n :
  1 < n ->
  classify n = mkVerdict Multiple "CRITICAL"
    ("MULTIPLE FACES detected: " +:+ pretty n +:+ " people in view.").
Proof.
  intros Hn. unfold classify.
  destruct (Nat.eqb_spec n 0); [lia|].
  destruct (Nat.ltb_spec 1 n); [reflexivity|lia].
Qed.

(** The sampled frames are the multiples of three. *)
Lemma sampled_iff fc : sampled fc = true <-> exists k, fc = (3 * k)%nat.
Proof.
  unfold sampled, DETECTION_FRAME_SKIP. rewrite Nat.eqb_eq. split.
  - intros H. exists (fc / 3)%nat.
    pose proof (Nat.div_mod_eq fc 3). lia.
  - intros [k ->]. rewrite Nat.mul_comm. apply Nat.Div0.mod_mul.
Qed.

(** Sampling repeats with period three. *)
Lemma sampled_period fc : sampled (fc + 3) = sampled fc.
Proof.
  unfold sampled, DETECTION_FRAME_SKIP.
  replace (fc + 3)%nat with (fc + 1 * 3)%nat by lia.
  rewrite Nat.Div0.mod_add. reflexivity.
Qed.

End Detector.
