(* ===== verification/Debouncer.v ===== *)
(** * Debouncer: when a classification is logged ([src/camera.py] 110-114)

    The debouncer's state is the pair of class attributes
    [Camera.last_face_status] (initially ['detected'], line 27) and
    [Camera.last_log_time] (initially the import time, line 26).  A
    classified sample is logged when its status differs from
    [last_face_status], or when it is ['detected'] and more than 5 s
    passed since [last_log_time]; logging refreshes both attributes.

    [debounce] is that step, [debounce_run] its run over a sequence of
    samples, and [spec_run] the abstract specification: emit when the
    status differs from the previous *sample*, or on the heartbeat.  The
    refinement theorem [debounce_run_refines] shows the code, which
    compares with the last *emitted* status, meets it. *)

From S2P Require Import Prelude Detector.

Module Debouncer.
Import Detector.

(** Line 111: the heartbeat interval of [time.time() - last_log_time > 5]. *)
Definition HEARTBEAT : Z := (5 sec)%cam.

(** The two class attributes the debouncer owns. *)
Record DState := mkD {
  last_face_status : FaceStatus;
  last_log_time : Z
}.

(** Line 111: the emission test, at clock [now]. *)
Definition should_log (cur : FaceStatus) (d : DState) (now : Z) : bool :=
  negb (bool_decide (cur = last_face_status d))
  || (bool_decide (cur = Detected) && (now - last_log_time d >? HEARTBEAT)).

(** What goes to [log_event] (level and message), with the status and the
    clock of the sample that caused it. *)
Record Emission := mkEmission {
  em_status : FaceStatus;
  em_level : string;
  em_message : string;
  em_time : Z
}.

(** Lines 111-114: emit and refresh both attributes, or do nothing. *)
Definition debounce (v : Verdict) (d : DState) (now : Z) : option Emission * DState :=
  if should_log (v_status v) d now
  then (Some (mkEmission (v_status v) (v_level v) (v_message v) now), mkD (v_status v) now)
  else (None, d).

(** A run over classified samples [(number of faces, clock)]: one
    optional emission per sample, and the final state. *)
Fixpoint debounce_run (d : DState) (ss : list (nat * Z)) : list (option Emission) * DState :=
  match ss with
  | [] => ([], d)
  | (n, t) :: ss' =>
      let (o, d1) := debounce (classify n) d t in
      let (os, d2) := debounce_run d1 ss' in
      (o :: os, d2)
  end.

(** The abstract specification: [prev] is the status of the previous
    sample and [last_emit] the clock of the last emission; a sample is
    emitted when its status changed, or when it is [Detected] and the
    heartbeat interval has passed. *)
Fixpoint spec_run (prev : FaceStatus) (last_emit : Z) (ss : list (nat * Z)) : list bool :=
  match ss with
  | [] => []
  | (n, t) :: ss' =>
      let s := status_of_count n in
      let e := negb (bool_decide (s = prev))
               || (bool_decide (s = Detected) && (t - last_emit >? HEARTBEAT)) in
      e :: spec_run s (if e then t else last_emit) ss'
  end.

(** The emissions of a run, in order. *)
Definition emissions (d : DState) (ss : list (nat * Z)) : list Emission :=
  omap id (fst (debounce_run d ss)).

(** [e] may follow state [d]: its status changed, or it is the heartbeat
    of a steady [Detected] more than 5 s after the last emission. *)
Definition fresh_wrt (d : DState) (e : Emission) : Prop :=
  em_status e <> last_face_status d
  \/ (em_status e = Detected /\ em_time e - last_log_time d > HEARTBEAT).

(** Every emission of a list is fresh with respect to the one before it
    (the first one: with respect to the initial state). *)
Fixpoint spaced (d : DState) (es : list Emission) : Prop :=
  match es with
  | [] => True
  | e :: es' => fresh_wrt d e /\ spaced (mkD (em_status e) (em_time e)) es'
  end.

(** ** Step lemmas *)

Lemma debounce_state v d now :
  snd (debounce v d now) =
  if should_log (v_status v) d now then mkD (v_status v) now else d.
Proof. unfold debounce. destruct (should_log _ _ _); reflexivity. Qed.

(** After any sample the stored status is the sample's status: when it
    differs, the sample is always logged. *)
Lemma debounce_tracks v d now :
  last_face_status (snd (debounce v d now)) = v_status v.
Proof.
  rewrite debounce_state. unfold should_log.
  destruct (decide (v_status v = last_face_status d)) as [E|E].
  - rewrite bool_decide_true by exact E.
    destruct (_ && _); [reflexivity | symmetry; exact E].
  - rewrite bool_decide_false by exact E. reflexivity.
Qed.

Lemma debounce_run_cons d n t ss :
  debounce_run d ((n, t) :: ss) =
  (fst (debounce (classify n) d t) :: fst (debounce_run (snd (debounce (classify n) d t)) ss),
   snd (debounce_run (snd (debounce (classify n) d t)) ss)).
Proof. cbn. destruct (debounce _ _ _), (debounce_run _ _). reflexivity. Qed.

(** The step emits exactly when the test holds, and what it emits. *)
Lemma debounce_emits v d now e :
  fst (debounce v d now) = Some e <->
  should_log (v_status v) d now = true /\
  e = mkEmission (v_status v) (v_level v) (v_message v) now.
Proof.
  unfold debounce. destruct (should_log _ _ _); cbn; split.
  - intros [= <-]. auto.
  - intros [_ ->]. reflexivity.
  - discriminate.
  - intros [? _]; discriminate.
Qed.

#[export] Hint Rewrite debounce_run_cons : cam_rw.

(** The new state: the sample's status, and the clock if it was logged. *)
Lemma debounce_next v d now :
  snd (debounce v d now) =
  mkD (v_status v) (if should_log (v_status v) d now then now else last_log_time d).
Proof.
  pose proof (debounce_tracks v d now) as T. rewrite debounce_state in *.
  destruct (should_log _ _ _); [reflexivity|]. destruct d; cbn in *. congruence.
Qed.

Lemma debounce_silent v d now :
  fst (debounce v d now) = None -> snd (debounce v d now) = d.
Proof. unfold debounce. destruct (should_log _ _ _); [discriminate | reflexivity]. Qed.

Lemma emissions_cons d n t ss :
  emissions d ((n, t) :: ss) =
  match fst (debounce (classify n) d t) with
  | Some e => e :: emissions (snd (debounce (classify n) d t)) ss
  | None => emissions (snd (debounce (classify n) d t)) ss
  end.
Proof. unfold emissions. rewrite debounce_run_cons. cbn. destruct (fst _); reflexivity. Qed.

Lemma should_log_fresh v d now :
  should_log (v_status v) d now = true ->
  fresh_wrt d (mkEmission (v_status v) (v_level v) (v_message v) now).
Proof.
  unfold should_log, fresh_wrt; cbn. rewrite orb_true_iff, andb_true_iff, negb_true_iff.
  rewrite !bool_decide_eq_true, bool_decide_eq_false, Z_gtb_true. intuition lia.
Qed.

(** Runs compose: the run over [ss1 ++ ss2] is the run over [ss2] from
    the state the run over [ss1] ends in. *)
Lemma debounce_run_app d ss1 ss2 :
  debounce_run d (ss1 ++ ss2) =
  (fst (debounce_run d ss1) ++ fst (debounce_run (snd (debounce_run d ss1)) ss2),
   snd (debounce_run (snd (debounce_run d ss1)) ss2)).
Proof.
  revert d. induction ss1 as [|[n t] ss1 IH]; intros d.
  - cbn. destruct (debounce_run d ss2); reflexivity.
  - rewrite <- app_comm_cons, !debounce_run_cons, IH. reflexivity.
Qed.

Lemma emissions_app d ss1 ss2 :
  emissions d (ss1 ++ ss2) = emissions d ss1 ++ emissions (snd (debounce_run d ss1)) ss2.
Proof. unfold emissions. rewrite debounce_run_app. cbn. apply omap_app. Qed.

(** ** Theorems *)

(** C4: refinement.  On every sequence of samples the code emits at the
    same samples as the specification that compares each sample with the
    previous sample: the stored [last_face_status] always equals the
    status of the previous sample. *)
Theorem debounce_run_refines d ss :
  map (fun o : option Emission => bool_decide (is_Some o)) (fst (debounce_run d ss))
  = spec_run (last_face_status d) (last_log_time d) ss.
Proof.
  revert d. induction ss as [|[n t] ss IH]; intros d; [reflexivity|].
  rewrite debounce_run_cons. cbn [map fst spec_run]. rewrite IH, debounce_next.
  cbn. rewrite <- classify_status. unfold debounce.
  destruct (should_log _ _ _) eqn:E; cbn; unfold should_log in E; rewrite E; reflexivity.
Qed.

(** C5: no alert flooding.  In the list of emissions, each one differs in
    status from the one before, or is a [Detected] heartbeat more than 5 s
    after it; the first one is likewise fresh with respect to the initial
    state. *)
Theorem emissions_spaced d ss : spaced d (emissions d ss).
Proof.
  revert d. induction ss as [|[n t] ss IH]; intros d; [exact I|].
  rewrite emissions_cons.
  destruct (fst (debounce (classify n) d t)) as [e|] eqn:E.
  - pose proof E as E'. apply debounce_emits in E' as [Hl ->]. split.
    + by apply should_log_fresh.
    + rewrite debounce_next, Hl. apply IH.
  - rewrite (debounce_silent _ _ _ E). apply IH.
Qed.

(** C15: a steady anomaly is reported once.  When the stored status is
    [NotDetected] or [Multiple] and every sample keeps that status, no
    sample is logged however long the run: only the entry into an
    anomaly is reported, never a reminder. *)
Theorem steady_anomaly_silent d ss :
  last_face_status d <> Detected ->
  Forall (fun nt => status_of_count (fst nt) = last_face_status d) ss ->
  emissions d ss = [].
Proof.
  intros Hd Hall. induction Hall as [|[n t] ss Hs _ IH]; [reflexivity|].
  cbn in Hs. rewrite emissions_cons.
  assert (E : should_log (v_status (classify n)) d t = false).
  { unfold should_log. rewrite classify_status, Hs.
    rewrite bool_decide_true, bool_decide_false by congruence. reflexivity. }
  unfold debounce. rewrite E. exact IH.
Qed.

(** C16: the heartbeat fires strictly after 5 s.  A steady [Detected]
    sample is logged exactly when more than [HEARTBEAT] ticks passed since
    the last log: at exactly 5 s it is not. *)
Theorem heartbeat_strict l t :
  should_log Detected (mkD Detected l) t = true <-> t - l > HEARTBEAT.
Proof.
  unfold should_log; cbn. rewrite bool_decide_true by reflexivity. cbn.
  rewrite Z_gtb_true. lia.
Qed.

(** C17: the scenario of the specification.  With the stored status
    ['detected'] logged at [l], the samples single, single, absent,
    absent, single (1, 1, 0, 0, 1 faces), the first two within 5 s of
    [l], are logged exactly at positions 2 (CRITICAL) and 4 (INFO). *)
Theorem scenario_single_absent l t0 t1 t2 t3 t4 :
  t0 - l <= HEARTBEAT -> t1 - l <= HEARTBEAT ->
  fst (debounce_run (mkD Detected l)
         [(1%nat, t0); (1%nat, t1); (0%nat, t2); (0%nat, t3); (1%nat, t4)]) =
  [None; None;
   Some (mkEmission NotDetected "CRITICAL" "User Face NOT DETECTED (out of frame/covered)." t2);
   None;
   Some (mkEmission Detected "INFO" "Face detected and centered." t4)].
Proof.
  intros H0 H1. cbv -[Z.sub Z.gtb HEARTBEAT].
  destruct (Z.gtb_spec (t0 - l) HEARTBEAT); [lia|].
  destruct (Z.gtb_spec (t1 - l) HEARTBEAT); [lia|]. reflexivity.
Qed.

(** ** Witnesses *)

Example steady_anomaly_silent_witness :
  emissions (mkD Multiple 0) [(2%nat, 10); (5%nat, 400000); (3%nat, 900000)] = [].
Proof.
  apply steady_anomaly_silent; [discriminate|].
  repeat constructor.
Defined.

Example scenario_single_absent_witness :
  fst (debounce_run (mkD Detected 0)
         [(1%nat, 100); (1%nat, 200); (0%nat, 300); (0%nat, 400); (1%nat, 500)]) =
  [None; None;
   Some (mkEmission NotDetected "CRITICAL" "User Face NOT DETECTED (out of frame/covered)." 300);
   None;
   Some (mkEmission Detected "INFO" "Face detected and centered." 500)].
Proof. apply scenario_single_absent; vm_compute; discriminate. Defined.

End Debouncer.
