(* ===== verification/Camera.v ===== *)
(** * Camera: the shared class state and the steps of its threads
    ([src/camera.py] 14-137)

    [Camera]'s attributes are class attributes, shared by every request
    thread and by the background thread; [frame_count] is a module
    global.  [Shared] gathers them with the wall clock and the state of
    the logging sink's owner (the world [W]).  The sink is the capability
    [initialize] receives; [LogSink] is its interface.

    The background thread [_thread] is a program counter [WPc] with one
    constructor per point where the thread waits or where another thread
    can observe its effects; [worker_step] runs it from one such point to
    the next, consuming the environment's answer [WObs] (what OpenCV
    returned).  A thread in [WSettle], [WBackoff] or [WPace] sleeps until
    the clock reaches its wake-up time.  [initialize] and [get_frame] are
    split likewise into [init_check] (lines 31-33), [spawn] (34-35),
    [access] (39) and [poll] (41-43); the request threads that run them
    are in [System]. *)

From S2P Require Import Prelude Detector Debouncer.

(** The logging capability: [log_callback(student_id, type, level,
    message)], run at clock [now] on the world [W] it updates. *)
Class LogSink (Cb W : Type) :=
  log_sink : Cb -> string -> string -> string -> string -> Z -> W -> W.

Module Cam.
Import Detector Debouncer.

(** ** Constants of [_thread] and [get_frame] *)

(** Line 58: [time.sleep(1)] before checking the device. *)
Definition SETTLE_DELAY : Z := (1 sec)%cam.
(** Line 83: [time.sleep(0.5)] after a failed read. *)
Definition READ_RETRY_DELAY : Z := TICKS_PER_SEC / 2.
(** Line 126: [target_delay = 1.0 / 30.0]. *)
Definition TARGET_DELAY : Z := TICKS_PER_SEC / 30.
(** Line 132: stop after more than 10 s without [get_frame]. *)
Definition IDLE_TIMEOUT : Z := (10 sec)%cam.
(** Line 42: [time.sleep(0.05)] while no frame exists. *)
Definition POLL_DELAY : Z := TICKS_PER_SEC / 20.

Section Cam.
Context {Cb W : Type} `{!LogSink Cb W}.

(** Lines 19-27: the class attributes.  [thread] names the background
    thread by its index among the threads ever started. *)
Record Camera := mkCamera {
  thread : option nat;
  frame : option bytes;
  last_access : Z;
  log_callback : option Cb;
  student_id : option string;
  last_log_time : Z;
  last_face_status : FaceStatus
}.

(** The process-wide state the camera code touches: the clock read by
    [time.time()], the class attributes, the module global [frame_count]
    (line 12) and the world the sink updates. *)
Record Shared := mkShared {
  clock : Z;
  cam : Camera;
  frame_count : nat;
  world : W
}.

(** Lines 19-27 at import time [t0]: no thread, no frame, [last_access]
    0, no callback, [last_log_time = time.time()], status ['detected']. *)
Definition camera_init (t0 : Z) : Camera :=
  mkCamera None None 0 None None t0 Detected.

(** Single-attribute assignments. *)
Definition set_thread (t : option nat) (c : Camera) : Camera :=
  mkCamera t (frame c) (last_access c) (log_callback c) (student_id c)
    (last_log_time c) (last_face_status c).
Definition set_frame (f : option bytes) (c : Camera) : Camera :=
  mkCamera (thread c) f (last_access c) (log_callback c) (student_id c)
    (last_log_time c) (last_face_status c).
Definition set_last_access (t : Z) (c : Camera) : Camera :=
  mkCamera (thread c) (frame c) t (log_callback c) (student_id c)
    (last_log_time c) (last_face_status c).

Definition set_cam (c : Camera) (s : Shared) : Shared :=
  mkShared (clock s) c (frame_count s) (world s).

(** The debouncer's view of the class attributes. *)
Definition dstate (c : Camera) : DState := mkD (last_face_status c) (last_log_time c).

(** ** [initialize] and [get_frame] *)

(** Lines 31-33: store the student id and the callback; report whether
    [Camera.thread is None], i.e. whether the caller goes on to start a
    thread. *)
Definition init_check (sid : string) (cb : Cb) (c : Camera) : Camera * bool :=
  let c' := mkCamera (thread c) (frame c) (last_access c) (Some cb) (Some sid)
              (last_log_time c) (last_face_status c) in
  (c', match thread c with None => true | Some _ => false end).

(** Lines 34-35: [Camera.thread = threading.Thread(...)]; [start()]. *)
Definition spawn (id : nat) (c : Camera) : Camera := set_thread (Some id) c.

(** Line 39: [Camera.last_access = time.time()]. *)
Definition access (s : Shared) : Shared :=
  set_cam (set_last_access (clock s) (cam s)) s.

(** Lines 41-43: one test of [while Camera.frame is None]: the frame to
    return, or [None] when the caller must sleep [POLL_DELAY]. *)
Definition poll (c : Camera) : option bytes := frame c.

(** ** The body of [_thread] *)

(** Lines 46-49: [log_event] calls the callback only when both the
    callback and the student id are set (and the id is not empty). *)
Definition log_event (level message : string) (c : Camera) (now : Z) (w : W) : W :=
  match log_callback c, student_id c with
  | Some cb, Some sid =>
      if truthy sid then log_sink cb sid "video" level message now w else w
  | _, _ => w
  end.

(** Lines 90-114 on a sampled frame with [nfaces] faces at clock [now]:
    classify, and when the debouncer says so call [log_event] and then
    update [last_log_time] and [last_face_status]. *)
Definition detect_step (nfaces : nat) (now : Z) (c : Camera) (w : W) : Camera * W :=
  match debounce (classify nfaces) (dstate c) now with
  | (Some e, d) =>
      (mkCamera (thread c) (frame c) (last_access c) (log_callback c) (student_id c)
         (Debouncer.last_log_time d) (Debouncer.last_face_status d),
       log_event (em_level e) (em_message e) c now w)
  | (None, _) => (c, w)
  end.

(** Lines 124-129: the clock at which the loop resumes after pacing:
    [sleep_time = target_delay - (t_end - t_start)], slept only when
    positive. *)
Definition pace (t_start t_end : Z) : Z :=
  let sleep_time := TARGET_DELAY - (t_end - t_start) in
  if sleep_time >? 0 then t_end + sleep_time else t_end.

(** Lines 86-121 after a successful read at clock [now]: on a sampled
    frame run [detect_step], then [frame_count += 1], then publish the
    encoded bytes.  [cv2.imencode]'s success flag [ret] is not looked at
    (line 120), so its bytes are published whatever it is. *)
Definition process_frame (nfaces : nat) (enc_ok : bool) (jpeg : bytes) (s : Shared) : Shared :=
  let '(c1, w1) :=
    if sampled (frame_count s) then detect_step nfaces (clock s) (cam s) (world s)
    else (cam s, world s) in
  mkShared (clock s) (set_frame (Some jpeg) c1) (S (frame_count s)) w1.

(** ** The background thread as a program counter *)

(** [dev] is the index of the opened capture device. *)
Inductive WPc :=
| WStart                              (* line 55: cv2.VideoCapture(0) *)
| WSettle (opened0 : bool) (wake : Z) (* line 58: time.sleep(1) *)
| WLoop (dev : nat)                   (* line 80: t_start = time.time() *)
| WRead (dev : nat) (t_start : Z)     (* line 81: camera.read() *)
| WBackoff (dev : nat) (wake : Z)     (* line 83: time.sleep(0.5); continue *)
| WPace (dev : nat) (wake : Z)        (* line 129: time.sleep(sleep_time) *)
| WRelease (dev : nat)                (* line 136: camera.release() *)
| WClear                              (* line 137: Camera.thread = None *)
| WDone.

(** What the environment answers at a step of the thread. *)
Inductive WObs :=
| ONone                                         (* no device call *)
| OOpen (ok : bool)                             (* VideoCapture(i).isOpened() *)
| OReadFail                                     (* read() returned success False *)
| OFrame (nfaces : nat) (enc_ok : bool) (jpeg : bytes).
    (* read() succeeded; detectMultiScale found [nfaces]; imencode gave
       ([enc_ok], [jpeg]) *)

(** One step of [_thread] from point [p] with answer [o]; [None] when the
    thread cannot move (asleep, or the answer does not fit the point). *)
Definition worker_step (s : Shared) (p : WPc) (o : WObs) : option (Shared * WPc) :=
  match p, o with
  | WStart, OOpen ok0 => Some (s, WSettle ok0 (clock s + SETTLE_DELAY))
  | WSettle true wake, ONone =>
      (* lines 61 and 64 find device 0 open; lines 73-74 configure it *)
      if wake <=? clock s then Some (s, WLoop 0) else None
  | WSettle false wake, OOpen ok1 =>
      (* line 62: try device 1; lines 65-69: give up with b'' *)
      if wake <=? clock s then
        if ok1 then Some (s, WLoop 1)
        else Some (set_cam (set_frame (Some []) (cam s)) s, WDone)
      else None
  | WLoop dev, ONone => Some (s, WRead dev (clock s))
  | WRead dev _, OReadFail => Some (s, WBackoff dev (clock s + READ_RETRY_DELAY))
  | WRead dev t_start, OFrame n ok jpeg =>
      Some (process_frame n ok jpeg s, WPace dev (pace t_start (clock s)))
  | WBackoff dev wake, ONone =>
      if wake <=? clock s then Some (s, WLoop dev) else None
  | WPace dev wake, ONone =>
      (* lines 132-134: the idle check after the pacing sleep *)
      if wake <=? clock s then
        if clock s - last_access (cam s) >? IDLE_TIMEOUT then Some (s, WRelease dev)
        else Some (s, WLoop dev)
      else None
  | WRelease _, ONone => Some (s, WClear)
  | WClear, ONone => Some (set_cam (set_thread None (cam s)) s, WDone)
  | _, _ => None
  end.

(** The device a thread holds at point [p]. *)
Definition holds (p : WPc) : option nat :=
  match p with
  | WSettle true _ => Some 0%nat
  | WLoop d | WRead d _ | WBackoff d _ | WPace d _ | WRelease d => Some d
  | _ => None
  end.

(** A thread that has not returned. *)
Definition alive (p : WPc) : bool :=
  match p with WDone => false | _ => true end.

(** ** Lemmas *)

Lemma TARGET_DELAY_val : TARGET_DELAY = 1000.
Proof. reflexivity. Qed.

Lemma IDLE_TIMEOUT_val : IDLE_TIMEOUT = 300000.
Proof. reflexivity. Qed.

(** C20: the pacer.  The loop resumes at [max(t_end, t_start + 1/30 s)]:
    it sleeps up to a full frame interval after [t_start], and after an
    overrun it goes on at once without catching up. *)
Theorem pace_max t_start t_end :
  pace t_start t_end = Z.max t_end (t_start + TARGET_DELAY).
Proof. unfold pace. decide_cmp; lia. Qed.

(** The body publishes the encoded bytes and counts the frame. *)
Lemma process_frame_frame n ok jpeg s :
  frame (cam (process_frame n ok jpeg s)) = Some jpeg.
Proof.
  unfold process_frame. destruct (if sampled _ then _ else _); reflexivity.
Qed.

Lemma process_frame_count n ok jpeg s :
  frame_count (process_frame n ok jpeg s) = S (frame_count s).
Proof.
  unfold process_frame. destruct (if sampled _ then _ else _); reflexivity.
Qed.

Lemma process_frame_clock n ok jpeg s :
  clock (process_frame n ok jpeg s) = clock s.
Proof.
  unfold process_frame. destruct (if sampled _ then _ else _); reflexivity.
Qed.

(** [detect_step] leaves the attributes that other threads write alone. *)
Lemma detect_step_thread n now c w : thread (fst (detect_step n now c w)) = thread c.
Proof. unfold detect_step. destruct (debounce _ _ _) as [[e|] d]; reflexivity. Qed.

Lemma detect_step_access n now c w : last_access (fst (detect_step n now c w)) = last_access c.
Proof. unfold detect_step. destruct (debounce _ _ _) as [[e|] d]; reflexivity. Qed.

Lemma process_frame_thread n ok jpeg s :
  thread (cam (process_frame n ok jpeg s)) = thread (cam s).
Proof.
  unfold process_frame. destruct (sampled _); [|reflexivity].
  destruct (detect_step _ _ _ _) eqn:E. cbn.
  rewrite <- (detect_step_thread n (clock s) (cam s) (world s)), E. reflexivity.
Qed.

Lemma process_frame_access n ok jpeg s :
  last_access (cam (process_frame n ok jpeg s)) = last_access (cam s).
Proof.
  unfold process_frame. destruct (sampled _); [|reflexivity].
  destruct (detect_step _ _ _ _) eqn:E. cbn.
  rewrite <- (detect_step_access n (clock s) (cam s) (world s)), E. reflexivity.
Qed.

(** The loop body either keeps [last_log_time] or sets it to the clock. *)
Lemma process_frame_log_time n ok jpeg s :
  last_log_time (cam (process_frame n ok jpeg s)) = last_log_time (cam s) \/
  last_log_time (cam (process_frame n ok jpeg s)) = clock s.
Proof.
  unfold process_frame, detect_step, debounce.
  repeat case_match; simplify_eq; cbn; auto.
Qed.

(** C18: frames that are not sampled are not classified: the state after
    the body does not depend on the number of faces reported for them,
    so they keep the previous status for the debouncer. *)
Theorem unsampled_ignores_faces n1 n2 ok jpeg s :
  sampled (frame_count s) = false ->
  process_frame n1 ok jpeg s = process_frame n2 ok jpeg s.
Proof. intros H. unfold process_frame. rewrite H. reflexivity. Qed.

(** C19: an encoding failure still overwrites the published frame: the
    bytes [cv2.imencode] returned are published whatever its success
    flag, and the result is the same as for a successful encoding. *)
Theorem encode_failure_published n jpeg s :
  frame (cam (process_frame n false jpeg s)) = Some jpeg /\
  process_frame n false jpeg s = process_frame n true jpeg s.
Proof. split; [apply process_frame_frame | reflexivity]. Qed.

End Cam.
End Cam.
