(* ===== verification/System.v ===== *)
(** * System: request threads and background threads interleaved

    A configuration [Sys] holds the shared state of [Camera] (the class
    attributes, [frame_count], the clock and the sink's world), the
    program counters of every background thread ever started, and the
    request threads serving [/video_feed/<student_id>] ([src/app.py]
    145-162): [video_feed] checks the id, calls [cam.initialize] and
    streams [gen(cam)], which loops on [get_frame] and yields every
    non-empty frame as a multipart chunk.

    The scheduler [step] performs one action: the clock advances, a new
    request arrives, one request thread or one background thread takes
    its next step.  Any interleaving is allowed; a sleeping thread can
    only move once the clock reached its wake-up time.  Each step is
    atomic with respect to the shared state it touches: the Python
    statements it groups touch no shared attribute another thread writes
    between them, except where the code itself splits them, as lines 33
    and 34 of [initialize] are split into [CInit] and [CSpawn].

    [step_with] takes the request-thread semantics as a parameter: the
    code's is [client_step].  [step_serial] is the code's scheduler
    restricted to the interleavings in which no request thread moves
    while another sits between the test of line 33 and the start of
    line 34: the schedules on which the race of [initialize] cannot
    happen. *)

From S2P Require Import Prelude Detector Debouncer Camera.

Module Sys.
Import Detector Debouncer Cam.

(** The request thread's point in [video_feed] / [initialize] / [gen] /
    [get_frame]. *)
Inductive CPc :=
| CFeed                (* app.py 148: if student_id == STUDENT_ID *)
| CInit                (* camera.py 31-33: store id and callback; test thread *)
| CSpawn               (* camera.py 34-35: start the background thread *)
| CAccess              (* camera.py 39, called from app.py 159 *)
| CPoll                (* camera.py 41: while Camera.frame is None *)
| CSleep (wake : Z)    (* camera.py 42: time.sleep(0.05) *)
| CYield (fr : bytes)  (* app.py 160-162: if frame: yield the chunk *)
| CNotFound.           (* app.py 154: 404, the thread ends *)

(** app.py 161-162: [b'--frame\r\nContent-Type: image/jpeg\r\n\r\n' +
    frame + b'\r\n']. *)
Definition crlf : bytes := [Byte.x0d; Byte.x0a].
Definition chunk (fr : bytes) : bytes :=
  String.list_byte_of_string "--frame" ++ crlf
  ++ String.list_byte_of_string "Content-Type: image/jpeg" ++ crlf ++ crlf
  ++ fr ++ crlf.

Section Sys.
Context {Cb W : Type} `{!LogSink Cb W}.

(** app.py 23: the only student id [video_feed] serves. *)
Variable STUDENT_ID : string.
(** app.py 150: the callback [video_feed] passes, [central_log_handler]. *)
Variable handler : Cb.

(** A request thread: the id in its URL, its point, the chunks it sent. *)
Record Client := mkClient {
  c_sid : string;
  c_pc : CPc;
  c_out : list bytes
}.

Record Sys := mkSys {
  sh : @Shared Cb W;
  workers : list WPc;
  clients : list Client
}.

Inductive Act :=
| Tick (d : Z)                 (* the clock advances by d > 0 *)
| Request (sid : string)       (* GET /video_feed/<sid> *)
| ClientStep (i : nat)         (* request thread i moves *)
| WorkerStep (i : nat) (o : WObs). (* background thread i moves *)

Definition set_pc (p : CPc) (c : Client) : Client := mkClient (c_sid c) p (c_out c).

(** One step of a request thread; [next] is the index the next started
    background thread gets.  The flag says whether a thread is started. *)
Definition client_step (next : nat) (s : @Shared Cb W) (c : Client)
    : option (@Shared Cb W * Client * bool) :=
  match c_pc c with
  | CFeed =>
      if String.eqb (c_sid c) STUDENT_ID then Some (s, set_pc CInit c, false)
      else Some (s, set_pc CNotFound c, false)
  | CInit =>
      let '(cm, none) := init_check (c_sid c) handler (cam s) in
      Some (set_cam cm s, set_pc (if none then CSpawn else CAccess) c, false)
  | CSpawn => Some (set_cam (spawn next (cam s)) s, set_pc CAccess c, true)
  | CAccess => Some (access s, set_pc CPoll c, false)
  | CPoll =>
      match poll (cam s) with
      | Some f => Some (s, set_pc (CYield f) c, false)
      | None => Some (s, set_pc (CSleep (clock s + POLL_DELAY)) c, false)
      end
  | CSleep wake => if wake <=? clock s then Some (s, set_pc CPoll c, false) else None
  | CYield f =>
      Some (s, mkClient (c_sid c) CAccess
                 (if truthy f then c_out c ++ [chunk f] else c_out c), false)
  | CNotFound => None
  end.

Definition ClientSem := nat -> @Shared Cb W -> Client -> option (@Shared Cb W * Client * bool).

(** The scheduler, for a request-thread semantics [cs]. *)
Definition step_with (cs : ClientSem) (x : Sys) (a : Act) : option Sys :=
  match a with
  | Tick d =>
      if 0 <? d then
        Some (mkSys (mkShared (clock (sh x) + d) (cam (sh x)) (frame_count (sh x)) (world (sh x)))
                (workers x) (clients x))
      else None
  | Request sid => Some (mkSys (sh x) (workers x) (clients x ++ [mkClient sid CFeed []]))
  | ClientStep i =>
      match clients x !! i with
      | None => None
      | Some c =>
          match cs (List.length (workers x)) (sh x) c with
          | None => None
          | Some (s', c', started) =>
              Some (mkSys s' (if started then workers x ++ [WStart] else workers x)
                      (<[i:=c']> (clients x)))
          end
      end
  | WorkerStep i o =>
      match workers x !! i with
      | None => None
      | Some p =>
          match worker_step (sh x) p o with
          | None => None
          | Some (s', p') => Some (mkSys s' (<[i:=p']> (workers x)) (clients x))
          end
      end
  end.

Fixpoint run_with (cs : ClientSem) (x : Sys) (acts : list Act) : option Sys :=
  match acts with
  | [] => Some x
  | a :: acts' =>
      match step_with cs x a with
      | None => None
      | Some x' => run_with cs x' acts'
      end
  end.

(** The code's semantics. *)
Definition step := step_with client_step.
Definition run := run_with client_step.

Definition is_spawn (p : CPc) : bool := match p with CSpawn => true | _ => false end.

(** Request thread [i] may not move: another request thread sits between
    the test of line 33 and the start of line 34. *)
Definition blocked (x : Sys) (i : nat) : bool :=
  existsb id (imap (fun j c => negb (Nat.eqb j i) && is_spawn (c_pc c)) (clients x)).

(** The code's scheduler on the schedules that never switch request
    threads inside lines 33-34. *)
Definition step_serial (x : Sys) (a : Act) : option Sys :=
  match a with
  | ClientStep i => if blocked x i then None else step x a
  | _ => step x a
  end.

Fixpoint run_serial (x : Sys) (acts : list Act) : option Sys :=
  match acts with
  | [] => Some x
  | a :: acts' =>
      match step_serial x a with
      | None => None
      | Some x' => run_serial x' acts'
      end
  end.

(** The process after [import camera] at clock [t0], with the sink's
    world [w0]: no thread, no request. *)
Definition sys_init (t0 : Z) (w0 : W) : Sys :=
  mkSys (mkShared t0 (camera_init t0) 0 w0) [] [].

(** Background threads holding a capture device. *)
Definition handles (x : Sys) : nat :=
  List.length (filter (fun p => is_Some (holds p)) (workers x)).

(** Background threads that have not returned. *)
Definition live (x : Sys) : nat := List.length (filter (fun p => alive p = true) (workers x)).

(** The invariant of the serial schedules: every live background thread
    is the one [Camera.thread] names, and a request thread between the
    test and the start saw [Camera.thread] at [None] and is the only one
    there. *)
Definition serial_inv (x : Sys) : Prop :=
  (forall i p, workers x !! i = Some p -> alive p = true -> thread (cam (sh x)) = Some i) /\
  (forall i c, clients x !! i = Some c -> c_pc c = CSpawn ->
     thread (cam (sh x)) = None /\
     forall j c', clients x !! j = Some c' -> c_pc c' = CSpawn -> j = i).

(** A request thread past [initialize]: it only runs [get_frame] and
    yields. *)
Definition streaming (p : CPc) : bool :=
  match p with CFeed | CInit | CSpawn => false | _ => true end.

(** What one step of a streaming request thread sends. *)
Definition sent (p : CPc) : list bytes :=
  match p with CYield f => if truthy f then [chunk f] else [] | _ => [] end.

(** No background thread is alive, [Camera.frame] holds [f], and every
    request thread streams, any frame it is about to yield being [f]. *)
Definition frozen (f : bytes) (x : Sys) : Prop :=
  (forall i p, workers x !! i = Some p -> alive p = false) /\
  frame (cam (sh x)) = Some f /\
  (forall i c, clients x !! i = Some c ->
     streaming (c_pc c) = true /\ forall g, c_pc c = CYield g -> g = f).

(** Each request thread of [x'] existed in [x] and has since sent only
    copies of the chunk of [f]. *)
Definition sent_only (f : bytes) (x x' : Sys) : Prop :=
  forall i c', clients x' !! i = Some c' ->
    exists c k, clients x !! i = Some c /\ c_out c' = c_out c ++ List.repeat (chunk f) k.

(** After the failure exit of lines 64-69: no background thread alive,
    [Camera.thread] still set, [Camera.frame] the empty sentinel, no
    request thread about to start a thread, any frame about to be
    yielded empty. *)
Definition dead (x : Sys) : Prop :=
  (forall i p, workers x !! i = Some p -> alive p = false) /\
  thread (cam (sh x)) <> None /\ frame (cam (sh x)) = Some [] /\
  (forall i c, clients x !! i = Some c ->
     c_pc c <> CSpawn /\ forall g, c_pc c = CYield g -> g = []).

(** No request thread of [x] sent anything since, and the ones that
    arrived after [x] sent nothing. *)
Definition silent (x x' : Sys) : Prop :=
  (forall i c, clients x !! i = Some c -> exists c', clients x' !! i = Some c' /\ c_out c' = c_out c) /\
  (forall i c', clients x' !! i = Some c' -> clients x !! i = None -> c_out c' = []).

(** Two viewers open the stream at once; both pass line 33 before either
    reaches line 34, both start a thread, and both threads open device 0. *)
Definition race_trace : list Act :=
  [Request STUDENT_ID; Request STUDENT_ID;
   ClientStep 0; ClientStep 1;          (* video_feed: the id matches *)
   ClientStep 0; ClientStep 1;          (* line 33: both see thread None *)
   ClientStep 0; ClientStep 1;          (* lines 34-35: both start a thread *)
   WorkerStep 0 (OOpen true); WorkerStep 1 (OOpen true)].

(** The same two viewers on a serial schedule: the second viewer's test
    of line 33 runs after the first viewer's start, sees the thread and
    starts none. *)
Definition serial_trace : list Act :=
  [Request STUDENT_ID; Request STUDENT_ID;
   ClientStep 0; ClientStep 1;          (* video_feed: the id matches *)
   ClientStep 0; ClientStep 0;          (* lines 33-35 for the first viewer *)
   ClientStep 1;                        (* line 33: the second sees the thread *)
   WorkerStep 0 (OOpen true)].

(** One turn of the read-failure loop: [read()] fails, the thread sleeps
    0.5 s and [continue]s to line 80 without reaching the idle check. *)
Definition read_fail_cycle (i : nat) : list Act :=
  [WorkerStep i ONone; WorkerStep i OReadFail; Tick READ_RETRY_DELAY; WorkerStep i ONone].

(** ** Shape of the steps *)

Lemma step_client_inv cs x i x' :
  step_with cs x (ClientStep i) = Some x' ->
  exists c s' c' b, clients x !! i = Some c /\
    cs (List.length (workers x)) (sh x) c = Some (s', c', b) /\
    x' = mkSys s' (if b then workers x ++ [WStart] else workers x) (<[i:=c']> (clients x)).
Proof.
  cbn. destruct (clients x !! i) as [c|] eqn:Ec; [|discriminate].
  destruct (cs _ _ c) as [[[s' c'] b]|] eqn:Es; [|discriminate]. intros [= <-].
  exists c, s', c', b. auto.
Qed.

Lemma step_worker_inv cs x i o x' :
  step_with cs x (WorkerStep i o) = Some x' ->
  exists p s' p', workers x !! i = Some p /\ worker_step (sh x) p o = Some (s', p') /\
    x' = mkSys s' (<[i:=p']> (workers x)) (clients x).
Proof.
  cbn. destruct (workers x !! i) as [p|] eqn:Ep; [|discriminate].
  destruct (worker_step _ p o) as [[s' p']|] eqn:Es; [|discriminate]. intros [= <-].
  exists p, s', p'. auto.
Qed.

(** A background thread moves only while alive, and changes
    [Camera.thread] only at line 137. *)
Lemma worker_step_thread s p o s' p' :
  worker_step s p o = Some (s', p') ->
  alive p = true /\
  (thread (cam s') = thread (cam s) \/ (p = WClear /\ p' = WDone /\ thread (cam s') = None)).
Proof.
  destruct p as [| [] wake | dev | dev t | dev wake | dev wake | dev | |], o;
    cbn; intros H; repeat case_match; simplify_eq; cbn; auto.
  split; [reflexivity|]. left. apply process_frame_thread.
Qed.

(** The code's request step changes [Camera.thread] only at line 34, from
    a request thread that was between the test and the start, and it
    reaches that point only when the test saw [None]. *)
Lemma client_step_thread n s c s' c' b :
  client_step n s c = Some (s', c', b) ->
  if b then c_pc c = CSpawn /\ c_pc c' <> CSpawn /\ thread (cam s') = Some n
  else thread (cam s') = thread (cam s) /\ (c_pc c' = CSpawn -> thread (cam s) = None).
Proof.
  unfold client_step, init_check.
  destruct (c_pc c) eqn:Hpc; intros H; repeat case_match; simplify_eq; cbn;
    split_and!; try reflexivity; try discriminate; intros; discriminate.
Qed.

Lemma blocked_false x i j c :
  blocked x i = false -> j <> i -> clients x !! j = Some c -> c_pc c <> CSpawn.
Proof.
  intros Hb Hne Hj Hs. apply not_true_iff_false in Hb. apply Hb, existsb_exists.
  exists true. split; [|reflexivity]. apply list_elem_of_In, list_elem_of_lookup.
  exists j. rewrite list_lookup_imap, Hj. cbn. rewrite Hs.
  by destruct (Nat.eqb_spec j i).
Qed.

Lemma serial_inv_init t0 w0 : serial_inv (sys_init t0 w0).
Proof. split; intros [] ? H; discriminate. Qed.

(** A request thread of a serial schedule keeps the invariant. *)
Lemma serial_inv_client x i c s' c' b :
  serial_inv x -> blocked x i = false -> clients x !! i = Some c ->
  client_step (List.length (workers x)) (sh x) c = Some (s', c', b) ->
  serial_inv (mkSys s' (if b then workers x ++ [WStart] else workers x) (<[i:=c']> (clients x))).
Proof.
  intros [Hw Hc] Hb Hci Hcs. pose proof (client_step_thread _ _ _ _ _ _ Hcs) as Ht.
  destruct b as [|]; [destruct Ht as (Hsp & Hpc' & Hth) | destruct Ht as [Hth Hpc']];
    split; cbn.
  - destruct (Hc _ _ Hci Hsp) as [Hnone _].
    intros j p Hj Ha. apply lookup_app_Some in Hj as [Hj|[Hle Hj]].
    + specialize (Hw _ _ Hj Ha). congruence.
    + apply list_lookup_singleton_Some in Hj as [Hj _]. rewrite Hth. f_equal. lia.
  - destruct (Hc _ _ Hci Hsp) as [_ Huniq].
    intros k ck Hk Hks. apply list_lookup_insert_Some in Hk as [(_ & <- & _)|[Hne Hk]];
      [contradiction|]. by specialize (Huniq _ _ Hk Hks).
  - intros j p Hj Ha. rewrite Hth. by eapply Hw.
  - intros k ck Hk Hks. rewrite Hth.
    apply list_lookup_insert_Some in Hk as [(-> & <- & _)|[Hne Hk]];
      [|by destruct (blocked_false _ _ _ _ Hb (not_eq_sym Hne) Hk Hks)].
    split; [exact (Hpc' Hks)|]. intros j cj Hj Hjs.
    apply list_lookup_insert_Some in Hj as [(-> & _ & _)|[Hne Hj]]; [reflexivity|].
    by destruct (blocked_false _ _ _ _ Hb (not_eq_sym Hne) Hj Hjs).
Qed.

Lemma serial_inv_step x a x' : serial_inv x -> step_serial x a = Some x' -> serial_inv x'.
Proof.
  intros [Hw Hc] Hstep. destruct a as [d|sid|i|i o]; cbn [step_serial] in Hstep.
  - cbn in Hstep. destruct (0 <? d); [|discriminate]. injection Hstep as <-.
    split; [exact Hw | exact Hc].
  - injection Hstep as <-. split; [exact Hw|]. cbn. intros j c Hj Hjs.
    apply lookup_app_Some in Hj as [Hj|[_ Hj]];
      [|apply list_lookup_singleton_Some in Hj as [_ <-]; discriminate].
    destruct (Hc _ _ Hj Hjs) as [Hn Hu]. split; [exact Hn|]. intros k ck Hk Hks.
    apply lookup_app_Some in Hk as [Hk|[_ Hk]]; [exact (Hu _ _ Hk Hks)|].
    apply list_lookup_singleton_Some in Hk as [_ <-]. discriminate.
  - destruct (blocked x i) eqn:Hb; [discriminate|].
    apply step_client_inv in Hstep as (c & s' & c' & b & Hci & Hcs & ->).
    exact (serial_inv_client _ _ _ _ _ _ (conj Hw Hc) Hb Hci Hcs).
  - apply step_worker_inv in Hstep as (p & s' & p' & Hpi & Hws & ->).
    destruct (worker_step_thread _ _ _ _ _ Hws) as [Hal [Ht | (-> & -> & Ht)]]; split; cbn.
    + intros j q Hj Ha. rewrite Ht.
      apply list_lookup_insert_Some in Hj as [(-> & _ & _)|[_ Hj]];
        [exact (Hw _ _ Hpi Hal) | exact (Hw _ _ Hj Ha)].
    + rewrite Ht. exact Hc.
    + intros j q Hj Ha.
      apply list_lookup_insert_Some in Hj as [(_ & <- & _)|[Hne Hj]]; [discriminate|].
      pose proof (Hw _ _ Hpi Hal) as E1. pose proof (Hw _ _ Hj Ha) as E2.
      rewrite E1 in E2. injection E2 as ->. contradiction.
    + intros k ck Hk Hks. rewrite Ht. split; [reflexivity|]. apply (Hc _ _ Hk Hks).
Qed.

Lemma serial_inv_run x acts x' : serial_inv x -> run_serial x acts = Some x' -> serial_inv x'.
Proof.
  revert x. induction acts as [|a acts IH]; intros x Hx; cbn.
  - by intros [= <-].
  - destruct (step_serial x a) as [x1|] eqn:E; [|discriminate].
    apply IH. by eapply serial_inv_step.
Qed.

Lemma filter_alive_dead ws :
  (forall i p, ws !! i = Some p -> alive p = false) -> filter (fun p => alive p = true) ws = [].
Proof.
  induction ws as [|p ws IH]; intros H; [reflexivity|]. rewrite filter_cons.
  rewrite (H 0%nat p eq_refl). cbn. apply IH. intros i q Hq. exact (H (S i) q Hq).
Qed.

(** Threads all named by the one value of [Camera.thread]: at most one
    is alive. *)
Lemma named_live_le_1 ws t k :
  (forall i p, ws !! i = Some p -> alive p = true -> t = Some (k + i)%nat) ->
  (List.length (filter (fun p => alive p = true) ws) <= 1)%nat.
Proof.
  revert k. induction ws as [|p ws IH]; intros k H; [cbn; lia|].
  rewrite filter_cons. case_decide as Ha.
  - pose proof (H 0%nat p eq_refl Ha) as Hk.
    rewrite filter_alive_dead; [cbn; lia|]. intros i q Hq.
    destruct (alive q) eqn:Hq'; [|reflexivity].
    pose proof (H (S i) q Hq Hq') as Hi. rewrite Hk in Hi. injection Hi. lia.
  - apply (IH (S k)). intros i q Hq Hq'. rewrite (H (S i) q Hq Hq'). f_equal. lia.
Qed.

Lemma run_with_app cs x a b :
  run_with cs x (a ++ b) = match run_with cs x a with Some y => run_with cs y b | None => None end.
Proof.
  revert x. induction a as [|act a IH]; intros x; [reflexivity|]. cbn.
  destruct (step_with cs x act); [apply IH | reflexivity].
Qed.

(** A step of background thread [i] inside a run. *)
Lemma run_worker_cons cs s ws cl i o p s' p' acts :
  ws !! i = Some p -> worker_step s p o = Some (s', p') ->
  run_with cs (mkSys s ws cl) (WorkerStep i o :: acts) =
  run_with cs (mkSys s' (<[i:=p']> ws) cl) acts.
Proof. intros Hp Hs. cbn. rewrite Hp, Hs. reflexivity. Qed.

Lemma run_tick_cons cs s ws cl d acts :
  0 < d ->
  run_with cs (mkSys s ws cl) (Tick d :: acts) =
  run_with cs (mkSys (mkShared (clock s + d) (cam s) (frame_count s) (world s)) ws cl) acts.
Proof. intros Hd. cbn. destruct (Z.ltb_spec 0 d); [reflexivity | lia]. Qed.

Lemma lookup_insert_same {A} (l : list A) i x y :
  l !! i = Some y -> <[i:=x]> l !! i = Some x.
Proof. intros H. apply list_lookup_insert_eq. by eapply lookup_lt_Some. Qed.

Lemma read_fail_cycle_run s ws cl i dev :
  ws !! i = Some (WLoop dev) ->
  run (mkSys s ws cl) (read_fail_cycle i) =
  Some (mkSys (mkShared (clock s + READ_RETRY_DELAY) (cam s) (frame_count s) (world s)) ws cl).
Proof.
  intros Hi. unfold run, read_fail_cycle. cbn. rewrite Hi. cbn.
  rewrite (lookup_insert_same _ _ _ _ Hi). cbn. rewrite list_insert_insert_eq.
  change (0 <? READ_RETRY_DELAY) with true. cbn.
  rewrite (lookup_insert_same _ _ _ _ Hi). cbn. rewrite Z.leb_refl.
  rewrite !list_insert_insert_eq, list_insert_id by exact Hi. reflexivity.
Qed.

(** A streaming request thread keeps streaming, starts nothing, leaves
    the thread, the frame and the world alone, and sends what it yields. *)
Lemma client_step_streaming n s c s' c' b :
  streaming (c_pc c) = true -> client_step n s c = Some (s', c', b) ->
  b = false /\ thread (cam s') = thread (cam s) /\ frame (cam s') = frame (cam s) /\
  world s' = world s /\ streaming (c_pc c') = true /\
  (forall g, c_pc c' = CYield g -> frame (cam s) = Some g) /\
  c_out c' = c_out c ++ sent (c_pc c).
Proof.
  unfold client_step, sent. destruct (c_pc c) eqn:Hpc; try discriminate; intros _ H;
    repeat case_match; simplify_eq; cbn;
    repeat split; try (intros ? [=]); try congruence; rewrite ?app_nil_r; auto.
  subst. assumption.
Qed.

Lemma frozen_step f x a x' :
  frozen f x -> (forall sid, a <> Request sid) -> step x a = Some x' ->
  frozen f x' /\ world (sh x') = world (sh x) /\
  thread (cam (sh x')) = thread (cam (sh x)) /\ sent_only f x x'.
Proof.
  intros (Hw & Hf & Hc) Hreq Hstep. unfold step in Hstep. destruct a as [d|sid|i|i o].
  - cbn in Hstep. destruct (0 <? d); [|discriminate]. injection Hstep as <-.
    split; [split; [exact Hw| split; [exact Hf| exact Hc]]|]. cbn.
    split; [reflexivity| split; [reflexivity|]]. intros j c' Hj. exists c', 0%nat.
    split; [exact Hj | by rewrite app_nil_r].
  - by destruct (Hreq sid).
  - apply step_client_inv in Hstep as (c & s' & c' & b & Hci & Hcs & ->).
    destruct (Hc _ _ Hci) as [Hs Hy].
    destruct (client_step_streaming _ _ _ _ _ _ Hs Hcs)
      as (-> & Ht & Hfr & Hwo & Hs' & Hy' & Ho).
    split; [split; [exact Hw| split; [cbn; congruence|]]|]; cbn.
    + intros j c0 Hj. apply list_lookup_insert_Some in Hj as [(_ & <- & _)|[_ Hj]].
      * split; [exact Hs'|]. intros g Hg. rewrite Hf in Hy'. by injection (Hy' g Hg).
      * by eapply Hc.
    + split; [exact Hwo| split; [exact Ht|]]. intros j c0 Hj.
      apply list_lookup_insert_Some in Hj as [(<- & <- & _)|[_ Hj]].
      * exists c. rewrite Ho. unfold sent. destruct (c_pc c) eqn:E; cbn;
          try (exists 0%nat; split; [exact Hci | by rewrite !app_nil_r]).
        rewrite (Hy _ eq_refl).
        destruct (truthy f); [exists 1%nat | exists 0%nat];
          (split; [exact Hci | by rewrite ?app_nil_r]).
      * exists c0, 0%nat. split; [exact Hj | by rewrite app_nil_r].
  - apply step_worker_inv in Hstep as (p & s' & p' & Hpi & Hws & ->).
    pose proof (Hw _ _ Hpi) as Hd. destruct p; discriminate.
Qed.

Lemma sent_only_refl f x : sent_only f x x.
Proof. intros i c Hc. exists c, 0%nat. split; [exact Hc | by rewrite app_nil_r]. Qed.

Lemma sent_only_trans f x y z : sent_only f x y -> sent_only f y z -> sent_only f x z.
Proof.
  intros Hxy Hyz i c2 H2. destruct (Hyz _ _ H2) as (c1 & k2 & H1 & E2).
  destruct (Hxy _ _ H1) as (c0 & k1 & H0 & E1). exists c0, (k1 + k2)%nat.
  split; [exact H0|]. by rewrite E2, E1, repeat_app, app_assoc.
Qed.

(** With [Camera.thread] set and the sentinel published, a request
    thread starts nothing and sends nothing. *)
Lemma client_step_dead n s c s' c' b :
  thread (cam s) <> None -> frame (cam s) = Some [] ->
  c_pc c <> CSpawn -> (forall g, c_pc c = CYield g -> g = []) ->
  client_step n s c = Some (s', c', b) ->
  b = false /\ thread (cam s') = thread (cam s) /\ frame (cam s') = Some [] /\
  world s' = world s /\ c_pc c' <> CSpawn /\ (forall g, c_pc c' = CYield g -> g = []) /\
  c_out c' = c_out c.
Proof.
  intros Ht Hf Hs Hy. unfold client_step, init_check, poll.
  destruct (c_pc c) eqn:Hpc; try congruence; intros H;
    repeat case_match; simplify_eq; cbn;
    repeat split; try (intros ? [=]); try congruence; auto.
  all: try (intros g [= <-]; congruence).
  all: try (rewrite app_nil_r; reflexivity).
  all: match goal with
       | Hy : forall g, CYield ?f = CYield g -> g = [] |- _ =>
           pose proof (Hy f eq_refl); subst; discriminate
       end.
Qed.

Lemma silent_trans x y z : silent x y -> silent y z -> silent x z.
Proof.
  intros [Hxy1 Hxy2] [Hyz1 Hyz2]. split.
  - intros i c Hc. destruct (Hxy1 _ _ Hc) as (c1 & H1 & E1).
    destruct (Hyz1 _ _ H1) as (c2 & H2 & E2). exists c2. split; congruence.
  - intros i c2 H2 Hx. destruct (clients y !! i) as [c1|] eqn:H1.
    + destruct (Hyz1 _ _ H1) as (c2' & H2' & E2). rewrite H2 in H2'. injection H2' as <-.
      rewrite E2. exact (Hxy2 _ _ H1 Hx).
    + exact (Hyz2 _ _ H2 H1).
Qed.

Lemma dead_step x a x' :
  dead x -> step x a = Some x' -> dead x' /\ world (sh x') = world (sh x) /\ silent x x'.
Proof.
  intros (Hw & Ht & Hf & Hc) Hstep. unfold step in Hstep. unfold dead.
  destruct a as [d|sid|i|i o].
  - cbn in Hstep. destruct (0 <? d); [|discriminate]. injection Hstep as <-.
    split; [cbn; split; [exact Hw|split; [exact Ht|split; [exact Hf|exact Hc]]]|]. split; [reflexivity|].
    split; [intros i c H; exists c; auto | intros i c H H'; cbn in H; congruence].
  - injection Hstep as <-. split; [|split; [reflexivity|]].
    + cbn. split; [exact Hw|split; [exact Ht|split; [exact Hf|]]]. intros j c Hj.
      apply lookup_app_Some in Hj as [Hj|[_ Hj]]; [by apply (Hc j)|].
      apply list_lookup_singleton_Some in Hj as [_ <-]. split; [discriminate | intros ? [=]].
    + split; cbn.
      * intros j c Hj. exists c. split; [|reflexivity]. by apply lookup_app_l_Some.
      * intros j c Hj Hn. apply lookup_app_Some in Hj as [Hj|[_ Hj]]; [congruence|].
        by apply list_lookup_singleton_Some in Hj as [_ <-].
  - apply step_client_inv in Hstep as (c & s' & c' & b & Hci & Hcs & ->).
    destruct (Hc _ _ Hci) as [Hs Hy].
    destruct (client_step_dead _ _ _ _ _ _ Ht Hf Hs Hy Hcs)
      as (-> & Ht' & Hf' & Hwo & Hs' & Hy' & Ho).
    split; [|split; [exact Hwo|]]; cbn.
    + split; [exact Hw|]. split; [congruence|]. split; [exact Hf'|].
      intros j c0 Hj. apply list_lookup_insert_Some in Hj as [(_ & <- & _)|[_ Hj]];
        [split; assumption | by apply (Hc j)].
    + split.
      * intros j c0 Hj. destruct (decide (i = j)) as [<-|Hne].
        { exists c'. rewrite Hci in Hj. injection Hj as <-. split; [|exact Ho].
          by eapply lookup_insert_same. }
        exists c0. split; [|reflexivity]. cbn. by rewrite list_lookup_insert_ne.
      * intros j c0 Hj Hn. cbn in Hj. apply list_lookup_insert_Some in Hj as [(-> & _ & Hlt)|[_ Hj]];
          [|congruence]. by rewrite Hci in Hn.
  - apply step_worker_inv in Hstep as (p & s' & p' & Hpi & Hws & ->).
    pose proof (Hw _ _ Hpi) as Hd. destruct p; discriminate.
Qed.

Lemma run_request_cons cs s ws cl sid acts :
  run_with cs (mkSys s ws cl) (Request sid :: acts) =
  run_with cs (mkSys s ws (cl ++ [mkClient sid CFeed []])) acts.
Proof. reflexivity. Qed.

(** A step of request thread [i] that starts no thread, inside a run. *)
Lemma run_client_cons cs s ws cl i c s' c' acts :
  cl !! i = Some c -> cs (List.length ws) s c = Some (s', c', false) ->
  run_with cs (mkSys s ws cl) (ClientStep i :: acts) = run_with cs (mkSys s' ws (<[i:=c']> cl)) acts.
Proof. intros Hc Hs. cbn. rewrite Hc, Hs. reflexivity. Qed.

(** A step of the request thread that arrived last. *)
Lemma run_client_last cs s ws cl c s' c' b acts :
  cs (List.length ws) s c = Some (s', c', b) ->
  run_with cs (mkSys s ws (cl ++ [c])) (ClientStep (List.length cl) :: acts) =
  run_with cs (mkSys s' (if b then ws ++ [WStart] else ws) (cl ++ [c'])) acts.
Proof.
  intros Hc. cbn. rewrite (list_lookup_middle cl [] c) by reflexivity. cbn. rewrite Hc.
  rewrite <- (Nat.add_0_r (List.length cl)), insert_app_r. reflexivity.
Qed.

(** ** Theorems *)

(** C2: the race of C1 is the only way to two threads.  On every
    schedule of the code in which no request thread is switched out
    between the test of line 33 and the start of line 34, every live
    background thread is the one [Camera.thread] names, so at most one
    background thread is alive, whatever the number of concurrent
    viewers, restarts and device failures. *)
Theorem serial_single_worker t0 w0 acts x :
  run_serial (sys_init t0 w0) acts = Some x ->
  (forall i p, workers x !! i = Some p -> alive p = true -> thread (cam (sh x)) = Some i) /\
  (live x <= 1)%nat.
Proof.
  intros Hrun. destruct (serial_inv_run _ _ _ (serial_inv_init t0 w0) Hrun) as [Hw _].
  split; [exact Hw|]. apply (named_live_le_1 _ (thread (cam (sh x))) 0). exact Hw.
Qed.

(** C1: the code's [initialize] is not idempotent under concurrency.  Two
    requests interleaved between the test of line 33 and the assignment
    of line 34 start two background threads, which both hold a capture
    device while [Camera.thread] names only the second. *)
Theorem initialize_race_two_devices t0 w0 :
  exists x, run (sys_init t0 w0) race_trace = Some x /\
    handles x = 2%nat /\ live x = 2%nat /\ thread (cam (sh x)) = Some 1%nat.
Proof.
  eexists. split.
  - unfold run, race_trace. cbn. rewrite String.eqb_refl. cbn. rewrite String.eqb_refl.
    reflexivity.
  - repeat split.
Qed.

(** C6: idle shutdown.  A background thread at the top of its loop when
    no [get_frame] happened for more than 10 s stops after one more
    frame: it reads, publishes, paces, finds the idle condition, releases
    the device and clears [Camera.thread], so that a later [initialize]
    starts a fresh thread. *)
Theorem idle_shutdown s ws cl i dev n ok jpeg :
  ws !! i = Some (WLoop dev) ->
  clock s - last_access (cam s) > IDLE_TIMEOUT ->
  exists x', run (mkSys s ws cl)
               [WorkerStep i ONone; WorkerStep i (OFrame n ok jpeg); Tick TARGET_DELAY;
                WorkerStep i ONone; WorkerStep i ONone; WorkerStep i ONone] = Some x' /\
    workers x' !! i = Some WDone /\ thread (cam (sh x')) = None /\
    frame (cam (sh x')) = Some jpeg.
Proof.
  intros Hi Hidle. unfold run. cbn -[process_frame pace]. rewrite Hi. cbn -[process_frame pace].
  rewrite (lookup_insert_same _ _ _ _ Hi). cbn -[process_frame pace].
  change (0 <? TARGET_DELAY) with true. cbn -[process_frame pace].
  rewrite list_insert_insert_eq, (lookup_insert_same _ _ _ _ Hi). cbn -[process_frame pace].
  rewrite pace_max, process_frame_clock, process_frame_access.
  destruct (Z.leb_spec (Z.max (clock s) (clock s + TARGET_DELAY)) (clock s + TARGET_DELAY));
    [|rewrite TARGET_DELAY_val in *; lia].
  destruct (Z.gtb_spec (clock s + TARGET_DELAY - last_access (cam s)) IDLE_TIMEOUT);
    [|rewrite TARGET_DELAY_val in *; lia].
  cbn [workers sh clients].
  rewrite list_insert_insert_eq, (lookup_insert_same _ _ _ _ Hi). cbn -[process_frame pace].
  cbn [workers sh clients].
  rewrite list_insert_insert_eq, (lookup_insert_same _ _ _ _ Hi). cbn -[process_frame pace].
  eexists. split; [reflexivity|]. cbn -[process_frame].
  rewrite list_insert_insert_eq, (lookup_insert_same _ _ _ _ Hi).
  split; [reflexivity|split; [reflexivity|apply process_frame_frame]].
Qed.

(** C7: no idle shutdown while reads fail.  A background thread whose
    device keeps failing to deliver frames cycles through lines 80-84
    for ever: after [k] failed reads it is still at the top of its loop,
    holding the device, the clock has advanced by [k] times 0.5 s and no
    [get_frame] has happened, however large [k] is. *)
Theorem read_failure_never_stops s ws cl i dev k :
  ws !! i = Some (WLoop dev) ->
  run (mkSys s ws cl) (List.concat (List.repeat (read_fail_cycle i) k)) =
  Some (mkSys (mkShared (clock s + Z.of_nat k * READ_RETRY_DELAY) (cam s) (frame_count s) (world s))
          ws cl).
Proof.
  intros Hi. revert s. induction k as [|k IH]; intros s.
  - cbn. rewrite Z.add_0_r. by destruct s.
  - cbn [List.repeat List.concat]. unfold run. rewrite run_with_app.
    fold run. rewrite (read_fail_cycle_run _ _ _ _ _ Hi). rewrite IH. cbn.
    do 3 f_equal. lia.
Qed.

(** C8: a viewer can be left on a frozen stream.  In a configuration
    where no background thread is alive and every request thread is
    streaming frame [f] (what remains when [initialize] ran while the
    previous thread was between [break] and line 137), no schedule that
    brings no new request ever starts a thread, publishes a frame or logs
    an event: the viewers receive only copies of [f]. *)
Theorem stream_frozen f x acts x' :
  frozen f x -> Forall (fun a => forall sid, a <> Request sid) acts ->
  run x acts = Some x' ->
  frozen f x' /\ world (sh x') = world (sh x) /\
  thread (cam (sh x')) = thread (cam (sh x)) /\ sent_only f x x'.
Proof.
  revert x. induction acts as [|a acts IH]; intros x Hx Hall Hrun.
  - injection Hrun as <-. split; [exact Hx | split; [reflexivity | split; [reflexivity|]]].
    apply sent_only_refl.
  - inversion Hall as [|? ? Ha Hall']; subst. unfold run in Hrun; cbn in Hrun.
    destruct (step_with client_step x a) as [y|] eqn:E; [|discriminate].
    destruct (frozen_step f x a y Hx Ha E) as (Hy & Hwy & Hty & Hsy).
    destruct (IH y Hy Hall' Hrun) as (Hz & Hwz & Htz & Hsz).
    split; [exact Hz|]. split; [congruence|]. split; [congruence|].
    by eapply sent_only_trans.
Qed.

(** C9: a failed device open is final.  Once both devices failed to open
    and the sentinel [b''] was published, [Camera.thread] is never
    cleared, so under every schedule, new requests included, no thread is
    started again, [Camera.frame] stays [b''], no event is logged and no
    viewer receives a chunk. *)
Theorem device_failure_permanent x acts x' :
  dead x -> run x acts = Some x' ->
  dead x' /\ world (sh x') = world (sh x) /\ silent x x'.
Proof.
  revert x. induction acts as [|a acts IH]; intros x Hx Hrun.
  - injection Hrun as <-. split; [exact Hx|]. split; [reflexivity|].
    split; [intros i c H; exists c; auto | intros i c H H'; congruence].
  - unfold run in Hrun; cbn in Hrun.
    destruct (step_with client_step x a) as [y|] eqn:E; [|discriminate].
    destruct (dead_step x a y Hx E) as (Hy & Hwy & Hsy).
    destruct (IH y Hy Hrun) as (Hz & Hwz & Hsz).
    split; [exact Hz|]. split; [congruence|]. by eapply silent_trans.
Qed.

(** C25: restart after teardown, with stale state.  From any
    configuration where [Camera.thread] is [None] (after an idle
    shutdown), a new viewer's [video_feed] starts a fresh background
    thread at its start; the new thread inherits the published frame,
    the module-global [frame_count] and the debouncer's status and log
    time of the previous run: none of them is reset. *)
Theorem restart_inherits_state x :
  thread (cam (sh x)) = None ->
  exists x', run x [Request STUDENT_ID; ClientStep (List.length (clients x));
                    ClientStep (List.length (clients x)); ClientStep (List.length (clients x))]
             = Some x' /\
    workers x' = workers x ++ [WStart] /\
    thread (cam (sh x')) = Some (List.length (workers x)) /\
    frame (cam (sh x')) = frame (cam (sh x)) /\
    frame_count (sh x') = frame_count (sh x) /\
    dstate (cam (sh x')) = dstate (cam (sh x)).
Proof.
  intros Ht. destruct x as [s ws cl]. cbn [sh clients workers] in *.
  eexists. split.
  - unfold run. rewrite run_request_cons.
    erewrite run_client_last by (cbn; rewrite String.eqb_refl; reflexivity).
    erewrite run_client_last by (cbn; unfold init_check; rewrite Ht; reflexivity).
    erewrite run_client_last by reflexivity. reflexivity.
  - cbn. split_and!; reflexivity.
Qed.

(** ** Relations on the world that every run respects

    The camera threads change the sink's world only through [log_sink].
    A relation on worlds that is a preorder and that every call of the
    sink respects is therefore respected by every run, under either
    semantics of [initialize]. *)

(** Request threads never touch the world. *)
Lemma client_step_world n s c s' c' b :
  client_step n s c = Some (s', c', b) -> world s' = world s.
Proof. unfold client_step, init_check. repeat case_match; intros; simplify_eq; reflexivity. Qed.

Section Preserved.
Variable R : W -> W -> Prop.
Hypothesis R_refl : forall w, R w w.
Hypothesis R_trans : forall a b c, R a b -> R b c -> R a c.
Hypothesis R_sink : forall cb sid typ lvl msg now w, R w (log_sink cb sid typ lvl msg now w).

Lemma process_frame_R n ok j s : R (world s) (world (process_frame n ok j s)).
Proof. unfold process_frame, detect_step, log_event. repeat case_match; simplify_eq; cbn; auto. Qed.

Lemma worker_step_R s p o s' p' : worker_step s p o = Some (s', p') -> R (world s) (world s').
Proof.
  destruct p as [| [] wake | dev | dev t | dev wake | dev wake | dev | |], o;
    cbn; intros H; repeat case_match; simplify_eq; cbn; auto using process_frame_R.
Qed.

Lemma run_with_R (cs : ClientSem) x acts x' :
  (forall n s c s' c' b, cs n s c = Some (s', c', b) -> world s' = world s) ->
  run_with cs x acts = Some x' -> R (world (sh x)) (world (sh x')).
Proof.
  intros Hcs. revert x. induction acts as [|a acts IH]; intros x Hrun; cbn in Hrun.
  - injection Hrun as <-. apply R_refl.
  - destruct (step_with cs x a) as [y|] eqn:Hy; [|discriminate].
    apply (R_trans _ (world (sh y))); [|exact (IH y Hrun)].
    destruct a as [d|sid|i|i o].
    + cbn in Hy. destruct (0 <? d); [|discriminate]. injection Hy as <-. apply R_refl.
    + injection Hy as <-. apply R_refl.
    + apply step_client_inv in Hy as (c & s' & c' & b & _ & Hc & ->). cbn.
      rewrite (Hcs _ _ _ _ _ _ Hc). apply R_refl.
    + apply step_worker_inv in Hy as (p & s' & p' & _ & Hw & ->). exact (worker_step_R _ _ _ _ _ Hw).
Qed.

End Preserved.

End Sys.
End Sys.
