(* ===== verification/Reach.v ===== *)
(** * Reach: the well-formedness of reachable configurations

    An invariant of every configuration the code reaches from the
    import-time state ([System.Sys.run] from [sys_init]): [Camera.thread]
    names a background thread that was started; no thread sleeps longer
    than its delay (the 1 s settling sleep, the 0.5 s backoff, the 1/30 s
    pacing sleep, the 0.05 s poll); a thread about to read has recorded a
    start time that is not in the future; and the debouncer's
    [last_log_time] is never ahead of the clock, so the elapsed time of
    the heartbeat test (line 111) is never negative. *)

From S2P Require Import Prelude Detector Debouncer Camera System.

Module Reach.
Import Detector Cam Sys.

Section Reach.
Context {Cb W : Type} `{!LogSink Cb W}.
Variable STUDENT_ID : string.
Variable handler : Cb.

(** How far ahead of the clock [now] a background thread may be asleep. *)
Definition wake_ok (now : Z) (p : WPc) : Prop :=
  match p with
  | WSettle _ wake => wake <= now + SETTLE_DELAY
  | WRead _ t_start => t_start <= now
  | WBackoff _ wake => wake <= now + READ_RETRY_DELAY
  | WPace _ wake => wake <= now + TARGET_DELAY
  | _ => True
  end.

(** ... and a request thread polling for the first frame. *)
Definition sleep_ok (now : Z) (p : CPc) : Prop :=
  match p with CSleep wake => wake <= now + POLL_DELAY | _ => True end.

Record sys_wf (x : @Sys.Sys Cb W) : Prop := {
  wf_thread : forall i, thread (cam (sh x)) = Some i -> (i < List.length (workers x))%nat;
  wf_workers : Forall (wake_ok (clock (sh x))) (workers x);
  wf_clients : Forall (fun c => sleep_ok (clock (sh x)) (c_pc c)) (clients x);
  wf_log_time : last_log_time (cam (sh x)) <= clock (sh x)
}.

(** ** Lemmas *)

Lemma wake_ok_mono now now' p : now <= now' -> wake_ok now p -> wake_ok now' p.
Proof. destruct p; cbn; lia. Qed.

Lemma sleep_ok_mono now now' p : now <= now' -> sleep_ok now p -> sleep_ok now' p.
Proof. destruct p; cbn; lia. Qed.

Lemma pace_le t_start now : t_start <= now -> pace t_start now <= now + TARGET_DELAY.
Proof. intros H. rewrite pace_max, TARGET_DELAY_val in *. lia. Qed.

(** A background thread's step keeps the clock and its own bound, keeps
    [last_log_time] behind the clock, and changes [Camera.thread] only to
    [None]. *)
Lemma worker_step_wf s p o s' p' :
  worker_step s p o = Some (s', p') -> wake_ok (clock s) p ->
  last_log_time (cam s) <= clock s ->
  clock s' = clock s /\ wake_ok (clock s) p' /\ last_log_time (cam s') <= clock s /\
  (thread (cam s') = thread (cam s) \/ thread (cam s') = None).
Proof.
  intros H Hp Hl.
  destruct p as [| [] wake | dev | dev t | dev wake | dev wake | dev | |], o; cbn in H, Hp;
    repeat case_match; simplify_eq; cbn; split_and!; auto; try lia.
  - apply process_frame_clock.
  - by apply pace_le.
  - match goal with |- last_log_time (cam (process_frame ?n ?ok ?j s)) <= _ =>
      destruct (process_frame_log_time n ok j s) as [->| ->]; lia end.
  - left. apply process_frame_thread.
Qed.

(** A request thread's step keeps the clock and [last_log_time], sleeps
    at most [POLL_DELAY], and names the thread it starts. *)
Lemma client_step_wf n (s s' : @Shared Cb W) c c' b :
  client_step STUDENT_ID handler n s c = Some (s', c', b) ->
  clock s' = clock s /\ last_log_time (cam s') = last_log_time (cam s) /\
  sleep_ok (clock s) (c_pc c') /\
  (if b then thread (cam s') = Some n else thread (cam s') = thread (cam s)).
Proof.
  unfold client_step, init_check. repeat case_match; intros; simplify_eq; cbn; split_and!;
    auto; lia.
Qed.

Lemma sys_wf_step x a x' :
  sys_wf x -> step STUDENT_ID handler x a = Some x' -> sys_wf x'.
Proof.
  intros [Ht Hw Hc Hl] Hs. unfold step in Hs. destruct a as [d|sid|i|i o].
  - cbn in Hs. destruct (Z.ltb_spec 0 d); [|discriminate]. injection Hs as <-.
    constructor; cbn; auto; [| |lia].
    + eapply Forall_impl; [exact Hw|]. intros p. apply wake_ok_mono. lia.
    + eapply Forall_impl; [exact Hc|]. intros c. apply sleep_ok_mono. lia.
  - injection Hs as <-. constructor; cbn; auto. apply Forall_app; split; [exact Hc|].
    repeat constructor.
  - apply step_client_inv in Hs as (c & s' & c' & b & Hci & Hcs & ->).
    destruct (client_step_wf _ _ _ _ _ _ Hcs) as (Hck & Hlt & Hsl & Hth).
    constructor; cbn; rewrite ?Hck, ?Hlt.
    + intros j Hj. destruct b; rewrite ?length_app; cbn.
      * rewrite Hth in Hj. injection Hj as <-. lia.
      * rewrite Hth in Hj. auto.
    + destruct b; [apply Forall_app; split; [exact Hw | repeat constructor]|exact Hw].
    + by apply Forall_insert.
    + exact Hl.
  - apply step_worker_inv in Hs as (p & s' & p' & Hpi & Hws & ->).
    pose proof (proj1 (Forall_lookup _ _) Hw i p Hpi) as Hp.
    destruct (worker_step_wf _ _ _ _ _ Hws Hp Hl) as (Hck & Hp' & Hl' & Hth).
    constructor; cbn; rewrite ?Hck, ?length_insert.
    + intros j Hj. destruct Hth as [E|E]; rewrite E in Hj; [auto | discriminate].
    + by apply Forall_insert.
    + exact Hc.
    + exact Hl'.
Qed.

Lemma sys_wf_init t0 w0 : sys_wf (sys_init t0 w0).
Proof. constructor; cbn; auto; [discriminate | lia]. Qed.

(** Every configuration the code reaches from the import-time state,
    under any interleaving, is well formed: the hypothesis of C34 holds
    of every reachable configuration. *)
Lemma reachable_wf t0 w0 acts x :
  run STUDENT_ID handler (sys_init t0 w0) acts = Some x -> sys_wf x.
Proof.
  intros Hrun. cut (forall y, sys_wf y -> run STUDENT_ID handler y acts = Some x -> sys_wf x);
    [intros H; exact (H _ (sys_wf_init t0 w0) Hrun)|].
  clear Hrun. induction acts as [|a acts IH]; intros y Hy Hrun; cbn in Hrun.
  - by injection Hrun as <-.
  - destruct (step_with _ y a) as [z|] eqn:Hz; [|discriminate].
    exact (IH z (sys_wf_step y a z Hy Hz) Hrun).
Qed.

(** ** Theorems *)

(** C34: the bounded wait of [get_frame].  In a well-formed
    configuration, a viewer asleep in the poll loop of lines 41-42 while
    a non-empty frame is published sends that frame within 0.05 s: after
    one tick of [POLL_DELAY] it wakes, finds the frame, and [gen] yields
    its chunk (lines 160-162), the viewer then back at [get_frame]. *)
Theorem viewer_bounded_wait x i c w f :
  sys_wf x -> clients x !! i = Some c -> c_pc c = CSleep w ->
  frame (cam (sh x)) = Some f -> f <> [] ->
  exists x', run STUDENT_ID handler x [Tick POLL_DELAY; ClientStep i; ClientStep i; ClientStep i]
             = Some x' /\
    clients x' !! i = Some (mkClient (c_sid c) CAccess (c_out c ++ [chunk f])) /\
    clock (sh x') = clock (sh x) + POLL_DELAY.
Proof.
  intros [_ _ Hc _] Hi Hpc Hf Hne.
  pose proof (proj1 (Forall_lookup _ _) Hc i c Hi) as Hw. cbn beta in Hw. rewrite Hpc in Hw.
  destruct x as [s ws cl]. cbn [sh clients] in Hi, Hf, Hw |- *. cbn in Hw.
  set (s1 := mkShared (clock s + POLL_DELAY) (cam s) (frame_count s) (world s)).
  eexists. split; [|split].
  - unfold run. rewrite run_tick_cons by reflexivity. fold s1.
    rewrite (run_client_cons _ _ _ _ _ c s1 (set_pc CPoll c)) by
      (exact Hi || (unfold client_step; rewrite Hpc; cbn;
                    destruct (Z.leb_spec w (clock s + POLL_DELAY)); [reflexivity | lia])).
    rewrite (run_client_cons _ _ _ _ _ (set_pc CPoll c) s1 (set_pc (CYield f) c)) by
      (exact (lookup_insert_same _ _ _ _ Hi) || (unfold client_step, poll, s1; cbn; rewrite Hf; reflexivity)).
    rewrite (run_client_cons _ _ _ _ _ (set_pc (CYield f) c) s1
               (mkClient (c_sid c) CAccess (c_out c ++ [chunk f]))) by
      (exact (lookup_insert_same _ _ _ _ (lookup_insert_same _ _ _ _ Hi)) ||
       (cbn; destruct f; [congruence | reflexivity])).
    reflexivity.
  - cbn. rewrite !list_insert_insert_eq. by apply (lookup_insert_same _ _ _ _ Hi).
  - reflexivity.
Qed.

End Reach.
End Reach.
