(* ===== verification/Loop.v ===== *)
(** * Loop: the background loop of [_thread] with no reader

    [camera.py] lines 79-134 when every read succeeds and no request
    calls [get_frame]: each iteration stamps [t_start], reads (the read
    takes some time), runs the body of lines 86-121, sleeps to hold
    1/30 s (123-129), and breaks when more than 10 s passed since
    [last_access] (132-134).  [iteration] is one such iteration on the
    shared state; [solo_loop] repeats it until the idle check breaks.
    The loop is not structurally recursive: it stops because each
    iteration advances the clock by at least [TARGET_DELAY] while
    [last_access] stays, so [solo_loop] is defined with Equations by
    well-founded recursion on the remaining idle budget, and
    [loop_iteration_steps] shows that an iteration is the background
    thread's three steps of [Cam.worker_step]. *)

From Equations Require Import Equations.
From S2P Require Import Prelude Detector Debouncer Camera System.

Module Loop.
Import Cam Sys.

(** What the device delivers in one iteration: the number of faces, the
    time [camera.read()] takes, [imencode]'s flag and bytes. *)
Definition RFrame := (nat * Z * bool * bytes)%type.

Section Loop.
Context {Cb W : Type} `{!LogSink Cb W}.

(** The shared state with the clock moved to [t]. *)
Definition at_clock (t : Z) (s : @Shared Cb W) : @Shared Cb W :=
  mkShared t (cam s) (frame_count s) (world s).

(** Lines 80-129: one iteration whose read succeeds after [d] ticks. *)
Definition iteration (fr : RFrame) (s : @Shared Cb W) : @Shared Cb W :=
  let '(n, d, ok, j) := fr in
  let s1 := process_frame n ok j (at_clock (clock s + Z.max 0 d) s) in
  at_clock (pace (clock s) (clock s1)) s1.

(** Line 132: the idle test after the pacing sleep. *)
Definition idle (s : @Shared Cb W) : bool := clock s - last_access (cam s) >? IDLE_TIMEOUT.

(** How much longer the loop may run before the idle test fires. *)
Definition budget (s : @Shared Cb W) : Z := IDLE_TIMEOUT - (clock s - last_access (cam s)).

(** The time a read takes. *)
Definition read_time (fr : RFrame) : Z := let '(_, d, _, _) := fr in d.

(** The schedule of one iteration of thread [th] in [System]: the stamp,
    the clock running during the read, the read and body, the clock
    running to the end of the pacing sleep, the idle check. *)
Definition iter_acts (th : nat) (fr : RFrame) : list Act :=
  let '(n, d, ok, j) := fr in
  [WorkerStep th ONone] ++ (if 0 <? d then [Tick d] else []) ++ [WorkerStep th (OFrame n ok j)]
  ++ (if 0 <? TARGET_DELAY - d then [Tick (TARGET_DELAY - d)] else []) ++ [WorkerStep th ONone].

(** Iterations [a] to [a + k - 1]. *)
Definition loop_acts (th : nat) (env : nat -> RFrame) (a k : nat) : list Act :=
  List.concat (map (fun m => iter_acts th (env m)) (seq a k)).

Lemma iteration_clock fr s : clock s + TARGET_DELAY <= clock (iteration fr s).
Proof.
  destruct fr as [[[n d] ok] j]. cbn. rewrite pace_max, process_frame_clock. cbn. lia.
Qed.

Lemma iteration_access fr s : last_access (cam (iteration fr s)) = last_access (cam s).
Proof. destruct fr as [[[n d] ok] j]. cbn. rewrite process_frame_access. reflexivity. Qed.

Lemma iteration_budget fr s : budget (iteration fr s) <= budget s - TARGET_DELAY.
Proof.
  unfold budget. rewrite iteration_access. pose proof (iteration_clock fr s). lia.
Qed.

(** The loop from iteration [i] on, with the device's answers [env]; the
    final state and the number of frames published. *)
Equations? solo_loop (env : nat -> RFrame) (i : nat) (s : @Shared Cb W) : @Shared Cb W * nat
  by wf (Z.to_nat (budget s + 1)) lt :=
  solo_loop env i s with Z_le_gt_dec (budget (iteration (env i) s)) (-1) => {
    | left _ => (iteration (env i) s, S i);
    | right H => solo_loop env (S i) (iteration (env i) s) }.
Proof.
  pose proof (iteration_budget (env i) s). rewrite TARGET_DELAY_val in *. lia.
Qed.

Lemma solo_loop_idle env i s : idle (fst (solo_loop env i s)) = true.
Proof.
  funelim (solo_loop env i s); [|assumption].
  cbn. unfold idle, budget in *. pose proof IDLE_TIMEOUT_val. apply Z_gtb_true. lia.
Qed.

Lemma solo_loop_access env i s : last_access (cam (fst (solo_loop env i s))) = last_access (cam s).
Proof.
  funelim (solo_loop env i s); cbn; [apply iteration_access|].
  match goal with IH : last_access (cam (fst (solo_loop _ _ _))) = _ |- _ => rewrite IH end.
  apply iteration_access.
Qed.

Lemma solo_loop_pos env i s : (S i <= snd (solo_loop env i s))%nat.
Proof.
  funelim (solo_loop env i s); cbn; [lia|].
  match goal with IH : (_ <= snd (solo_loop _ _ _))%nat |- _ => revert IH end. lia.
Qed.

Lemma solo_loop_count env i s :
  (snd (solo_loop env i s) <= i + Z.to_nat (budget s / TARGET_DELAY) + 1)%nat.
Proof.
  funelim (solo_loop env i s); cbn; [lia|].
  match goal with IH : (snd (solo_loop _ _ _) <= _)%nat |- _ => revert IH end.
  pose proof (iteration_budget (env i) s) as Hb. rewrite TARGET_DELAY_val in *.
  set (b' := budget (iteration (env i) s)) in *. set (b := budget s) in *.
  assert (Hd : b' / 1000 + 1 <= b / 1000).
  { rewrite <- (Z.div_add b' 1 1000) by lia. apply Z.div_le_mono; lia. }
  pose proof (Z.div_pos b' 1000 ltac:(lia) ltac:(lia)). lia.
Qed.

Lemma at_clock_self s : at_clock (clock s) s = s.
Proof. by destruct s. Qed.

(** An iteration as a piece of a schedule of [System]: from the top of
    the loop, the iteration's actions bring thread [th] to the next top
    of the loop, or to the release when the idle test holds, and the
    shared state to [iteration fr s]. *)
Lemma iteration_run (cs : @ClientSem Cb W) s ws cl th dev fr acts :
  ws !! th = Some (WLoop dev) -> 0 <= read_time fr ->
  run_with cs (mkSys s ws cl) (iter_acts th fr ++ acts) =
  run_with cs (mkSys (iteration fr s)
                 (<[th := if idle (iteration fr s) then WRelease dev else WLoop dev]> ws) cl) acts.
Proof.
  destruct fr as [[[n d] ok] j]. intros Hth Hd. cbn [read_time] in Hd.
  pose proof TARGET_DELAY_val as HT.
  set (s1 := process_frame n ok j (at_clock (clock s + d) s)).
  assert (Hc1 : clock s1 = clock s + d) by apply process_frame_clock.
  assert (Hit : iteration (n, d, ok, j) s = at_clock (Z.max (clock s + d) (clock s + TARGET_DELAY)) s1).
  { unfold iteration. rewrite Z.max_r by lia. fold s1. rewrite pace_max, Hc1. reflexivity. }
  assert (Hpace : forall st, clock st = Z.max (clock s + d) (clock s + TARGET_DELAY) ->
            run_with cs (mkSys st (<[th:=WPace dev (pace (clock s) (clock s + d))]> ws) cl)
              (WorkerStep th ONone :: acts) =
            run_with cs (mkSys st (<[th := if idle st then WRelease dev else WLoop dev]> ws) cl) acts).
  { intros st Hst. cbn [run_with step_with sh workers clients].
    rewrite (lookup_insert_same _ _ _ _ Hth). cbn [worker_step]. unfold idle.
    rewrite pace_max, Hst, Z.leb_refl.
    destruct (_ >? _); cbn [run_with]; by rewrite list_insert_insert_eq. }
  unfold iter_acts. rewrite <- !app_assoc. cbn [app].
  rewrite (run_worker_cons cs s ws cl th ONone (WLoop dev) s (WRead dev (clock s)) _ Hth eq_refl).
  assert (Hread : forall s0, s0 = at_clock (clock s + d) s ->
            run_with cs (mkSys s0 (<[th:=WRead dev (clock s)]> ws) cl)
              (WorkerStep th (OFrame n ok j) ::
               (if 0 <? TARGET_DELAY - d then [Tick (TARGET_DELAY - d)] else []) ++
               WorkerStep th ONone :: acts) =
            run_with cs (mkSys (iteration (n, d, ok, j) s)
              (<[th := if idle (iteration (n, d, ok, j) s) then WRelease dev else WLoop dev]> ws) cl) acts).
  { intros s0 ->.
    rewrite (run_worker_cons cs _ _ cl th (OFrame n ok j) (WRead dev (clock s)) s1
               (WPace dev (pace (clock s) (clock s + d))) _ (lookup_insert_same _ _ _ _ Hth) eq_refl).
    rewrite list_insert_insert_eq.
    destruct (Z.ltb_spec 0 (TARGET_DELAY - d)); cbn [app].
    - rewrite run_tick_cons by lia.
      assert (E : mkShared (clock s1 + (TARGET_DELAY - d)) (cam s1) (frame_count s1) (world s1)
                  = at_clock (Z.max (clock s + d) (clock s + TARGET_DELAY)) s1).
      { unfold at_clock. f_equal. rewrite Hc1. lia. }
      rewrite E, Hpace by reflexivity. by rewrite Hit.
    - rewrite Hpace; cycle 1. { rewrite Hc1. lia. }
      rewrite Hit, Z.max_l by lia. rewrite <- Hc1, at_clock_self. reflexivity. }
  destruct (Z.ltb_spec 0 d); cbn [app].
  - rewrite run_tick_cons by lia. by apply Hread.
  - apply Hread. replace d with 0 by lia. rewrite Z.add_0_r. symmetry. apply at_clock_self.
Qed.

(** One iteration is three steps of the background thread: the [t_start]
    stamp at the top of the loop, the successful read [d] ticks later
    with the body of lines 86-121, and the idle check after the pacing
    sleep, which leaves the loop exactly when [idle] holds. *)
Lemma loop_iteration_steps dev n d ok j s :
  0 <= d ->
  let s1 := process_frame n ok j (at_clock (clock s + d) s) in
  let w := pace (clock s) (clock s + d) in
  worker_step s (WLoop dev) ONone = Some (s, WRead dev (clock s)) /\
  worker_step (at_clock (clock s + d) s) (WRead dev (clock s)) (OFrame n ok j) =
    Some (s1, WPace dev w) /\
  worker_step (at_clock w s1) (WPace dev w) ONone =
    Some (iteration (n, d, ok, j) s,
          if idle (iteration (n, d, ok, j) s) then WRelease dev else WLoop dev).
Proof.
  intros Hd. cbv zeta. split; [reflexivity|]. split; [reflexivity|].
  unfold iteration, idle. rewrite Z.max_r by exact Hd.
  rewrite process_frame_clock. cbn. rewrite Z.leb_refl. by destruct (_ >? _).
Qed.

Lemma loop_acts_cons th env i k :
  loop_acts th env i (S k) = iter_acts th (env i) ++ loop_acts th env (S i) k.
Proof. reflexivity. Qed.

(** The whole loop as a piece of a schedule: its iterations bring the
    thread from the top of the loop to the release. *)
Lemma solo_loop_run (cs : @ClientSem Cb W) env i s ws cl th dev acts :
  ws !! th = Some (WLoop dev) -> (forall k, 0 <= read_time (env k)) ->
  run_with cs (mkSys s ws cl) (loop_acts th env i (snd (solo_loop env i s) - i) ++ acts) =
  run_with cs (mkSys (fst (solo_loop env i s)) (<[th := WRelease dev]> ws) cl) acts.
Proof.
  intros Hth Hd. funelim (solo_loop env i s); cbn [fst snd].
  - replace (S i - i)%nat with 1%nat by lia. unfold loop_acts. cbn [seq map List.concat].
    rewrite app_nil_r, (iteration_run cs _ ws cl th dev) by auto.
    assert (Hi : idle (iteration (env i) s) = true).
    { unfold idle, budget in *. pose proof IDLE_TIMEOUT_val. apply Z_gtb_true. lia. }
    by rewrite Hi.
  - pose proof (solo_loop_pos env (S i) (iteration (env i) s)).
    replace (snd (solo_loop env (S i) (iteration (env i) s)) - i)%nat
      with (S (snd (solo_loop env (S i) (iteration (env i) s)) - S i)) by lia.
    rewrite loop_acts_cons, <- app_assoc, (iteration_run cs _ ws cl th dev) by auto.
    assert (Hi : idle (iteration (env i) s) = false).
    { unfold idle, budget in *. pose proof IDLE_TIMEOUT_val. apply Z_gtb_false. lia. }
    rewrite Hi, list_insert_id by exact Hth. auto.
Qed.

Lemma solo_loop_le_301 env s :
  last_access (cam s) <= clock s -> (snd (solo_loop env 0 s) <= 301)%nat.
Proof.
  intros Hla. pose proof (solo_loop_count env 0 s) as Hc.
  assert (Hb : budget s / TARGET_DELAY <= 300).
  { unfold budget. rewrite TARGET_DELAY_val, IDLE_TIMEOUT_val. apply Z.div_le_upper_bound; lia. }
  lia.
Qed.

(** ** Theorems *)

(** C30: the loop without readers terminates, by the idle test, after
    at most 301 frames.  With every read succeeding and [last_access]
    not in the future, [solo_loop] (total: each iteration advances the
    clock by at least 1/30 s while [last_access] stays) returns a state
    in which the idle test of line 132 holds, with [last_access]
    unchanged, after between 1 and 301 iterations: the device is held
    for at most about 10 s past the last [get_frame]. *)
Theorem idle_loop_terminates env s :
  last_access (cam s) <= clock s ->
  idle (fst (solo_loop env 0 s)) = true /\
  last_access (cam (fst (solo_loop env 0 s))) = last_access (cam s) /\
  (1 <= snd (solo_loop env 0 s) <= 301)%nat.
Proof.
  intros Hla. split; [apply solo_loop_idle|]. split; [apply solo_loop_access|].
  pose proof (solo_loop_le_301 env s Hla). pose proof (solo_loop_pos env 0 s). lia.
Qed.

(** C35: with no reader the device is released and [Camera.thread]
    cleared by the thread's own steps.  From the top of the loop, with
    every read succeeding after its read time and [last_access] not in
    the future, the schedule of the thread's iterations (at most 301),
    the clock running through each read and pacing sleep, followed by
    [camera.release()] and [Camera.thread = None] (lines 136-137), runs
    in [System] to the thread's end, in the state [solo_loop] computes
    with [Camera.thread] cleared; no other thread needs to move. *)
Theorem no_reader_releases (cs : @ClientSem Cb W) s ws cl th dev env :
  ws !! th = Some (WLoop dev) -> (forall k, 0 <= read_time (env k)) ->
  last_access (cam s) <= clock s ->
  run_with cs (mkSys s ws cl)
    (loop_acts th env 0 (snd (solo_loop env 0 s)) ++ [WorkerStep th ONone; WorkerStep th ONone]) =
  Some (mkSys (set_cam (set_thread None (cam (fst (solo_loop env 0 s)))) (fst (solo_loop env 0 s)))
          (<[th := WDone]> ws) cl) /\
  (snd (solo_loop env 0 s) <= 301)%nat.
Proof.
  intros Hth Hd Hla. split; [|exact (solo_loop_le_301 env s Hla)].
  rewrite <- (Nat.sub_0_r (snd (solo_loop env 0 s))), (solo_loop_run cs env 0 s ws cl th dev) by assumption.
  rewrite (run_worker_cons cs _ _ cl th ONone (WRelease dev) _ WClear _
             (list_lookup_insert_eq _ _ _ (lookup_lt_Some _ _ _ Hth)) eq_refl).
  rewrite (run_worker_cons cs _ _ cl th ONone WClear _ WDone _
             (lookup_insert_same _ _ _ _ (list_lookup_insert_eq _ _ _ (lookup_lt_Some _ _ _ Hth)))
             eq_refl).
  by rewrite !list_insert_insert_eq.
Qed.

End Loop.
End Loop.
