(* ===== verification/AppState.v ===== *)
(** * AppState: the tables of [src/app.py] and its logging sink (lines 8-45)

    [EXAMS], [USERS] and [SESSION_LOGS] are module-level dicts; the model
    keeps the two mutable ones in [AppState] as stdpp [gmap]s keyed by
    the student id, and [EXAMS] as a constant.  A request's JSON body and
    the JSON a route returns are values of [Json]; a Python dict is an
    association list in insertion order, whose [get] returns the value of
    the last occurrence of the key, as [json.loads] keeps the last
    duplicate.  [central_log_handler] appends a timestamped entry to one
    of the three lists of a known student; it is the [LogSink] the camera
    calls. *)

From S2P Require Import Prelude Camera.
From stdpp Require Import gmap pretty.
From Stdlib Require Import Ascii.
Local Open Scope Z_scope.

Module AppState.

(** JSON values as [request.json] decodes them and [jsonify] encodes them
    (numbers: integers only). *)
#[local] Set Warnings "-register-all".
Inductive Json :=
| JNull
| JBool (b : bool)
| JInt (z : Z)
| JStr (s : string)
| JArr (l : list Json)
| JObj (l : list (string * Json)).

(** Lines 11-13: a question. *)
Record Question := mkQuestion {
  q_id : Z;
  q_text : string;
  q_options : list (string * string);
  q_answer : string
}.

(** Line 18: a user record; [answers] maps a question id to the value the
    request carried ([JNull] for [None]). *)
Record User := mkUser {
  name : string;
  exam_id : string;
  current_q_index : nat;
  status : string;
  submitted : bool;
  score : nat;
  answers : gmap Z Json
}.

(** Lines 29-34: a log entry. *)
Record LogEntry := mkEntry {
  le_time : string;
  le_type : string;
  le_level : string;
  le_message : string
}.

(** Line 24: the three lists kept per student. *)
Record SessionLog := mkLog {
  video_warnings : list LogEntry;
  browser_events : list LogEntry;
  admin_actions : list LogEntry
}.

Record AppState := mkApp {
  USERS : gmap string User;
  SESSION_LOGS : gmap string SessionLog
}.

(** Lines 9-15. *)
Definition EXAMS : gmap string (list Question) :=
  {[ "exam_001" :=
     [mkQuestion 1 "What is the capital of France?"
        [("A", "Berlin"); ("B", "Paris"); ("C", "Rome")] "B";
      mkQuestion 2 "What does SQL stand for?"
        [("A", "Structured Query Language"); ("B", "Standard Question Language");
         ("C", "Simple Query Logic")] "A";
      mkQuestion 3 "Who painted the Mona Lisa?"
        [("A", "Van Gogh"); ("B", "Da Vinci"); ("C", "Picasso")] "B"] ]}.

(** Line 23. *)
Definition STUDENT_ID : string := "student_101".

(** Lines 17-24: the state at import. *)
Definition app_init : AppState :=
  mkApp {[ STUDENT_ID := mkUser "Alice Smith" "exam_001" 0 "active" false 0 ∅ ]}
        {[ STUDENT_ID := mkLog [] [] [] ]}.

(** ** Python helpers *)

(** [d.get(k, default)] on a decoded JSON value: the last binding of [k]
    when [d] is an object; [inl 500] (an [AttributeError]) otherwise. *)
Definition py_get (d : Json) (k : string) (default : Json) : Z + Json :=
  match d with
  | JObj kvs =>
      match filter (fun kv => fst kv = k) (rev kvs) with
      | (_, v) :: _ => inr v
      | [] => inr default
      end
  | _ => inl 500%Z
  end.

(** [str(x)] and [repr(x)] of a decoded JSON value.  A string's [repr] is
    quoted with single quotes; the escaping Python applies to quotes and
    backslashes inside it is not modelled. *)
Fixpoint py_repr (j : Json) : string :=
  match j with
  | JNull => "None"
  | JBool true => "True"
  | JBool false => "False"
  | JInt z => pretty z
  | JStr s => "'" +:+ s +:+ "'"
  | JArr l => "[" +:+ String.concat ", " (map py_repr l) +:+ "]"
  | JObj kvs =>
      "{" +:+ String.concat ", " (map (fun kv => "'" +:+ fst kv +:+ "': " +:+ py_repr (snd kv)) kvs)
      +:+ "}"
  end.

Definition py_str (j : Json) : string :=
  match j with JStr s => s | _ => py_repr j end.

(** [str.upper()] on ASCII letters. *)
Definition upper_ascii (c : ascii) : ascii :=
  let n := nat_of_ascii c in
  if andb (Nat.leb 97 n) (Nat.leb n 122) then ascii_of_nat (n - 32) else c.

Fixpoint py_upper (s : string) : string :=
  match s with
  | EmptyString => EmptyString
  | String c s' => String (upper_ascii c) (py_upper s')
  end.

(** Two decimal digits. *)
Definition pad2 (n : Z) : string := (if Z.ltb n 10 then "0" else "") +:+ pretty n.

(** Line 28: [time.strftime('%H:%M:%S')] of the clock (read as local
    time: the time-zone offset is not modelled). *)
Definition strftime_hms (now : Z) : string :=
  let s := now / TICKS_PER_SEC in
  pad2 ((s / 3600) mod 24) +:+ ":" +:+ pad2 ((s / 60) mod 60) +:+ ":" +:+ pad2 (s mod 60).

(** ** The logging sink *)

Definition add_video (e : LogEntry) (l : SessionLog) : SessionLog :=
  mkLog (video_warnings l ++ [e]) (browser_events l) (admin_actions l).
Definition add_browser (e : LogEntry) (l : SessionLog) : SessionLog :=
  mkLog (video_warnings l) (browser_events l ++ [e]) (admin_actions l).
Definition add_admin (e : LogEntry) (l : SessionLog) : SessionLog :=
  mkLog (video_warnings l) (browser_events l) (admin_actions l ++ [e]).

(** Lines 26-45: build the entry; append it to the list its type names
    when the student is known; any other type (the routes use
    ['system']) is only printed.  The [print] is not modelled. *)
Definition central_log_handler (student_id log_type level message : string) (now : Z)
    (st : AppState) : AppState :=
  let e := mkEntry (strftime_hms now) log_type level message in
  match SESSION_LOGS st !! student_id with
  | Some l =>
      let add :=
        if String.eqb log_type "video" then Some (add_video e)
        else if String.eqb log_type "browser" then Some (add_browser e)
        else if String.eqb log_type "admin" then Some (add_admin e)
        else None in
      match add with
      | Some f => mkApp (USERS st) (<[student_id := f l]> (SESSION_LOGS st))
      | None => st
      end
  | None => st
  end.

(** Line 150: the callback [video_feed] hands to [initialize] is this
    function; it is the only callback, so [Cb] is [unit]. *)
#[export] Instance central_sink : LogSink unit AppState :=
  fun _ sid typ level message now st => central_log_handler sid typ level message now st.

End AppState.
