(* ===== verification/Routes.v ===== *)
(** * Routes: the Flask handlers of [src/app.py] (lines 49-192)

    Each route is a function from its inputs (the URL's student id, the
    decoded JSON body, the clock) and the [AppState] to a [Response] and
    the new state.  A Python exception inside a handler becomes Flask's
    500 answer, [RError 500], and leaves the state as the handler had
    changed it so far (no handler changes anything before it can raise).
    Python mutates the user dict found in [USERS] in place; the model
    writes the updated record back under the same key.  The video route
    is modelled with the threads, in [System].  [submit_all] runs the
    exam page's answers through [submit_answer] one after another, and
    [count_correct] is the grading contract it is proved against. *)

From S2P Require Import Prelude Camera AppState.
From stdpp Require Import gmap pretty.
Local Open Scope Z_scope.

Module Routes.
Import AppState.

(** What a handler returns. *)
Inductive Response :=
| RJson (code : Z) (body : Json)                   (* jsonify(...), code *)
| RText (code : Z) (body : string)                 (* a plain string, code *)
| RTemplate (name : string) (ctx : list (string * Json)) (* render_template *)
| RError (code : Z).                               (* an uncaught exception *)

(** The JSON a user dict and a question dict become. *)
Definition user_json (u : User) : Json :=
  JObj [("name", JStr (name u)); ("exam_id", JStr (exam_id u));
        ("current_q_index", JInt (Z.of_nat (current_q_index u)));
        ("status", JStr (status u)); ("submitted", JBool (submitted u));
        ("score", JInt (Z.of_nat (score u)));
        ("answers", JObj (map (fun kv => (pretty (fst kv), snd kv)) (map_to_list (answers u))))].

Definition question_items (q : Question) : list (string * Json) :=
  [("id", JInt (q_id q)); ("text", JStr (q_text q));
   ("options", JObj (map (fun kv => (fst kv, JStr (snd kv))) (q_options q)));
   ("answer", JStr (q_answer q))].

Definition log_json (e : LogEntry) : Json :=
  JObj [("time", JStr (le_time e)); ("type", JStr (le_type e));
        ("level", JStr (le_level e)); ("message", JStr (le_message e))].

Definition session_json (l : SessionLog) : Json :=
  JObj [("video_warnings", JArr (map log_json (video_warnings l)));
        ("browser_events", JArr (map log_json (browser_events l)));
        ("admin_actions", JArr (map log_json (admin_actions l)))].

Definition err_json (msg : string) : Json := JObj [("error", JStr msg)].

Definition set_user (sid : string) (u : User) (st : AppState) : AppState :=
  mkApp (<[sid := u]> (USERS st)) (SESSION_LOGS st).

(** Lines 49-58: [index]. *)
Definition index (st : AppState) : Response :=
  match USERS st !! STUDENT_ID with
  | None => RText 404 "User not found."
  | Some u =>
      if submitted u then RTemplate "results.html" [("user", user_json u)]
      else match EXAMS !! exam_id u with
           | None => RError 500
           | Some ex => RTemplate "index.html"
                          [("student_id", JStr STUDENT_ID);
                           ("total_questions", JInt (Z.of_nat (length ex)))]
           end
  end.

(** Lines 61-80: [get_question]; the answer key is filtered out and
    [q_number] appended. *)
Definition get_question (sid : string) (st : AppState) : Response :=
  match USERS st !! sid with
  | None => RJson 404 (err_json "Exam ended or user not found")
  | Some u =>
      if submitted u then RJson 404 (err_json "Exam ended or user not found")
      else match EXAMS !! exam_id u with
           | None => RError 500
           | Some ex =>
               if Nat.leb (length ex) (current_q_index u) then
                 RJson 200 (JObj [("finished", JBool true); ("message", JStr "All questions answered.")])
               else match ex !! current_q_index u with
                    | None => RError 500
                    | Some q =>
                        RJson 200 (JObj (filter (fun kv => fst kv <> "answer") (question_items q)
                                         ++ [("q_number", JInt (Z.of_nat (current_q_index u) + 1))]))
                    end
           end
  end.

(** Lines 83-118: [submit_answer] with body [data] at clock [now]. *)
Definition submit_answer (sid : string) (data : Json) (now : Z) (st : AppState)
    : Response * AppState :=
  match USERS st !! sid with
  | None => (RJson 400 (err_json "Exam ended or user not found"), st)
  | Some u =>
      if submitted u then (RJson 400 (err_json "Exam ended or user not found"), st)
      else match EXAMS !! exam_id u with
      | None => (RError 500, st)
      | Some ex =>
          if Nat.leb (length ex) (current_q_index u) then
            (RJson 400 (err_json "No more questions"), st)
          else match ex !! current_q_index u with
          | None => (RError 500, st)
          | Some q =>
              match py_get data "selected_option" JNull with
              | inl code => (RError code, st)
              | inr sel =>
                  let correct := match sel with JStr s => String.eqb s (q_answer q) | _ => false end in
                  let sc := if correct then S (score u) else score u in
                  let idx := S (current_q_index u) in
                  let fin := Nat.leb (length ex) idx in
                  let u' := mkUser (name u) (exam_id u) idx (status u) (fin || submitted u) sc
                              (<[q_id q := sel]> (answers u)) in
                  let st' := set_user sid u' st in
                  if fin then
                    (RJson 200 (JObj [("success", JBool true); ("finished", JBool true)]),
                     central_log_handler sid "system" "INFO"
                       ("Exam submitted automatically. Score: " +:+ pretty sc +:+ "/" +:+ pretty (length ex))
                       now st')
                  else
                    (RJson 200 (JObj [("success", JBool true); ("finished", JBool false)]),
                     central_log_handler sid "system" "INFO"
                       ("Answer submitted for Q" +:+ pretty (S (current_q_index u))
                        +:+ ". Next question loaded.") now st')
              end
          end
      end
  end.

(** [submit_answer] as a request thread runs it: Flask serves each
    request in its own thread ([threaded=True], line 195), and the
    interpreter may switch threads between the reads of lines 85-99 and
    the writes of lines 101-117.  [submit_read] is the first part: the
    checks, and what the writes use later: the exam, the index read on
    line 92, the question and the selected option. *)
Definition submit_read (sid : string) (data : Json) (st : AppState)
    : Response + (list Question * nat * Question * Json) :=
  match USERS st !! sid with
  | None => inl (RJson 400 (err_json "Exam ended or user not found"))
  | Some u =>
      if submitted u then inl (RJson 400 (err_json "Exam ended or user not found"))
      else match EXAMS !! exam_id u with
      | None => inl (RError 500)
      | Some ex =>
          if Nat.leb (length ex) (current_q_index u) then inl (RJson 400 (err_json "No more questions"))
          else match ex !! current_q_index u with
          | None => inl (RError 500)
          | Some q =>
              match py_get data "selected_option" JNull with
              | inl code => inl (RError code)
              | inr sel => inr (ex, current_q_index u, q, sel)
              end
          end
      end
  end.

(** Lines 101-118: the writes, on the user dict as it is when they run.
    [user['score'] += 1] and [user['current_q_index'] += 1] read the
    dict again; the question, the index of the message and the exam are
    the ones read before.  The dict found on line 86 is the one stored
    under [sid] ([USERS] never replaces or removes a user), so the model
    looks it up again; the [None] case cannot occur. *)
Definition submit_write (sid : string) (ex : list Question) (qi : nat) (q : Question) (sel : Json)
    (now : Z) (st : AppState) : Response * AppState :=
  match USERS st !! sid with
  | None => (RError 500, st)
  | Some u =>
      let correct := match sel with JStr s => String.eqb s (q_answer q) | _ => false end in
      let sc := if correct then S (score u) else score u in
      let idx := S (current_q_index u) in
      let fin := Nat.leb (length ex) idx in
      let u' := mkUser (name u) (exam_id u) idx (status u) (fin || submitted u) sc
                  (<[q_id q := sel]> (answers u)) in
      let st' := set_user sid u' st in
      if fin then
        (RJson 200 (JObj [("success", JBool true); ("finished", JBool true)]),
         central_log_handler sid "system" "INFO"
           ("Exam submitted automatically. Score: " +:+ pretty sc +:+ "/" +:+ pretty (length ex))
           now st')
      else
        (RJson 200 (JObj [("success", JBool true); ("finished", JBool false)]),
         central_log_handler sid "system" "INFO"
           ("Answer submitted for Q" +:+ pretty (S qi) +:+ ". Next question loaded.") now st')
  end.

(** Lines 122-129: [admin_send_warning]. *)
Definition admin_send_warning (sid : string) (data : Json) (now : Z) (st : AppState)
    : Response * AppState :=
  match py_get data "message" (JStr "General warning sent by proctor.") with
  | inl code => (RError code, st)
  | inr m =>
      (RJson 200 (JObj [("success", JBool true);
                        ("message", JStr "Warning logged and sent (conceptually).")]),
       central_log_handler sid "admin" "WARNING" ("Proctor sent warning: " +:+ py_str m) now st)
  end.

(** Lines 132-141: [admin_end_session]. *)
Definition admin_end_session (sid : string) (now : Z) (st : AppState) : Response * AppState :=
  match USERS st !! sid with
  | Some u =>
      let u' := mkUser (name u) (exam_id u) (current_q_index u) "force_ended" true
                  (score u) (answers u) in
      (RJson 200 (JObj [("success", JBool true); ("message", JStr "Session force-ended.")]),
       central_log_handler sid "admin" "CRITICAL" "Proctor FORCEFULLY ENDED the session." now
         (set_user sid u' st))
  | None => (RJson 404 (JObj [("success", JBool false); ("message", JStr "User not found.")]), st)
  end.

(** Lines 164-170: [admin]. *)
Definition admin : Response :=
  RTemplate "admin.html" [("student_data", JObj [("student_id", JStr STUDENT_ID)])].

(** Lines 172-177: [get_latest_logs]. *)
Definition get_latest_logs (sid : string) (st : AppState) : Response :=
  match SESSION_LOGS st !! sid with
  | Some l => RJson 200 (session_json l)
  | None => RJson 404 (err_json "Student not found")
  end.

(** Lines 179-192: [log_browser_event].  [student_id in SESSION_LOGS]
    is false for a non-string key and raises for a list or dict;
    [event_type.upper()] raises when the event type is not a string. *)
Definition log_browser_event (data : Json) (now : Z) (st : AppState) : Response * AppState :=
  match py_get data "student_id" JNull, py_get data "event_type" JNull,
        py_get data "details" (JStr "") with
  | inr sidj, inr et, inr details =>
      let known :=
        match sidj with
        | JStr s => if SESSION_LOGS st !! s is Some _ then inr (Some s) else inr None
        | JArr _ | JObj _ => inl 500
        | _ => inr None
        end in
      match known with
      | inl code => (RError code, st)
      | inr None =>
          (RJson 400 (JObj [("status", JStr "error"); ("message", JStr "Invalid student ID")]), st)
      | inr (Some s) =>
          let level := match et with
                       | JStr e => if decide (e = "tab_switch" \/ e = "copy" \/ e = "paste")
                                   then "CRITICAL" else "WARNING"
                       | _ => "WARNING"
                       end in
          match et with
          | JStr e =>
              (RJson 200 (JObj [("status", JStr "logged")]),
               central_log_handler s "browser" level
                 ("Event: " +:+ py_upper e +:+ ". Details: " +:+ py_str details) now st)
          | _ => (RError 500, st)
          end
      end
  | inl code, _, _ | _, inl code, _ | _, _, inl code => (RError code, st)
  end.

(** A request to the Flask app, one constructor per route (lines 48,
    61, 82, 121, 131, 164, 172, 179). *)
Inductive Req :=
| GetIndex
| GetQuestion (sid : string)
| SubmitAnswer (sid : string) (data : Json)
| SendWarning (sid : string) (data : Json)
| EndSession (sid : string)
| GetAdmin
| GetLogs (sid : string)
| BrowserEvent (data : Json).

(** Flask's dispatch of a request at clock [now]. *)
Definition handle (r : Req) (now : Z) (st : AppState) : Response * AppState :=
  match r with
  | GetIndex => (index st, st)
  | GetQuestion sid => (get_question sid st, st)
  | SubmitAnswer sid data => submit_answer sid data now st
  | SendWarning sid data => admin_send_warning sid data now st
  | EndSession sid => admin_end_session sid now st
  | GetAdmin => (admin, st)
  | GetLogs sid => (get_latest_logs sid st, st)
  | BrowserEvent data => log_browser_event data now st
  end.

(** A user's progress agrees with its exam: the index is within the
    exam, the score at most the index, and reaching the end means the
    exam was submitted. *)
Definition user_wf (u : User) : Prop :=
  exists ex, EXAMS !! exam_id u = Some ex /\
    (current_q_index u <= length ex)%nat /\ (score u <= current_q_index u)%nat /\
    (current_q_index u = length ex -> submitted u = true).

Definition app_wf (st : AppState) : Prop := map_Forall (fun _ u => user_wf u) (USERS st).

(** Each log list of [l'] extends the one of [l]. *)
Definition log_ext (l l' : SessionLog) : Prop :=
  video_warnings l `prefix_of` video_warnings l' /\
  browser_events l `prefix_of` browser_events l' /\
  admin_actions l `prefix_of` admin_actions l'.

(** The logs only grow, and no student gains or loses a log. *)
Definition logs_grow (st st' : AppState) : Prop :=
  (forall sid, SESSION_LOGS st' !! sid = None <-> SESSION_LOGS st !! sid = None) /\
  (forall sid l, SESSION_LOGS st !! sid = Some l ->
     exists l', SESSION_LOGS st' !! sid = Some l' /\ log_ext l l').

(** Each student's [video_warnings] is unchanged and no log is lost. *)
Definition video_same (st st' : AppState) : Prop :=
  forall sid l, SESSION_LOGS st !! sid = Some l ->
    exists l', SESSION_LOGS st' !! sid = Some l' /\ video_warnings l' = video_warnings l.

(** The exam page posting the answers [as_] one after another, each as
    the body [{"selected_option": a}] of a [submit_answer] request
    (lines 83-118) at clock [now]. *)
Definition submit_all (sid : string) (as_ : list string) (now : Z) (st : AppState) : AppState :=
  fold_left (fun st a => snd (submit_answer sid (JObj [("selected_option", JStr a)]) now st)) as_ st.

(** The grading contract: the number of answers equal to the key of the
    question they answer, the questions taken in order. *)
Fixpoint count_correct (qs : list Question) (as_ : list string) : nat :=
  match qs, as_ with
  | q :: qs', a :: as' => (if String.eqb a (q_answer q) then 1 else 0) + count_correct qs' as'
  | _, _ => 0
  end.

(** What the threaded server keeps of [user_wf]: the user has its exam,
    the score is at most the index, and a user at or past the end of the
    exam is submitted.  Two submissions of the last question in flight
    at once push the index past the end ([double_submit_overscore]). *)
Definition user_progress (u : User) : Prop :=
  exists ex, EXAMS !! exam_id u = Some ex /\ (score u <= current_q_index u)%nat /\
    ((length ex <= current_q_index u)%nat -> submitted u = true).

Definition app_progress (st : AppState) : Prop :=
  map_Forall (fun _ u => user_progress u) (USERS st).

(** [sid]'s exam is [ex]. *)
Definition exam_of (st : AppState) (sid : string) (ex : list Question) : Prop :=
  exists u, USERS st !! sid = Some u /\ EXAMS !! exam_id u = Some ex.

(** No user disappears and none changes exam. *)
Definition users_keep (st st' : AppState) : Prop :=
  forall sid u, USERS st !! sid = Some u ->
    exists u', USERS st' !! sid = Some u' /\ exam_id u' = exam_id u.

(** ** Lemmas *)

Lemma central_users sid typ lvl msg now st :
  USERS (central_log_handler sid typ lvl msg now st) = USERS st.
Proof. unfold central_log_handler. repeat case_match; reflexivity. Qed.

(** Types other than video, browser and admin are dropped. *)
Lemma central_other sid typ lvl msg now st :
  typ <> "video" -> typ <> "browser" -> typ <> "admin" ->
  central_log_handler sid typ lvl msg now st = st.
Proof.
  intros H1 H2 H3. unfold central_log_handler.
  destruct (SESSION_LOGS st !! sid); [|reflexivity].
  destruct (String.eqb_spec typ "video"), (String.eqb_spec typ "browser"),
    (String.eqb_spec typ "admin"); congruence.
Qed.

Lemma log_ext_refl l : log_ext l l.
Proof. repeat split; reflexivity. Qed.

Lemma logs_grow_refl st : logs_grow st st.
Proof. split; [tauto|]. intros sid l H. exists l. split; [exact H | apply log_ext_refl]. Qed.

Lemma logs_grow_trans a b c : logs_grow a b -> logs_grow b c -> logs_grow a c.
Proof.
  intros [D1 G1] [D2 G2]. split; [intros sid; rewrite D2, D1; tauto|].
  intros sid l H. destruct (G1 _ _ H) as (l1 & H1 & (V1 & B1 & A1)).
  destruct (G2 _ _ H1) as (l2 & H2 & (V2 & B2 & A2)). exists l2.
  split; [exact H2|]. repeat split; etrans; eauto.
Qed.

Lemma central_logs_grow sid typ lvl msg now st :
  logs_grow st (central_log_handler sid typ lvl msg now st).
Proof.
  unfold central_log_handler.
  destruct (SESSION_LOGS st !! sid) as [l|] eqn:E; [|apply logs_grow_refl].
  set (e := mkEntry _ _ _ _).
  assert (Hx : forall f, (f = add_video e \/ f = add_browser e \/ f = add_admin e) ->
            logs_grow st (mkApp (USERS st) (<[sid:=f l]> (SESSION_LOGS st)))).
  { intros f Hf. split; cbn.
    - intros j. rewrite lookup_insert_None.
      destruct (decide (sid = j)) as [<-|]; [rewrite E; split; [intros [_ []]; reflexivity | discriminate]|].
      tauto.
    - intros j l0 Hj. destruct (decide (sid = j)) as [<-|Hne].
      + rewrite lookup_insert_eq. rewrite E in Hj. injection Hj as <-. eexists. split; [reflexivity|].
        destruct Hf as [-> | [-> | ->]]; cbn; repeat split;
          first [reflexivity | by eexists].
      + rewrite lookup_insert_ne by exact Hne. exists l0. split; [exact Hj | apply log_ext_refl]. }
  repeat case_match; simplify_eq; try apply logs_grow_refl; apply Hx; auto.
Qed.

Lemma set_user_logs sid u st : SESSION_LOGS (set_user sid u st) = SESSION_LOGS st.
Proof. reflexivity. Qed.

Lemma logs_grow_same_logs st st' :
  SESSION_LOGS st' = SESSION_LOGS st -> logs_grow st st'.
Proof.
  intros E. split; [intros sid; rewrite E; tauto|].
  intros sid l H. exists l. rewrite E. split; [exact H | apply log_ext_refl].
Qed.

Lemma app_wf_set st sid u : app_wf st -> user_wf u -> app_wf (set_user sid u st).
Proof. intros H Hu. unfold app_wf, set_user; cbn. by apply map_Forall_insert_2. Qed.

Lemma app_wf_central sid typ lvl msg now st :
  app_wf st -> app_wf (central_log_handler sid typ lvl msg now st).
Proof. unfold app_wf. by rewrite central_users. Qed.

(** The user record [submit_answer] writes back. *)
Lemma submit_answer_user_wf u ex q sel :
  user_wf u -> EXAMS !! exam_id u = Some ex -> (current_q_index u < length ex)%nat ->
  user_wf (mkUser (name u) (exam_id u) (S (current_q_index u)) (status u)
             (Nat.leb (length ex) (S (current_q_index u)) || submitted u)
             (if match sel with JStr s => String.eqb s (q_answer q) | _ => false end
              then S (score u) else score u)
             (<[q_id q := sel]> (answers u))).
Proof.
  intros (ex' & He' & Hle & Hsc & _) He Hlt. rewrite He in He'. injection He' as <-.
  exists ex. cbn. split; [exact He|]. split; [lia|]. split.
  - destruct (match sel with JStr s => _ | _ => false end); lia.
  - intros Heq. rewrite <- Heq, Nat.leb_refl. reflexivity.
Qed.

(** A user update followed by a log call only extends the logs. *)
Lemma central_after_set sid u sid' typ lvl msg now st :
  logs_grow st (central_log_handler sid' typ lvl msg now (set_user sid u st)).
Proof.
  apply (logs_grow_trans _ (set_user sid u st)); [|apply central_logs_grow].
  by apply logs_grow_same_logs.
Qed.

Lemma video_same_refl st : video_same st st.
Proof. intros sid l H. by exists l. Qed.

Lemma video_same_trans a b c : video_same a b -> video_same b c -> video_same a c.
Proof.
  intros H1 H2 sid l H. destruct (H1 _ _ H) as (l1 & E1 & V1).
  destruct (H2 _ _ E1) as (l2 & E2 & V2). exists l2. split; [exact E2 | congruence].
Qed.

(** A log call of another type than ['video'] leaves the video logs. *)
Lemma central_video_same sid typ lvl msg now st :
  typ <> "video" -> video_same st (central_log_handler sid typ lvl msg now st).
Proof.
  intros Ht j l Hj. unfold central_log_handler.
  destruct (SESSION_LOGS st !! sid) as [l0|] eqn:E; [|by exists l].
  destruct (String.eqb_spec typ "video"); [congruence|].
  destruct (String.eqb_spec typ "browser"), (String.eqb_spec typ "admin"); cbn;
    try (by exists l);
    (destruct (decide (sid = j)) as [<-|Hne];
     [rewrite lookup_insert_eq; rewrite E in Hj; injection Hj as <-; by eexists
     | rewrite lookup_insert_ne by exact Hne; by exists l]).
Qed.

Lemma central_after_set_video sid u sid' typ lvl msg now st :
  typ <> "video" -> video_same st (central_log_handler sid' typ lvl msg now (set_user sid u st)).
Proof.
  intros Ht. apply (video_same_trans _ (set_user sid u st)); [|by apply central_video_same].
  intros j l H. by exists l.
Qed.

#[export] Hint Resolve logs_grow_refl log_ext_refl central_logs_grow central_after_set
  app_wf_set app_wf_central video_same_refl central_video_same central_after_set_video : cam.
#[export] Hint Extern 1 (_ <> _) => discriminate : cam.

(** The routes keep the users consistent (the proof of C10). *)
Lemma handle_wf r now st : app_wf st -> app_wf (snd (handle r now st)).
Proof.
  intros Hwf. destruct r as [|sid|sid data|sid data|sid| |sid|data]; cbn; try exact Hwf.
  - unfold submit_answer.
    destruct (USERS st !! sid) as [u|] eqn:Hu; [|exact Hwf].
    destruct (submitted u) eqn:Hs; [exact Hwf|].
    destruct (EXAMS !! exam_id u) as [ex|] eqn:He; [|exact Hwf].
    destruct (Nat.leb_spec (length ex) (current_q_index u)); [exact Hwf|].
    destruct (ex !! current_q_index u) as [q|]; [|exact Hwf].
    destruct (py_get data "selected_option" JNull) as [c|sel]; [exact Hwf|].
    pose proof (submit_answer_user_wf u ex q sel (Hwf _ _ Hu) He ltac:(lia)) as Hw'.
    rewrite Hs in Hw'. revert Hw'. cbv zeta. destruct (Nat.leb (length ex) _); intros Hw';
      cbn [snd]; apply app_wf_central, app_wf_set; assumption.
  - unfold admin_send_warning. destruct (py_get _ _ _); [exact Hwf|]. by apply app_wf_central.
  - unfold admin_end_session. destruct (USERS st !! sid) as [u|] eqn:Hu; [|exact Hwf].
    apply app_wf_central, app_wf_set; [exact Hwf|].
    destruct (Hwf _ _ Hu) as (ex & He & Hle & Hsc & _). exists ex. cbn. auto.
  - unfold log_browser_event. repeat case_match; try exact Hwf; by apply app_wf_central.
Qed.

(** The routes only append to the logs (the proof of C12). *)
Lemma handle_logs r now st : logs_grow st (snd (handle r now st)).
Proof.
  destruct r; cbn; unfold submit_answer, admin_send_warning, admin_end_session, log_browser_event;
    cbv zeta; repeat case_match; simplify_eq; cbn [snd]; auto with cam.
Qed.

(** No route writes a video log. *)
Lemma handle_video r now st : video_same st (snd (handle r now st)).
Proof.
  destruct r; cbn; unfold submit_answer, admin_send_warning, admin_end_session, log_browser_event;
    cbv zeta; repeat case_match; simplify_eq; cbn [snd]; auto with cam.
Qed.

Lemma submit_write_logs sid ex qi q sel now st :
  logs_grow st (snd (submit_write sid ex qi q sel now st)).
Proof. unfold submit_write. cbv zeta. repeat case_match; cbn [snd]; auto with cam. Qed.

Lemma submit_write_video sid ex qi q sel now st :
  video_same st (snd (submit_write sid ex qi q sel now st)).
Proof. unfold submit_write. cbv zeta. repeat case_match; cbn [snd]; auto with cam. Qed.

(** One answer on a pending question (the proof of C13, shared with
    C36). *)
Lemma submit_answer_step sid u ex q a now st :
  USERS st !! sid = Some u -> submitted u = false -> EXAMS !! exam_id u = Some ex ->
  ex !! current_q_index u = Some q ->
  let st' := snd (submit_answer sid (JObj [("selected_option", JStr a)]) now st) in
  USERS st' !! sid =
    Some (mkUser (name u) (exam_id u) (S (current_q_index u)) (status u)
            (Nat.leb (length ex) (S (current_q_index u)))
            (if String.eqb a (q_answer q) then S (score u) else score u)
            (<[q_id q := JStr a]> (answers u))) /\
  SESSION_LOGS st' = SESSION_LOGS st.
Proof.
  intros Hu Hs He Hq. unfold submit_answer. rewrite Hu, Hs, He.
  pose proof (lookup_lt_Some _ _ _ Hq) as Hlt.
  destruct (Nat.leb_spec (length ex) (current_q_index u)); [lia|]. rewrite Hq.
  cbn -[central_log_handler]. case_decide as Hd; [|congruence]. cbn -[central_log_handler].
  destruct (Nat.leb (length ex) _); cbn [snd];
    rewrite central_other by discriminate; cbn; rewrite lookup_insert_eq, ?orb_false_r;
    split; reflexivity.
Qed.

(** The atomic handler is its two halves run back to back: what
    [submit_read] answers when a check fails, otherwise [submit_write] on
    the same state with what [submit_read] read. *)
Lemma submit_answer_phases sid data now st :
  submit_answer sid data now st =
  match submit_read sid data st with
  | inl r => (r, st)
  | inr (ex, qi, q, sel) => submit_write sid ex qi q sel now st
  end.
Proof.
  unfold submit_answer, submit_read, submit_write.
  destruct (USERS st !! sid) as [u|] eqn:Hu; [|reflexivity].
  repeat (case_match; try reflexivity).
Qed.

(** ** Progress under interleaving *)

Lemma users_keep_refl st : users_keep st st.
Proof. intros sid u Hu. eauto. Qed.

Lemma users_keep_trans a b c : users_keep a b -> users_keep b c -> users_keep a c.
Proof.
  intros H1 H2 sid u Hu. destruct (H1 _ _ Hu) as (u1 & Hu1 & E1).
  destruct (H2 _ _ Hu1) as (u2 & Hu2 & E2). exists u2. split; [exact Hu2 | congruence].
Qed.

Lemma users_keep_central sid typ lvl msg now st :
  users_keep st (central_log_handler sid typ lvl msg now st).
Proof. unfold users_keep. rewrite central_users. apply users_keep_refl. Qed.

Lemma users_keep_set st sid u u' :
  USERS st !! sid = Some u -> exam_id u' = exam_id u -> users_keep st (set_user sid u' st).
Proof.
  intros Hu He sid' v Hv. unfold set_user; cbn. destruct (decide (sid' = sid)) as [->|Hne].
  - rewrite lookup_insert_eq. rewrite Hu in Hv. injection Hv as <-. eauto.
  - rewrite lookup_insert_ne by congruence. eauto.
Qed.

Lemma exam_of_keep st st' sid ex : users_keep st st' -> exam_of st sid ex -> exam_of st' sid ex.
Proof.
  intros Hk (u & Hu & He). destruct (Hk _ _ Hu) as (u' & Hu' & E).
  exists u'. rewrite E. auto.
Qed.

Lemma app_progress_set st sid u : app_progress st -> user_progress u -> app_progress (set_user sid u st).
Proof. intros H Hu. unfold app_progress, set_user; cbn. by apply map_Forall_insert_2. Qed.

Lemma app_progress_central sid typ lvl msg now st :
  app_progress st -> app_progress (central_log_handler sid typ lvl msg now st).
Proof. unfold app_progress. by rewrite central_users. Qed.

Lemma app_wf_progress st : app_wf st -> app_progress st.
Proof.
  intros H. apply (map_Forall_impl _ _ _ H). intros sid u (ex & He & Hle & Hsc & Hend).
  exists ex. split_and!; [exact He | exact Hsc |]. intros Hge. apply Hend. lia.
Qed.

#[export] Hint Resolve users_keep_refl users_keep_central app_progress_central app_progress_set : cam.

(** The reads hand on the user's exam. *)
Lemma submit_read_exam sid data st ex qi q sel :
  submit_read sid data st = inr (ex, qi, q, sel) -> exam_of st sid ex.
Proof.
  unfold submit_read. destruct (USERS st !! sid) as [u|] eqn:Hu; [|discriminate].
  repeat case_match; intros; simplify_eq; by exists u.
Qed.

(** With the progress invariant, the check of line 94 never fails. *)
Lemma submit_read_progress sid data st :
  app_progress st -> submit_read sid data st <> inl (RJson 400 (err_json "No more questions")).
Proof.
  intros Hp. unfold submit_read. destruct (USERS st !! sid) as [u|] eqn:Hu; [|discriminate].
  destruct (submitted u) eqn:Hs; [discriminate|].
  destruct (Hp _ _ Hu) as (ex & He & _ & Hend). rewrite He.
  destruct (Nat.leb_spec (length ex) (current_q_index u)) as [Hle|_].
  - rewrite (Hend Hle) in Hs. discriminate.
  - repeat case_match; discriminate.
Qed.

Lemma submit_write_answer sid ex qi q sel now st :
  fst (submit_write sid ex qi q sel now st) <> RJson 400 (err_json "No more questions").
Proof. unfold submit_write. cbv zeta. repeat case_match; discriminate. Qed.

Lemma submit_write_keep sid ex qi q sel now st :
  users_keep st (snd (submit_write sid ex qi q sel now st)).
Proof.
  unfold submit_write. destruct (USERS st !! sid) as [u|] eqn:Hu; [|apply users_keep_refl].
  cbv zeta. destruct (Nat.leb _ _); cbn [snd];
    (eapply users_keep_trans; [| apply users_keep_central]; eapply users_keep_set; [exact Hu | reflexivity]).
Qed.

(** The writes keep the invariant, whatever ran since the reads, as
    long as [ex] is the user's exam: the index they store is one more
    than the one they find, and they submit once it reaches the end. *)
Lemma submit_write_progress sid ex qi q sel now st :
  exam_of st sid ex -> app_progress st -> app_progress (snd (submit_write sid ex qi q sel now st)).
Proof.
  intros (u0 & Hu0 & He) Hp. unfold submit_write. rewrite Hu0. cbv zeta.
  destruct (Hp _ _ Hu0) as (ex' & _ & Hsc & _).
  assert (Hw : forall fin, Nat.leb (length ex) (S (current_q_index u0)) = fin ->
    user_progress (mkUser (name u0) (exam_id u0) (S (current_q_index u0)) (status u0)
      (fin || submitted u0)
      (if match sel with JStr s => String.eqb s (q_answer q) | _ => false end
       then S (score u0) else score u0) (<[q_id q := sel]> (answers u0)))).
  { intros fin Hfin. exists ex. cbn. split_and!; [exact He | by case_match; lia |].
    intros Hle. apply Nat.leb_le in Hle. rewrite Hfin in Hle. by rewrite Hle. }
  destruct (Nat.leb _ _) eqn:Hfin; cbn [snd]; auto using app_progress_central, app_progress_set.
Qed.

(** Every route keeps the users and their exams, and the invariant. *)
Lemma handle_keep r now st : users_keep st (snd (handle r now st)).
Proof.
  destruct r as [|sid|sid data|sid data|sid| |sid|data]; cbn; try apply users_keep_refl.
  - rewrite submit_answer_phases. destruct (submit_read _ _ _) as [|[[[ex qi] q] sel]];
      [apply users_keep_refl | apply submit_write_keep].
  - unfold admin_send_warning. repeat case_match; cbn [snd]; auto with cam.
  - unfold admin_end_session. destruct (USERS st !! sid) as [u|] eqn:Hu; [|apply users_keep_refl].
    eapply users_keep_trans; [| apply users_keep_central]; eapply users_keep_set; [exact Hu | reflexivity].
  - unfold log_browser_event. repeat case_match; cbn [snd]; auto with cam.
Qed.

Lemma handle_progress r now st : app_progress st -> app_progress (snd (handle r now st)).
Proof.
  intros Hp. destruct r as [|sid|sid data|sid data|sid| |sid|data]; cbn; try exact Hp.
  - rewrite submit_answer_phases. destruct (submit_read _ _ _) as [|[[[ex qi] q] sel]] eqn:E;
      [exact Hp|]. exact (submit_write_progress _ _ _ _ _ _ _ (submit_read_exam _ _ _ _ _ _ _ E) Hp).
  - unfold admin_send_warning. repeat case_match; cbn [snd]; auto with cam.
  - unfold admin_end_session. destruct (USERS st !! sid) as [u|] eqn:Hu; [|exact Hp].
    apply app_progress_central, app_progress_set; [exact Hp|].
    destruct (Hp _ _ Hu) as (ex & He & Hsc & _). exists ex. cbn. auto.
  - unfold log_browser_event. repeat case_match; cbn [snd]; auto with cam.
Qed.

(** Only line 95 answers ['No more questions']. *)
Lemma handle_answer r now st :
  app_progress st -> fst (handle r now st) <> RJson 400 (err_json "No more questions").
Proof.
  intros Hp. destruct r as [|sid|sid data|sid data|sid| |sid|data]; cbn.
  - unfold index. repeat case_match; discriminate.
  - unfold get_question. repeat case_match; discriminate.
  - rewrite submit_answer_phases. destruct (submit_read _ _ _) as [r|[[[ex qi] q] sel]] eqn:E.
    + cbn. intros ->. exact (submit_read_progress _ _ _ Hp E).
    + apply submit_write_answer.
  - unfold admin_send_warning. repeat case_match; discriminate.
  - unfold admin_end_session. repeat case_match; discriminate.
  - discriminate.
  - unfold get_latest_logs. repeat case_match; discriminate.
  - unfold log_browser_event. repeat case_match; discriminate.
Qed.

(** ** Theorems *)

(** C11: [get_question] never sends the answer key: every JSON object it
    answers with lacks the key ['answer']. *)
Theorem get_question_hides_answer sid st code kvs :
  get_question sid st = RJson code (JObj kvs) -> Forall (fun kv => fst kv <> "answer") kvs.
Proof.
  unfold get_question, err_json.
  repeat case_match; intros [= <- <-]; repeat constructor; cbn; try discriminate.
Qed.

(** C10: every route keeps every user's progress consistent with its exam:
    the question index stays within the exam, the score at most the
    index, and a user at the end of the exam is submitted. *)
Theorem handle_preserves_wf r now st : app_wf st -> app_wf (snd (handle r now st)).
Proof. apply handle_wf. Qed.

(** The import-time state is consistent. *)
Lemma app_init_wf : app_wf app_init.
Proof.
  unfold app_wf, app_init. apply map_Forall_singleton.
  exists (default [] (EXAMS !! "exam_001")). split; [reflexivity|].
  vm_compute. split; [lia | split; [lia | intros H; discriminate]].
Qed.

(** C12: the logs are append-only: every route leaves each student's three
    log lists as extensions of the old ones and no student gains or
    loses a log. *)
Theorem handle_logs_grow r now st : logs_grow st (snd (handle r now st)).
Proof. apply handle_logs. Qed.

(** C13: [submit_answer] on a pending question: the answer is recorded
    under the question id, the index advances by one, the score grows by
    one exactly when the answer is the key, and the exam is submitted
    when that was the last question.  The INFO entries of lines 110 and
    113 have type ['system'], which [central_log_handler] stores nowhere:
    the session logs are unchanged. *)
Theorem submit_answer_records sid u ex q a now st :
  USERS st !! sid = Some u -> submitted u = false -> EXAMS !! exam_id u = Some ex ->
  ex !! current_q_index u = Some q ->
  let st' := snd (submit_answer sid (JObj [("selected_option", JStr a)]) now st) in
  USERS st' !! sid =
    Some (mkUser (name u) (exam_id u) (S (current_q_index u)) (status u)
            (Nat.leb (length ex) (S (current_q_index u)))
            (if String.eqb a (q_answer q) then S (score u) else score u)
            (<[q_id q := JStr a]> (answers u))) /\
  SESSION_LOGS st' = SESSION_LOGS st.
Proof. apply submit_answer_step. Qed.

(** C21: a session the proctor ended is closed: afterwards [get_question]
    answers 404 and [submit_answer] 400, and the user record is left
    alone by both. *)
Theorem end_session_blocks sid u now st data now' :
  USERS st !! sid = Some u ->
  let st' := snd (admin_end_session sid now st) in
  get_question sid st' = RJson 404 (err_json "Exam ended or user not found") /\
  submit_answer sid data now' st' = (RJson 400 (err_json "Exam ended or user not found"), st').
Proof.
  intros Hu. unfold admin_end_session. rewrite Hu. cbn [snd].
  unfold get_question, submit_answer. rewrite central_users. cbn. rewrite lookup_insert_eq.
  split; reflexivity.
Qed.

(** C22: a browser event for a known student is appended to its
    [browser_events] with level CRITICAL for a tab switch, copy or paste
    and WARNING otherwise, and the message names the upper-cased type. *)
Theorem browser_event_logged s l et details now st :
  SESSION_LOGS st !! s = Some l ->
  let data := JObj [("student_id", JStr s); ("event_type", JStr et); ("details", JStr details)] in
  let level := if decide (et = "tab_switch" \/ et = "copy" \/ et = "paste")
               then "CRITICAL" else "WARNING" in
  log_browser_event data now st =
  (RJson 200 (JObj [("status", JStr "logged")]),
   mkApp (USERS st) (<[s := add_browser (mkEntry (strftime_hms now) "browser" level
                              ("Event: " +:+ py_upper et +:+ ". Details: " +:+ details)) l]>
                      (SESSION_LOGS st))).
Proof.
  intros Hl. unfold log_browser_event, central_log_handler. cbn.
  repeat (case_decide; try congruence). all: cbn; rewrite Hl; cbn; rewrite Hl; reflexivity.
Qed.

(** C23: error path: an event whose type is not a string, for a known
    student, makes [event_type.upper()] raise: the answer is 500 and
    nothing is logged. *)
Theorem browser_event_bad_type s l et details now st :
  SESSION_LOGS st !! s = Some l ->
  (forall e, et <> JStr e) ->
  log_browser_event (JObj [("student_id", JStr s); ("event_type", et); ("details", details)]) now st
  = (RError 500, st).
Proof.
  intros Hl Het. unfold log_browser_event. cbn. repeat (case_decide; try congruence).
  cbn. rewrite Hl.
  destruct et; try reflexivity. by destruct (Het s0).
Qed.

(** C24: a warning for a student without a session log is acknowledged as
    sent (200) although [central_log_handler] stores it nowhere. *)
Theorem warning_unknown_student_dropped sid msg now st :
  SESSION_LOGS st !! sid = None ->
  admin_send_warning sid (JObj [("message", JStr msg)]) now st =
  (RJson 200 (JObj [("success", JBool true);
                    ("message", JStr "Warning logged and sent (conceptually).")]), st).
Proof.
  intros H. unfold admin_send_warning, central_log_handler. cbn.
  case_decide; [|congruence]. cbn. by rewrite H.
Qed.

(** C31: round trip through the dashboard.  A warning the proctor sends
    to a student with a session log is what [get_latest_logs] then shows:
    the student's [admin_actions] with the new entry at the end. *)
Theorem warning_visible sid l m now st :
  SESSION_LOGS st !! sid = Some l ->
  get_latest_logs sid (snd (admin_send_warning sid (JObj [("message", JStr m)]) now st)) =
  RJson 200 (session_json (add_admin (mkEntry (strftime_hms now) "admin" "WARNING"
                                        ("Proctor sent warning: " +:+ m)) l)).
Proof.
  intros Hl. unfold admin_send_warning, get_latest_logs, central_log_handler. cbn.
  case_decide; [|congruence]. cbn. rewrite Hl. cbn. by rewrite lookup_insert_eq.
Qed.

(** C32: round trip through the exam.  After a correct or wrong answer
    to question [k] that is not the last, [get_question] serves question
    [k+1] without its key, numbered [k+2]. *)
Theorem submit_then_next sid u ex q q' a now st :
  USERS st !! sid = Some u -> submitted u = false -> EXAMS !! exam_id u = Some ex ->
  ex !! current_q_index u = Some q -> ex !! S (current_q_index u) = Some q' ->
  get_question sid (snd (submit_answer sid (JObj [("selected_option", JStr a)]) now st)) =
  RJson 200 (JObj (filter (fun kv => fst kv <> "answer") (question_items q')
                   ++ [("q_number", JInt (Z.of_nat (S (current_q_index u)) + 1))])).
Proof.
  intros Hu Hs He Hq Hq'. unfold submit_answer. rewrite Hu, Hs, He.
  pose proof (lookup_lt_Some _ _ _ Hq') as Hlt.
  destruct (Nat.leb_spec (length ex) (current_q_index u)); [lia|]. rewrite Hq.
  cbn -[central_log_handler]. case_decide; [|congruence]. cbn -[central_log_handler].
  destruct (Nat.leb_spec (length ex) (S (current_q_index u))); [lia|]. cbn [snd orb].
  rewrite central_other by discriminate. unfold get_question. cbn. rewrite lookup_insert_eq.
  cbn. rewrite He. destruct (Nat.leb_spec (length ex) (S (current_q_index u))); [lia|].
  by rewrite Hq'.
Qed.

(** C36: the exam grades by counting.  A student who has not submitted
    and answers all the remaining questions of the exam one after another
    ends with the exam submitted, the index at the end of the exam, and
    the score grown by exactly the number of answers equal to their
    question's key; name, exam and status are unchanged, the session logs
    are untouched, and any later [submit_answer] is refused with 400. *)
Theorem exam_score_counts sid u ex as_ now st :
  USERS st !! sid = Some u -> submitted u = false -> EXAMS !! exam_id u = Some ex ->
  as_ <> [] -> (current_q_index u + length as_ = length ex)%nat ->
  let st' := submit_all sid as_ now st in
  exists u', USERS st' !! sid = Some u' /\
    name u' = name u /\ exam_id u' = exam_id u /\ status u' = status u /\
    current_q_index u' = length ex /\ submitted u' = true /\
    score u' = (score u + count_correct (drop (current_q_index u) ex) as_)%nat /\
    SESSION_LOGS st' = SESSION_LOGS st /\
    (forall data now', submit_answer sid data now' st' =
                       (RJson 400 (err_json "Exam ended or user not found"), st')).
Proof.
  cbv zeta. unfold submit_all. revert u st.
  induction as_ as [|a as' IH]; intros u st Hu Hs He Hne Hlen; [congruence|].
  cbn [length fold_left] in *.
  destruct (lookup_lt_is_Some_2 ex (current_q_index u)) as [q Hq]; [lia|].
  destruct (submit_answer_step sid u ex q a now st Hu Hs He Hq) as [Hu1 Hl1].
  rewrite (drop_S _ _ _ Hq). cbn [count_correct].
  set (st1 := snd (submit_answer _ _ now st)) in *. clearbody st1.
  destruct as' as [|a' as'']; cbn [length] in Hlen.
  - cbn [fold_left]. eexists; split_and!; [exact Hu1|reflexivity|reflexivity|reflexivity|cbn; lia
      |cbn; apply Nat.leb_le; lia|cbn; destruct (drop _ ex), (String.eqb a (q_answer q)); cbn; lia|exact Hl1|].
    + intros data now'. unfold submit_answer. rewrite Hu1. cbn.
      replace (Nat.leb (length ex) _) with true by (symmetry; apply Nat.leb_le; lia). reflexivity.
  - edestruct (IH _ st1 Hu1) as (u' & Hu' & Hn & Hx & Hst & Hi & Hsub & Hsc & Hl & Hrej);
      cbn; [apply Nat.leb_gt; cbn in Hlen; lia|exact He|discriminate|cbn in *; lia|].
    cbn [fold_left name exam_id status score current_q_index] in *.
    exists u'. split_and!; try assumption; try congruence.
    rewrite Hsc. destruct (String.eqb a (q_answer q)); lia.
Qed.

End Routes.
