(* ===== verification/Integration.v ===== *)
(** * Integration: from the camera loop to the proctor's video log

    The background thread of [src/camera.py] classifies every third
    frame (lines 89-108), debounces the classification (110-114) and
    calls the callback [video_feed] registered, [central_log_handler] of
    [src/app.py] (26-45), which appends a ['video'] entry to the
    student's [SESSION_LOGS].  This file composes the four parts on the
    application's state: [feed] runs the body of lines 86-121 over a
    sequence of successfully read frames, each at the clock it was read,
    and the theorem [video_log_emissions] says what the proctor's
    dashboard ([get_latest_logs]) then shows: the entries of exactly the
    debouncer's emissions on the sampled frames, in order. *)

From S2P Require Import Prelude Detector Debouncer Camera AppState.
From stdpp Require Import gmap.
Local Open Scope Z_scope.

Module Integration.
Import Detector Debouncer Cam AppState.

(** A successfully read frame: the number of faces the cascade reports,
    the clock when it was read, the encoded bytes. *)
Definition Frame := (nat * Z * bytes)%type.

(** Lines 86-121 on one frame, at the clock it was read. *)
Definition feed_frame (s : @Shared unit AppState) (f : Frame) : @Shared unit AppState :=
  let '(n, t, j) := f in process_frame n true j (mkShared t (cam s) (frame_count s) (world s)).

(** Successive iterations of the loop on the frames [fs]. *)
Definition feed (s : @Shared unit AppState) (fs : list Frame) : @Shared unit AppState :=
  fold_left feed_frame fs s.

(** The samples the detector classifies when the frame counter starts at
    [fc]: the frames whose counter is a multiple of three. *)
Fixpoint sampled_samples (fc : nat) (fs : list Frame) : list (nat * Z) :=
  match fs with
  | [] => []
  | (n, t, _) :: fs' => (if sampled fc then [(n, t)] else []) ++ sampled_samples (S fc) fs'
  end.

(** The sample the detector sees of a frame. *)
Definition sample_of (f : Frame) : nat * Z := let '(n, t, _) := f in (n, t).

(** The entry [central_log_handler] stores for an emission (line 28-34). *)
Definition video_entry (e : Emission) : LogEntry :=
  mkEntry (strftime_hms (em_time e)) "video" (em_level e) (em_message e).

(** The camera is registered for [sid], which has a session log. *)
Definition registered (sid : string) (s : @Shared unit AppState) : Prop :=
  log_callback (cam s) = Some tt /\ student_id (cam s) = Some sid /\ sid <> "".

(** ** Lemmas *)

Lemma central_video sid lvl msg now st l :
  SESSION_LOGS st !! sid = Some l ->
  central_log_handler sid "video" lvl msg now st =
  mkApp (USERS st) (<[sid := add_video (mkEntry (strftime_hms now) "video" lvl msg) l]>
                     (SESSION_LOGS st)).
Proof. intros Hl. unfold central_log_handler. rewrite Hl. reflexivity. Qed.

Lemma process_frame_registered sid n ok j s :
  registered sid s -> registered sid (process_frame n ok j s).
Proof.
  unfold registered, process_frame, detect_step.
  repeat case_match; simplify_eq; cbn; tauto.
Qed.

(** One frame: the debouncer runs on the frame's sample when the frame
    is sampled, the world receives the entries of its emissions. *)
Lemma feed_frame_spec sid s n t j l :
  registered sid s -> SESSION_LOGS (world s) !! sid = Some l ->
  let ss := if sampled (frame_count s) then [(n, t)] else [] in
  dstate (cam (feed_frame s (n, t, j))) = snd (debounce_run (dstate (cam s)) ss) /\
  frame_count (feed_frame s (n, t, j)) = S (frame_count s) /\
  world (feed_frame s (n, t, j)) =
    mkApp (USERS (world s))
      (match emissions (dstate (cam s)) ss with
       | [] => SESSION_LOGS (world s)
       | es => <[sid := mkLog (video_warnings l ++ map video_entry es)
                              (browser_events l) (admin_actions l)]> (SESSION_LOGS (world s))
       end).
Proof.
  intros (Hcb & Hsid & Hne) Hl ss. subst ss. cbn [feed_frame].
  unfold process_frame; cbn [frame_count cam world clock].
  destruct (sampled (frame_count s)); [|destruct (world s); split_and!; reflexivity].
  unfold detect_step. rewrite emissions_cons. cbn -[debounce].
  destruct (debounce (classify n) (dstate (cam s)) t) as [[e|] d] eqn:E; cbn.
  - split_and!; [destruct d; reflexivity | reflexivity |].
    unfold log_event. rewrite Hcb, Hsid. cbn. unfold truthy, truthy_string.
    destruct (String.eqb_spec sid ""); [congruence|]. cbn.
    rewrite (central_video _ _ _ _ _ l Hl).
    assert (Ee : fst (debounce (classify n) (dstate (cam s)) t) = Some e) by (rewrite E; reflexivity).
    apply debounce_emits in Ee as [_ ->]. reflexivity.
  - split_and!; [|reflexivity|destruct (world s); reflexivity].
    pose proof (debounce_silent (classify n) (dstate (cam s)) t) as S. rewrite E in S.
    cbn in S. rewrite S by reflexivity. reflexivity.
Qed.

Lemma feed_frame_logs sid s n t j l :
  registered sid s -> SESSION_LOGS (world s) !! sid = Some l ->
  let ss := if sampled (frame_count s) then [(n, t)] else [] in
  SESSION_LOGS (world (feed_frame s (n, t, j))) !! sid =
    Some (mkLog (video_warnings l ++ map video_entry (emissions (dstate (cam s)) ss))
                (browser_events l) (admin_actions l)) /\
  USERS (world (feed_frame s (n, t, j))) = USERS (world s).
Proof.
  intros Hr Hl. cbv zeta. destruct (feed_frame_spec sid s n t j l Hr Hl) as (_ & _ & ->).
  cbn. split; [|reflexivity].
  destruct (emissions _ _); [rewrite Hl, app_nil_r; by destruct l | apply lookup_insert_eq].
Qed.

(** ** Theorems *)

(** C3: end to end, the proctor's video log is the debouncer's output on
    the sampled frames.  For a camera registered for a student with a
    session log, after any sequence of successfully read frames the
    student's [video_warnings] has grown by exactly one entry per
    emission of the debouncer run on the frames whose counter is a
    multiple of three, in order, each stamped with the clock of its
    frame; the stored status and log time are the debouncer's final
    state; the users are untouched and the counter advanced by the number
    of frames. *)
Theorem video_log_emissions sid s fs l :
  registered sid s -> SESSION_LOGS (world s) !! sid = Some l ->
  let ss := sampled_samples (frame_count s) fs in
  let s' := feed s fs in
  SESSION_LOGS (world s') !! sid =
    Some (mkLog (video_warnings l ++ map video_entry (emissions (dstate (cam s)) ss))
                (browser_events l) (admin_actions l)) /\
  dstate (cam s') = snd (debounce_run (dstate (cam s)) ss) /\
  USERS (world s') = USERS (world s) /\
  frame_count s' = (frame_count s + length fs)%nat.
Proof.
  cbv zeta. unfold feed. revert s l.
  induction fs as [|[[n t] j] fs IH]; intros s l Hr Hl.
  - cbn. rewrite Hl, app_nil_r, Nat.add_0_r. destruct l; split_and!; reflexivity.
  - cbn [fold_left sampled_samples length].
    destruct (feed_frame_spec sid s n t j l Hr Hl) as (Hd & Hc & _).
    destruct (feed_frame_logs sid s n t j l Hr Hl) as (Hl1 & Hu1).
    assert (Hr1 : registered sid (feed_frame s (n, t, j))) by (apply process_frame_registered; exact Hr).
    destruct (IH _ _ Hr1 Hl1) as (H1 & H2 & H3 & H4).
    rewrite Hc, Hd in *. cbn in H1.
    rewrite emissions_app, debounce_run_app, map_app, app_assoc.
    split_and!; [exact H1 | exact H2 | congruence | lia].
Qed.

(** C26: the sampling policy.  From a counter that is a multiple of
    three, of every three consecutive frames exactly the first is
    classified: the others reach the debouncer not at all, so they keep
    the previous status (frames 0 and 3 of frames 0-5 in the
    specification's scenario). *)
Theorem sampled_every_third k f0 f1 f2 fs :
  sampled_samples (3 * k) (f0 :: f1 :: f2 :: fs) = sample_of f0 :: sampled_samples (3 * S k) fs.
Proof.
  destruct f0 as [[n0 t0] j0], f1 as [[n1 t1] j1], f2 as [[n2 t2] j2]. cbn [sampled_samples sample_of].
  assert (Hs : forall r, (r < 3)%nat -> sampled (3 * k + r) = Nat.eqb r 0).
  { intros r Hr. unfold sampled, DETECTION_FRAME_SKIP.
    rewrite Nat.add_comm, Nat.mul_comm, Nat.Div0.mod_add, Nat.mod_small by exact Hr. reflexivity. }
  rewrite <- (Nat.add_0_r (3 * k)), Hs by lia.
  replace (S (3 * k + 0)) with (3 * k + 1)%nat by lia. rewrite Hs by lia.
  replace (S (3 * k + 1)) with (3 * k + 2)%nat by lia. rewrite Hs by lia.
  replace (S (3 * k + 2)) with (3 * S k)%nat by lia. reflexivity.
Qed.

End Integration.
