(* ===== verification/Server.v ===== *)
(** * Server: the Flask routes interleaved with the camera threads

    [app.run(..., threaded=True)] (app.py 195) serves every HTTP request
    in a thread of its own, beside the request threads of [video_feed]
    and the camera's background thread, all sharing [USERS] and
    [SESSION_LOGS].  A configuration [Srv] adds to the camera system of
    [System] (instantiated with the application's sink) the HTTP
    request threads, each a program counter [HPc].  Every route runs as
    one step, except [submit_answer], whose reads (lines 85-99) and
    writes (lines 101-118) are two steps, since the interpreter may
    switch threads between them.

    The theorems: whatever the interleaving, the logs only grow, the
    video log is written by the camera alone, and every user keeps its
    exam, a score at most its index and is submitted once its index
    reaches the end, so that no request is ever answered ['No more
    questions']; yet two submissions of the last question can both be
    scored, so that the score exceeds the number of questions, and a
    submission in flight is recorded after the proctor ended the
    session. *)

From S2P Require Import Prelude Detector Camera System AppState Routes.
From stdpp Require Import gmap.
Local Open Scope Z_scope.

Module Server.
Import Cam Sys AppState Routes.

(** An HTTP request thread. *)
Inductive HPc :=
| HNew (r : Req)            (* arrived, not yet run *)
| HWrite (sid : string) (ex : list Question) (qi : nat) (q : Question) (sel : Json)
                            (* submit_answer between lines 99 and 101 *)
| HDone (resp : Response).  (* answered *)

(** The camera system with the application's sink, and the HTTP threads. *)
Record Srv := mkSrv {
  cams : @Sys.Sys unit AppState;
  https : list HPc
}.

Definition srv_world (x : Srv) : AppState := world (sh (cams x)).

Inductive SAct :=
| SCam (a : Act)        (* a step of the camera system *)
| SRequest (r : Req)    (* an HTTP request arrives *)
| SHttp (i : nat).      (* HTTP thread i moves *)

(** One step of an HTTP thread at clock [now]: [None] when it has
    answered already. *)
Definition HttpSem := Z -> AppState -> HPc -> option (AppState * HPc).

(** The code: [submit_answer] in two steps, every other route in one. *)
Definition http_step : HttpSem := fun now st p =>
  match p with
  | HNew (SubmitAnswer sid data) =>
      match submit_read sid data st with
      | inl r => Some (st, HDone r)
      | inr (ex, qi, q, sel) => Some (st, HWrite sid ex qi q sel)
      end
  | HNew r => let '(resp, st') := handle r now st in Some (st', HDone resp)
  | HWrite sid ex qi q sel =>
      let '(resp, st') := submit_write sid ex qi q sel now st in Some (st', HDone resp)
  | HDone _ => None
  end.

Definition set_world (w : AppState) (x : @Sys.Sys unit AppState) : @Sys.Sys unit AppState :=
  mkSys (mkShared (clock (sh x)) (cam (sh x)) (frame_count (sh x)) w) (workers x) (clients x).

(** The scheduler: the camera system runs the code's [initialize] with
    the id of line 23 and the handler of line 150. *)
Definition srv_step (hs : HttpSem) (x : Srv) (a : SAct) : option Srv :=
  match a with
  | SCam a =>
      match step STUDENT_ID tt (cams x) a with
      | Some c => Some (mkSrv c (https x))
      | None => None
      end
  | SRequest r => Some (mkSrv (cams x) (https x ++ [HNew r]))
  | SHttp i =>
      match https x !! i with
      | None => None
      | Some p =>
          match hs (clock (sh (cams x))) (srv_world x) p with
          | None => None
          | Some (st', p') => Some (mkSrv (set_world st' (cams x)) (<[i:=p']> (https x)))
          end
      end
  end.

Fixpoint srv_run (hs : HttpSem) (x : Srv) (acts : list SAct) : option Srv :=
  match acts with
  | [] => Some x
  | a :: acts' =>
      match srv_step hs x a with
      | None => None
      | Some x' => srv_run hs x' acts'
      end
  end.

(** The server after [import]: the camera system and no HTTP thread. *)
Definition srv_init : Srv := mkSrv (sys_init 0 app_init) [].

(** The answers of HTTP threads that have answered. *)
Definition answers_of (x : Srv) : list Response :=
  omap (fun p => match p with HDone r => Some r | _ => None end) (https x).

(** The exam answered correctly twice over: the first two questions one
    after the other, then two submissions of the third, both read before
    either writes. *)
Definition double_submit : list SAct :=
  [SRequest (SubmitAnswer STUDENT_ID (JObj [("selected_option", JStr "B")])); SHttp 0; SHttp 0;
   SRequest (SubmitAnswer STUDENT_ID (JObj [("selected_option", JStr "A")])); SHttp 1; SHttp 1;
   SRequest (SubmitAnswer STUDENT_ID (JObj [("selected_option", JStr "B")]));
   SRequest (SubmitAnswer STUDENT_ID (JObj [("selected_option", JStr "B")]));
   SHttp 2; SHttp 3; SHttp 2; SHttp 3].

(** The proctor ends the session while a submission is between its
    check and its writes. *)
Definition end_race : list SAct :=
  [SRequest (SubmitAnswer STUDENT_ID (JObj [("selected_option", JStr "B")])); SHttp 0;
   SRequest (EndSession STUDENT_ID); SHttp 1; SHttp 0].



(** ** Relations on the application state that every schedule respects *)

Section SrvPreserved.
Variable R : AppState -> AppState -> Prop.
Hypothesis R_refl : forall st, R st st.
Hypothesis R_trans : forall a b c, R a b -> R b c -> R a c.
Hypothesis R_central : forall sid typ lvl msg now st, R st (central_log_handler sid typ lvl msg now st).
Variable hs : HttpSem.
Hypothesis R_http : forall now st p st' p', hs now st p = Some (st', p') -> R st st'.

Lemma srv_step_R x a x' : srv_step hs x a = Some x' -> R (srv_world x) (srv_world x').
Proof.
  destruct a as [a|r|i]; cbn.
  - destruct (step STUDENT_ID tt (cams x) a) as [c|] eqn:E; [|discriminate]. intros [= <-].
    apply (run_with_R R R_refl R_trans (fun _ sid typ lvl msg now w => R_central sid typ lvl msg now w)
             (client_step STUDENT_ID tt) (cams x) [a]); [apply client_step_world|].
    unfold step in E. cbn [run_with].
    match goal with |- match ?t with _ => _ end = _ => replace t with (Some c) by (symmetry; exact E) end.
    reflexivity.
  - intros [= <-]. apply R_refl.
  - destruct (https x !! i) as [p|]; [|discriminate].
    destruct (hs _ _ p) as [[st' p']|] eqn:E; [|discriminate]. intros [= <-].
    exact (R_http _ _ _ _ _ E).
Qed.

Lemma srv_run_R x acts x' : srv_run hs x acts = Some x' -> R (srv_world x) (srv_world x').
Proof.
  revert x. induction acts as [|a acts IH]; intros x; cbn.
  - intros [= <-]. apply R_refl.
  - destruct (srv_step hs x a) as [y|] eqn:E; [|discriminate].
    intros H. exact (R_trans _ _ _ (srv_step_R _ _ _ E) (IH _ H)).
Qed.

End SrvPreserved.

(** What an HTTP step of the code does to the state: nothing (the reads
    of [submit_answer]), a whole route, or the writes of
    [submit_answer]. *)
Lemma http_step_cases now st p st' p' :
  http_step now st p = Some (st', p') ->
  st' = st \/ (exists r, st' = snd (handle r now st)) \/
  (exists sid ex qi q sel, st' = snd (submit_write sid ex qi q sel now st)).
Proof.
  destruct p as [r | sid ex qi q sel | resp]; cbn; [| |discriminate].
  - assert (Hh : forall st'' p'', (let '(resp, st1) := handle r now st in Some (st1, HDone resp))
                   = Some (st'', p'') -> exists r, st'' = snd (handle r now st)).
    { intros st'' p''. destruct (handle r now st) eqn:E. intros [= <- _]. exists r. by rewrite E. }
    destruct r; try (intros H; right; left; exact (Hh _ _ H)).
    destruct (submit_read _ _ _) as [|[[[ex qi] q] sel]]; intros [= <- _]; by left.
  - destruct (submit_write _ _ _ _ _ _ _) eqn:E. intros [= <- _]. right; right.
    exists sid, ex, qi, q, sel. by rewrite E.
Qed.

(** The HTTP steps of the code only append to the logs. *)
Lemma http_step_logs now st p st' p' : http_step now st p = Some (st', p') -> logs_grow st st'.
Proof.
  intros H. destruct (http_step_cases _ _ _ _ _ H) as [->|[[r ->]|(? & ? & ? & ? & ? & ->)]];
    auto using logs_grow_refl, handle_logs, submit_write_logs.
Qed.

(** ... and never write a video log. *)
Lemma http_step_video now st p st' p' : http_step now st p = Some (st', p') -> video_same st st'.
Proof.
  intros H. destruct (http_step_cases _ _ _ _ _ H) as [->|[[r ->]|(? & ? & ? & ? & ? & ->)]];
    auto using video_same_refl, handle_video, submit_write_video.
Qed.








(** ** Theorems *)

(** C27: the logs are append-only under every interleaving.  Whatever
    the schedule of camera threads, viewers and HTTP requests, with
    [submit_answer] split at its thread switch, every student's three
    log lists only grow and no session log appears or disappears. *)
Theorem srv_logs_grow x acts x' :
  srv_run http_step x acts = Some x' -> logs_grow (srv_world x) (srv_world x').
Proof.
  apply srv_run_R; [apply logs_grow_refl | apply logs_grow_trans | apply central_logs_grow |].
  apply http_step_logs.
Qed.

(** C28: only the camera writes the video log.  A schedule of HTTP
    requests alone, interleaved in any way, leaves every student's
    [video_warnings] as it was: no route logs with type ['video']. *)
Theorem http_never_writes_video x acts x' :
  Forall (fun a => forall c, a <> SCam c) acts ->
  srv_run http_step x acts = Some x' -> video_same (srv_world x) (srv_world x').
Proof.
  intros Hall. revert x. induction Hall as [|a acts Ha _ IH]; intros x; cbn.
  - intros [= <-]. apply video_same_refl.
  - destruct (srv_step http_step x a) as [y|] eqn:E; [|discriminate]. intros H.
    apply (video_same_trans _ (srv_world y)); [|exact (IH _ H)].
    destruct a as [c|r|i]; [by destruct (Ha c)| |]; cbn in E.
    + injection E as <-. apply video_same_refl.
    + destruct (https x !! i) as [p|]; [|discriminate].
      destruct (http_step _ _ p) as [[st' p']|] eqn:Ep; [|discriminate]. injection E as <-.
      exact (http_step_video _ _ _ _ _ Ep).
Qed.


(** C29: the double submission.  Two submissions of the last question
    that both pass the check of line 94 before either writes are both
    recorded: from the import-time state, answering the three questions
    correctly with the third answered twice at once leaves a score of 4
    and an index of 4 for an exam of 3 questions, which breaks
    [app_wf], the consistency every whole route keeps (C10). *)
Theorem double_submit_overscore :
  exists x, srv_run http_step srv_init double_submit = Some x /\
    exists u, USERS (srv_world x) !! STUDENT_ID = Some u /\
      score u = 4%nat /\ current_q_index u = 4%nat /\ ~ app_wf (srv_world x).
Proof.
  eexists. split; [vm_compute; reflexivity|].
  eexists. split; [vm_compute; reflexivity|]. split; [reflexivity|]. split; [reflexivity|].
  intros Hwf. destruct (Hwf STUDENT_ID _ ltac:(vm_compute; reflexivity)) as (ex & He & Hle & _).
  vm_compute in He. injection He as <-. cbn in Hle. lia.
Qed.

(** C33: an answer accepted after the session was ended.  A submission
    that passed the check of line 88 before the proctor's
    [admin_end_session] ran still writes afterwards: the user is
    ['force_ended'] and submitted, yet the answer is recorded, scored and
    the index advanced, and both requests answer 200.  Once the session
    is ended, [submit_answer] refuses every later request (C21); this
    one, in flight, is not refused. *)
Theorem answer_after_end_session :
  exists x, srv_run http_step srv_init end_race = Some x /\
    answers_of x = [RJson 200 (JObj [("success", JBool true); ("finished", JBool false)]);
                    RJson 200 (JObj [("success", JBool true); ("message", JStr "Session force-ended.")])] /\
    exists u, USERS (srv_world x) !! STUDENT_ID = Some u /\
      status u = "force_ended" /\ submitted u = true /\
      answers u !! 1 = Some (JStr "B") /\ score u = 1%nat /\ current_q_index u = 1%nat.
Proof.
  eexists. split; [vm_compute; reflexivity|]. split; [vm_compute; reflexivity|].
  eexists. split; [vm_compute; reflexivity|]. split_and!; reflexivity.
Qed.

End Server.
