(* ===== verification/Scenarios.v ===== *)
(** * Scenarios: the camera system wired to the application

    [video_feed] (app.py 146-154) hands [central_log_handler] to
    [initialize], so the camera's sink is [AppState.central_sink] and the
    world it updates is the application's [AppState].  This file fixes
    that instance, [app_sys], and runs concrete schedules on it: the
    teardown race that leaves a viewer on a frozen stream, the failed
    device open, the idle shutdown and the failing reads, and concrete
    requests to the routes and to the threaded server.  Each schedule
    instantiates a theorem of [System], [Reach], [Loop], [Routes],
    [Integration], [Server] or [Camera] at a reachable input. *)

From S2P Require Import Prelude Detector Debouncer Camera System AppState Routes Integration Server Reach Loop.
From stdpp Require Import gmap.
Local Open Scope Z_scope.

Module Scenarios.
Import Detector Debouncer Cam Sys AppState Routes Integration Server Reach Loop.

(** ** The instance of [app.py] *)

(** The process right after [import]: the clock at 0 and the tables of
    lines 17-24. *)
Definition app_sys : @Sys.Sys unit AppState := sys_init 0 app_init.

(** A schedule of the code, with the id of line 23 and the handler of
    line 150. *)
Definition app_run : @Sys.Sys unit AppState -> list Act -> option (@Sys.Sys unit AppState) :=
  run STUDENT_ID tt.

(** The state a schedule reaches, or [app_sys] when it is not runnable. *)
Definition reach (acts : list Act) : @Sys.Sys unit AppState :=
  default app_sys (app_run app_sys acts).

Definition jpeg1 : bytes := [Byte.xff; Byte.xd8; Byte.x01].

(** The teardown race: a viewer opens the stream; the thread opens
    device 0, settles, publishes one frame; the viewer reads it once and
    leaves (its generator is never resumed, so no [get_frame] refreshes
    [last_access]); more than 10 s later the thread finds the idle
    condition and breaks; between the [break] and line 137 a second
    viewer's [initialize] sees [Camera.thread] still set and starts no
    thread; then the old thread clears [Camera.thread] and returns. *)
Definition teardown_race : list Act :=
  [Request STUDENT_ID; ClientStep 0; ClientStep 0; ClientStep 0; ClientStep 0;
   WorkerStep 0 (OOpen true); Tick SETTLE_DELAY; WorkerStep 0 ONone; WorkerStep 0 ONone;
   WorkerStep 0 (OFrame 1 true jpeg1); ClientStep 0; ClientStep 0;
   Tick (11 sec)%cam; WorkerStep 0 ONone;
   Request STUDENT_ID; ClientStep 1; ClientStep 1;
   WorkerStep 0 ONone; WorkerStep 0 ONone].

(** What follows: both viewers poll and yield, the clock advances. *)
Definition frozen_tail : list Act :=
  [ClientStep 1; ClientStep 1; ClientStep 0; ClientStep 0; ClientStep 1;
   Tick (1 sec)%cam; ClientStep 1; ClientStep 1; ClientStep 1].

(** Both devices fail to open: the thread publishes [b''] and returns. *)
Definition open_failure : list Act :=
  [Request STUDENT_ID; ClientStep 0; ClientStep 0; ClientStep 0;
   WorkerStep 0 (OOpen false); Tick SETTLE_DELAY; WorkerStep 0 (OOpen false)].

(** A later viewer arrives and both viewers keep polling. *)
Definition dead_tail : list Act :=
  [Request STUDENT_ID; ClientStep 1; ClientStep 1; ClientStep 1; ClientStep 1;
   ClientStep 0; ClientStep 0; ClientStep 1; Tick (1 sec)%cam; ClientStep 0].

(** A thread at the top of its loop, 11 s after the last [get_frame]. *)
Definition idle_shared : @Shared unit AppState :=
  mkShared (11 sec)%cam (mkCamera (Some 0%nat) (Some jpeg1) 0 (Some tt) (Some STUDENT_ID) 0 Detected)
    3 app_init.

(** The idle shutdown of that thread: a last frame, the pacing sleep,
    the idle check, release, line 137. *)
Definition shutdown_trace : list Act :=
  [WorkerStep 0 ONone; WorkerStep 0 (OFrame 2 true jpeg1); Tick TARGET_DELAY;
   WorkerStep 0 ONone; WorkerStep 0 ONone; WorkerStep 0 ONone].

Definition after_shutdown : @Sys.Sys unit AppState :=
  default app_sys (app_run (mkSys idle_shared [WLoop 0] []) shutdown_trace).

(** The camera right after the first [initialize], with the frames of
    a session: one face, absent for three frames, two faces, back. *)
Definition registered_shared : @Shared unit AppState :=
  mkShared 0 (mkCamera (Some 0%nat) None 0 (Some tt) (Some STUDENT_ID) 0 Detected) 0 app_init.

Definition session_frames : list Frame :=
  [(1%nat, 1000, jpeg1); (1%nat, 2000, jpeg1); (1%nat, 3000, jpeg1); (0%nat, 4000, jpeg1); (0%nat, 5000, jpeg1);
   (0%nat, 6000, jpeg1); (0%nat, 7000, jpeg1); (2%nat, 8000, jpeg1); (2%nat, 9000, jpeg1); (2%nat, 10000, jpeg1);
   (1%nat, 11000, jpeg1); (1%nat, 12000, jpeg1); (1%nat, 13000, jpeg1)].

(** A viewer that asked for a frame before the first one existed, asleep
    in the poll loop when the thread publishes its first frame. *)
Definition waiting_trace : list Act :=
  [Request STUDENT_ID; ClientStep 0; ClientStep 0; ClientStep 0; ClientStep 0; ClientStep 0;
   WorkerStep 0 (OOpen true); Tick SETTLE_DELAY; WorkerStep 0 ONone; WorkerStep 0 ONone;
   WorkerStep 0 (OFrame 1 true jpeg1)].

(** Every read takes 1/60 s. *)
Definition steady_reads : nat -> RFrame := fun _ => (1%nat, 500%Z, true, jpeg1).

(** The answer of the first question, as the browser posts it. *)
Definition answer_B : Json := JObj [("selected_option", JStr "B")].

(** [app_init] after the first answer. *)
Definition after_answer : AppState := snd (submit_answer STUDENT_ID answer_B 0 app_init).

(** The first question as [get_question] sends it at import time. *)
Definition first_question_items : list (string * Json) :=
  match get_question STUDENT_ID app_init with RJson _ (JObj kvs) => kvs | _ => [] end.

(** ** Concrete checks of the reachable-state predicates *)

Lemma frozen_intro f (x : @Sys.Sys unit AppState) :
  Forall (fun p => alive p = false) (workers x) ->
  frame (cam (sh x)) = Some f ->
  Forall (fun c => streaming (c_pc c) = true /\ forall g, c_pc c = CYield g -> g = f) (clients x) ->
  frozen f x.
Proof.
  intros Hw Hf Hc. split; [|split; [exact Hf|]].
  - intros i p Hi. exact (proj1 (Forall_lookup _ _) Hw i p Hi).
  - intros i c Hi. exact (proj1 (Forall_lookup _ _) Hc i c Hi).
Qed.

Lemma dead_intro (x : @Sys.Sys unit AppState) :
  Forall (fun p => alive p = false) (workers x) ->
  thread (cam (sh x)) <> None -> frame (cam (sh x)) = Some [] ->
  Forall (fun c => c_pc c <> CSpawn /\ forall g, c_pc c = CYield g -> g = []) (clients x) ->
  dead x.
Proof.
  intros Hw Ht Hf Hc. split; [|split; [exact Ht | split; [exact Hf|]]].
  - intros i p Hi. exact (proj1 (Forall_lookup _ _) Hw i p Hi).
  - intros i c Hi. exact (proj1 (Forall_lookup _ _) Hc i c Hi).
Qed.

(** Discharge a [Forall] over a concrete list of threads. *)
Ltac forall_threads :=
  vm_compute; repeat constructor; try discriminate; intros ? [=]; try reflexivity.

(** ** Witnesses *)

Example stream_frozen_witness :
  let x := reach teardown_race in
  let x' := default x (app_run x frozen_tail) in
  world (sh x') = world (sh x) /\ sent_only jpeg1 x x'.
Proof.
  cbv zeta.
  destruct (stream_frozen STUDENT_ID tt jpeg1 (reach teardown_race) frozen_tail
              (default (reach teardown_race) (app_run (reach teardown_race) frozen_tail)))
    as (_ & Hw & _ & Hs).
  - apply frozen_intro; [forall_threads | vm_compute; reflexivity | forall_threads].
  - repeat constructor; discriminate.
  - vm_compute. reflexivity.
  - split; assumption.
Defined.

Example device_failure_permanent_witness :
  let x := reach open_failure in
  let x' := default x (app_run x dead_tail) in
  world (sh x') = world (sh x) /\ silent x x'.
Proof.
  cbv zeta.
  destruct (device_failure_permanent STUDENT_ID tt (reach open_failure) dead_tail
              (default (reach open_failure) (app_run (reach open_failure) dead_tail)))
    as (_ & Hw & Hs).
  - apply dead_intro; [forall_threads | vm_compute; discriminate | vm_compute; reflexivity
                      | forall_threads].
  - vm_compute. reflexivity.
  - split; assumption.
Defined.

Example idle_shutdown_witness :
  exists x', app_run (mkSys idle_shared [WLoop 0] [])
               [WorkerStep 0 ONone; WorkerStep 0 (OFrame 2 true jpeg1); Tick TARGET_DELAY;
                WorkerStep 0 ONone; WorkerStep 0 ONone; WorkerStep 0 ONone] = Some x' /\
    workers x' !! 0%nat = Some WDone /\ thread (cam (sh x')) = None /\
    frame (cam (sh x')) = Some jpeg1.
Proof. apply (idle_shutdown STUDENT_ID tt idle_shared [WLoop 0] [] 0 0); vm_compute; reflexivity. Defined.

Example read_failure_never_stops_witness :
  app_run (mkSys idle_shared [WLoop 0] [])
    (List.concat (List.repeat (read_fail_cycle 0) 40)) =
  Some (mkSys (mkShared (clock idle_shared + Z.of_nat 40 * READ_RETRY_DELAY) (cam idle_shared)
                 (frame_count idle_shared) (world idle_shared)) [WLoop 0] []).
Proof. apply (read_failure_never_stops STUDENT_ID tt idle_shared [WLoop 0] [] 0 0). reflexivity. Defined.

Example unsampled_ignores_faces_witness :
  process_frame 0 true jpeg1 (mkShared 0 (camera_init 0) 4 app_init)
  = process_frame 5 true jpeg1 (mkShared 0 (camera_init 0) 4 app_init).
Proof. apply unsampled_ignores_faces. reflexivity. Defined.

Example get_question_hides_answer_witness :
  Forall (fun kv => fst kv <> "answer") first_question_items.
Proof.
  apply (get_question_hides_answer STUDENT_ID app_init 200). vm_compute. reflexivity.
Defined.

Example handle_preserves_wf_witness :
  app_wf (snd (handle (SubmitAnswer STUDENT_ID answer_B) 0 app_init)).
Proof. apply handle_preserves_wf. apply app_init_wf. Defined.

Example submit_answer_records_witness :
  USERS after_answer !! STUDENT_ID =
    Some (mkUser "Alice Smith" "exam_001" 1 "active" false 1 (<[1 := JStr "B"]> ∅)) /\
  SESSION_LOGS after_answer = SESSION_LOGS app_init.
Proof.
  pose proof (submit_answer_records STUDENT_ID
                (mkUser "Alice Smith" "exam_001" 0 "active" false 0 ∅)
                (default [] (EXAMS !! "exam_001"))
                (mkQuestion 1 "What is the capital of France?"
                   [("A", "Berlin"); ("B", "Paris"); ("C", "Rome")] "B")
                "B" 0 app_init) as H.
  vm_compute in H |- *. apply H; reflexivity.
Defined.

Example end_session_blocks_witness :
  let st' := snd (admin_end_session STUDENT_ID 0 app_init) in
  get_question STUDENT_ID st' = RJson 404 (err_json "Exam ended or user not found") /\
  submit_answer STUDENT_ID answer_B 100 st' =
    (RJson 400 (err_json "Exam ended or user not found"), st').
Proof.
  apply (end_session_blocks STUDENT_ID (mkUser "Alice Smith" "exam_001" 0 "active" false 0 ∅)).
  vm_compute. reflexivity.
Defined.

Example browser_event_logged_witness :
  log_browser_event (JObj [("student_id", JStr STUDENT_ID); ("event_type", JStr "copy");
                           ("details", JStr "ctrl+c")]) 0 app_init =
  (RJson 200 (JObj [("status", JStr "logged")]),
   mkApp (USERS app_init)
     (<[STUDENT_ID := add_browser (mkEntry (strftime_hms 0) "browser" "CRITICAL"
                                   ("Event: " +:+ py_upper "copy" +:+ ". Details: " +:+ "ctrl+c"))
                       (mkLog [] [] [])]> (SESSION_LOGS app_init))).
Proof.
  apply (browser_event_logged STUDENT_ID (mkLog [] [] []) "copy" "ctrl+c" 0 app_init).
  vm_compute. reflexivity.
Defined.

Example browser_event_bad_type_witness :
  log_browser_event (JObj [("student_id", JStr STUDENT_ID); ("event_type", JInt 3);
                           ("details", JStr "")]) 0 app_init = (RError 500, app_init).
Proof.
  apply (browser_event_bad_type STUDENT_ID (mkLog [] [] [])); [vm_compute; reflexivity|].
  intros e; discriminate.
Defined.

Example warning_unknown_student_dropped_witness :
  admin_send_warning "student_999" (JObj [("message", JStr "eyes on screen")]) 0 app_init =
  (RJson 200 (JObj [("success", JBool true);
                    ("message", JStr "Warning logged and sent (conceptually).")]), app_init).
Proof. apply warning_unknown_student_dropped. vm_compute. reflexivity. Defined.

Example video_log_emissions_witness :
  SESSION_LOGS (world (feed registered_shared session_frames)) !! STUDENT_ID =
    Some (mkLog (map video_entry
                   [mkEmission NotDetected "CRITICAL"
                      "User Face NOT DETECTED (out of frame/covered)." 4000;
                    mkEmission Multiple "CRITICAL" "MULTIPLE FACES detected: 2 people in view." 10000;
                    mkEmission Detected "INFO" "Face detected and centered." 13000])
                [] []) /\
  dstate (cam (feed registered_shared session_frames)) = mkD Detected 13000 /\
  USERS (world (feed registered_shared session_frames)) = USERS app_init /\
  frame_count (feed registered_shared session_frames) = 13%nat.
Proof.
  pose proof (video_log_emissions STUDENT_ID registered_shared session_frames (mkLog [] [] []))
    as H.
  destruct H as (H1 & H2 & H3 & H4).
  - split_and!; [reflexivity | reflexivity | discriminate].
  - vm_compute. reflexivity.
  - split_and!; [rewrite H1 | rewrite H2 | exact H3 | exact H4]; vm_compute; reflexivity.
Defined.

Example restart_inherits_state_witness :
  exists x', app_run after_shutdown [Request STUDENT_ID; ClientStep 0; ClientStep 0; ClientStep 0]
             = Some x' /\
    workers x' = [WDone; WStart] /\ thread (cam (sh x')) = Some 1%nat /\
    frame (cam (sh x')) = Some jpeg1 /\ frame_count (sh x') = 4%nat /\
    dstate (cam (sh x')) = dstate (cam (sh after_shutdown)).
Proof.
  destruct (restart_inherits_state STUDENT_ID tt after_shutdown) as (x' & H1 & H2 & H3 & H4 & H5 & H6).
  - vm_compute. reflexivity.
  - exists x'. split; [exact H1|].
    rewrite H2, H3, H4, H5, H6. split_and!; vm_compute; reflexivity.
Defined.

Example srv_logs_grow_witness :
  logs_grow (srv_world srv_init)
    (srv_world (default srv_init (srv_run http_step srv_init double_submit))).
Proof. apply srv_logs_grow with double_submit. vm_compute. reflexivity. Defined.

Example http_never_writes_video_witness :
  video_same (srv_world srv_init)
    (srv_world (default srv_init (srv_run http_step srv_init double_submit))).
Proof.
  apply http_never_writes_video with double_submit; [|vm_compute; reflexivity].
  repeat constructor; discriminate.
Defined.

(** Every read takes 1/60 s and nobody reads. *)
Example idle_loop_terminates_witness :
  idle (fst (solo_loop (fun _ => (1%nat, 500%Z, true, jpeg1)) 0 registered_shared)) = true /\
  last_access (cam (fst (solo_loop (fun _ => (1%nat, 500%Z, true, jpeg1)) 0 registered_shared))) =
    last_access (cam registered_shared) /\
  (1 <= snd (solo_loop (fun _ => (1%nat, 500%Z, true, jpeg1)) 0 registered_shared) <= 301)%nat.
Proof. apply idle_loop_terminates. cbn. lia. Defined.

Example warning_visible_witness :
  get_latest_logs STUDENT_ID
    (snd (admin_send_warning STUDENT_ID (JObj [("message", JStr "eyes on screen")]) 0 app_init)) =
  RJson 200 (session_json (add_admin (mkEntry (strftime_hms 0) "admin" "WARNING"
                                        ("Proctor sent warning: " +:+ "eyes on screen"))
                             (mkLog [] [] []))).
Proof. apply warning_visible. vm_compute. reflexivity. Defined.

Example submit_then_next_witness :
  get_question STUDENT_ID (snd (submit_answer STUDENT_ID (JObj [("selected_option", JStr "C")]) 0 app_init)) =
  RJson 200 (JObj (filter (fun kv => fst kv <> "answer")
                     (question_items (mkQuestion 2 "What does SQL stand for?"
                        [("A", "Structured Query Language"); ("B", "Standard Question Language");
                         ("C", "Simple Query Logic")] "A"))
                   ++ [("q_number", JInt (Z.of_nat 1 + 1))])).
Proof.
  apply (submit_then_next STUDENT_ID (mkUser "Alice Smith" "exam_001" 0 "active" false 0 ∅)
           (default [] (EXAMS !! "exam_001"))
           (mkQuestion 1 "What is the capital of France?"
              [("A", "Berlin"); ("B", "Paris"); ("C", "Rome")] "B"));
    vm_compute; reflexivity.
Defined.

Example viewer_bounded_wait_witness :
  exists x', app_run (reach waiting_trace) [Tick POLL_DELAY; ClientStep 0; ClientStep 0; ClientStep 0]
             = Some x' /\
    clients x' !! 0%nat = Some (mkClient STUDENT_ID CAccess ([] ++ [chunk jpeg1])) /\
    clock (sh x') = clock (sh (reach waiting_trace)) + POLL_DELAY.
Proof.
  apply (viewer_bounded_wait STUDENT_ID tt (reach waiting_trace) 0
           (mkClient STUDENT_ID (CSleep (POLL_DELAY)) []) POLL_DELAY jpeg1);
    [| vm_compute; reflexivity | reflexivity | vm_compute; reflexivity | discriminate].
  constructor; vm_compute.
  - intros i [= <-]. lia.
  - repeat constructor; discriminate.
  - repeat constructor; discriminate.
  - discriminate.
Defined.

Example no_reader_releases_witness :
  run_with (client_step STUDENT_ID tt) (mkSys registered_shared [WLoop 0] [])
    (loop_acts 0 steady_reads 0 (snd (solo_loop steady_reads 0 registered_shared))
     ++ [WorkerStep 0 ONone; WorkerStep 0 ONone]) =
  Some (mkSys (set_cam (set_thread None (cam (fst (solo_loop steady_reads 0 registered_shared))))
                 (fst (solo_loop steady_reads 0 registered_shared)))
          (<[0%nat := WDone]> [WLoop 0]) []) /\
  (snd (solo_loop steady_reads 0 registered_shared) <= 301)%nat.
Proof.
  apply (no_reader_releases (client_step STUDENT_ID tt) registered_shared [WLoop 0] [] 0 0 steady_reads);
    [reflexivity | intros k; cbn; lia | cbn; lia].
Defined.

Example exam_score_counts_witness :
  exists u', USERS (submit_all STUDENT_ID ["B"; "B"; "B"] 0 app_init) !! STUDENT_ID = Some u' /\
    current_q_index u' = 3%nat /\ submitted u' = true /\ score u' = 2%nat.
Proof.
  destruct (exam_score_counts STUDENT_ID (mkUser "Alice Smith" "exam_001" 0 "active" false 0 ∅)
              (default [] (EXAMS !! "exam_001")) ["B"; "B"; "B"] 0 app_init)
    as (u' & Hu & _ & _ & _ & Hi & Hs & Hsc & _);
    [vm_compute; reflexivity | reflexivity | vm_compute; reflexivity | discriminate
    | vm_compute; reflexivity |].
  exists u'. split_and!; [exact Hu | rewrite Hi; vm_compute; reflexivity | exact Hs |].
  rewrite Hsc. vm_compute. reflexivity.
Defined.

(** The two viewers of the race, on a serial schedule: one thread, one
    device, both viewers served. *)
Example serial_single_worker_witness :
  exists x, run_serial STUDENT_ID tt app_sys (serial_trace STUDENT_ID) = Some x /\
    (live x <= 1)%nat /\ handles x = 1%nat /\ List.length (clients x) = 2%nat.
Proof.
  eexists. split; [vm_compute; reflexivity|]. split.
  - apply (proj2 (serial_single_worker STUDENT_ID tt 0 app_init (serial_trace STUDENT_ID) _
                    ltac:(vm_compute; reflexivity))).
  - split; vm_compute; reflexivity.
Defined.


End Scenarios.
